(** * create-k8s-app: package-reference resolution, installation and rollback

  A shallow embedding of [createK8sApp.js]: the directory guard
  [isSafeToCreateProjectIn], the reference resolver [getInstallPackage],
  the name extractor [getPackageName], the installer [install], and
  [createApp] and [run] with the rollback handler.

  JavaScript strings are modelled as [string], one [ascii] per code unit
  (code units below 256).  Promises are modelled by the state they are in
  when the process ends.  The file system is modelled by the listing of
  the project root. *)

From Stdlib Require Import String Ascii List Bool ZArith NArith Lia.
From Stdlib Require Import DecimalString DecimalN DecimalFacts.
Import ListNotations.
Open Scope string_scope.

(* ================================================================== *)
(** ** JavaScript strings *)

Module JsString.

(** [s.indexOf(pat)]: [None] stands for [-1]. *)
Definition indexOf (s pat : string) : option nat := String.index 0 pat s.

(** [s.indexOf(pat) === 0] *)
Definition indexOf_is_0 (s pat : string) : bool :=
  match indexOf s pat with
  | Some 0 => true
  | _ => false
  end.

(** [s.indexOf(pat) === -1] *)
Definition indexOf_is_minus1 (s pat : string) : bool :=
  match indexOf s pat with
  | None => true
  | Some _ => false
  end.

(** [arr.includes(x)] on an array of strings. *)
Definition includes (arr : list string) (x : string) : bool :=
  existsb (String.eqb x) arr.

(** [s.charAt(i)]: the empty string out of range. *)
Definition charAt (i : nat) (s : string) : string := String.substring i 1 s.

(** [s.substr(i)]: from index [i] to the end. *)
Definition substr (i : nat) (s : string) : string :=
  String.substring i (String.length s - i) s.

(** [s.split(sep)] for a one-character separator. *)
Fixpoint split (sep : ascii) (s : string) : list string :=
  match s with
  | EmptyString => [EmptyString]
  | String c s' =>
      if Ascii.eqb c sep then EmptyString :: split sep s'
      else match split sep s' with
           | h :: t => String c h :: t
           | [] => [String c EmptyString]
           end
  end.

(** [arr.join(sep)] *)
Definition join (sep : string) (arr : list string) : string :=
  String.concat sep arr.

(** Truthiness of a string: only the empty string is falsy. *)
Definition truthy (s : string) : bool :=
  match s with
  | EmptyString => false
  | String _ _ => true
  end.

(** ECMAScript LineTerminator, restricted to code units below 256:
    line feed and carriage return. *)
Definition line_terminator (c : ascii) : bool :=
  (Ascii.eqb c "010" || Ascii.eqb c "013")%bool.

Definition is_digit (c : ascii) : bool :=
  let n := nat_of_ascii c in ((48 <=? n) && (n <=? 57))%nat%bool.

Definition is_alpha (c : ascii) : bool :=
  let n := nat_of_ascii c in
  (((65 <=? n) && (n <=? 90)) || ((97 <=? n) && (n <=? 122)))%nat%bool.

(** Every character of [s] satisfies [p]. *)
Fixpoint all_chars (p : ascii -> bool) (s : string) : bool :=
  match s with
  | EmptyString => true
  | String c s' => (p c && all_chars p s')%bool
  end.

End JsString.

(* ================================================================== *)
(** ** Regular expressions

  A backtracking matcher for the fragment of ECMAScript patterns that the
  program uses: literals, [.], character classes, sequence, alternation,
  greedy and lazy iteration of a one-character atom, the greedy optional
  [r?], capture groups, [$], and [^] at the head of a pattern.  The
  matcher explores alternatives in the order of the ECMAScript
  specification, so the captures are those of [String.prototype.match]. *)

Module Regex.

Inductive re : Type :=
| Eps
| Chr (c : ascii)                       (* a literal character *)
| Cls (p : ascii -> bool)               (* a one-character class *)
| Seq (r1 r2 : re)
| Alt (r1 r2 : re)                      (* r1|r2 *)
| Star (greedy : bool) (p : ascii -> bool)  (* p* and p*? *)
| Opt (r : re)                          (* r? *)
| Grp (i : nat) (r : re)                (* the i-th capture group *)
| Eol.                                  (* $ without the m flag *)

(** The class of [.]: everything but line terminators. *)
Definition dot : ascii -> bool := fun c => negb (JsString.line_terminator c).
(** [\d] *)
Definition digit : ascii -> bool := JsString.is_digit.
(** [[^c]] *)
Definition notc (c : ascii) : ascii -> bool := fun a => negb (Ascii.eqb a c).

(** [p+] and [p+?] *)
Definition Plus (greedy : bool) (p : ascii -> bool) : re :=
  Seq (Cls p) (Star greedy p).

(** A literal string. *)
Fixpoint Lit (s : string) : re :=
  match s with
  | EmptyString => Eps
  | String c s' => Seq (Chr c) (Lit s')
  end.

(** Captures: the most recent binding of a group comes first. *)
Definition caps := list (nat * string).
(** A continuation receives the rest of the input and the captures. *)
Definition cont := string -> caps -> option caps.

Fixpoint star (greedy : bool) (p : ascii -> bool) (s : string) (c : caps)
         (k : cont) {struct s} : option caps :=
  match s with
  | String a s' =>
      if p a then
        if greedy then
          match star greedy p s' c k with
          | Some r => Some r
          | None => k s c
          end
        else
          match k s c with
          | Some r => Some r
          | None => star greedy p s' c k
          end
      else k s c
  | EmptyString => k s c
  end.

(** The text consumed between input [s] and its suffix [s']. *)
Definition consumed (s s' : string) : string :=
  String.substring 0 (String.length s - String.length s') s.

Fixpoint m (r : re) (s : string) (c : caps) (k : cont) {struct r}
  : option caps :=
  match r with
  | Eps => k s c
  | Chr a =>
      match s with
      | String b s' => if Ascii.eqb a b then k s' c else None
      | EmptyString => None
      end
  | Cls p =>
      match s with
      | String b s' => if p b then k s' c else None
      | EmptyString => None
      end
  | Seq r1 r2 => m r1 s c (fun s1 c1 => m r2 s1 c1 k)
  | Alt r1 r2 =>
      match m r1 s c k with
      | Some x => Some x
      | None => m r2 s c k
      end
  | Star greedy p => star greedy p s c k
  | Opt r1 =>
      (* an iteration that consumes nothing is rejected *)
      match m r1 s c (fun s1 c1 =>
               if Nat.eqb (String.length s1) (String.length s)
               then None else k s1 c1) with
      | Some x => Some x
      | None => k s c
      end
  | Grp i r1 => m r1 s c (fun s1 c1 => k s1 ((i, consumed s s1) :: c1))
  | Eol =>
      match s with
      | EmptyString => k s c
      | String _ _ => None
      end
  end.

Definition accept : cont := fun _ c => Some c.

(** The leftmost start position at which the pattern matches. *)
Fixpoint search (r : re) (s : string) : option caps :=
  match m r s [] accept with
  | Some c => Some c
  | None =>
      match s with
      | EmptyString => None
      | String _ s' => search r s'
      end
  end.

(** A pattern: [bol] says whether it starts with [^]. *)
Record regexp : Type := { bol : bool; body : re }.

(** [s.match(x)] for a pattern without the g flag: [None] is [null]. *)
Definition exec (x : regexp) (s : string) : option caps :=
  if bol x then m (body x) s [] accept else search (body x) s.

(** [x.test(s)] *)
Definition test (x : regexp) (s : string) : bool :=
  match exec x s with
  | Some _ => true
  | None => false
  end.

(** The [i]-th capture of a match: [None] is [undefined]. *)
Fixpoint group (i : nat) (c : caps) : option string :=
  match c with
  | [] => None
  | (j, w) :: c' => if Nat.eqb i j then Some w else group i c'
  end.

End Regex.

(** The patterns of [createK8sApp.js].  In the comments a pattern is
  written with a blank between a star and a closing parenthesis; the blank
  is not part of the pattern. *)
Module Patterns.
Import Regex.

Definition tgz_or_tar_gz (i : nat) : re :=
  Grp i (Alt (Lit "tgz") (Lit "tar.gz")).

(** [/^file:/] *)
Definition file_prefix : regexp :=
  {| bol := true; body := Lit "file:" |}.

(** [/^file:(.* )?$/] *)
Definition file_path : regexp :=
  {| bol := true;
     body := Seq (Lit "file:") (Seq (Opt (Grp 1 (Star true dot))) Eol) |}.

(** [/^.+\.(tgz|tar\.gz)$/] *)
Definition tarball : regexp :=
  {| bol := true;
     body := Seq (Plus true dot)
               (Seq (Chr ".") (Seq (tgz_or_tar_gz 1) Eol)) |}.

(** [/^http/] *)
Definition http : regexp :=
  {| bol := true; body := Lit "http" |}.

(** [/^.+\/(.+?)(?:-\d+.+)?\.(tgz|tar\.gz)$/] *)
Definition tarball_stem : regexp :=
  {| bol := true;
     body :=
       Seq (Plus true dot)
         (Seq (Chr "/")
            (Seq (Grp 1 (Plus false dot))
               (Seq (Opt (Seq (Chr "-")
                            (Seq (Plus true digit) (Plus true dot))))
                  (Seq (Chr ".") (Seq (tgz_or_tar_gz 2) Eol))))) |}.

(** [/([^/]+)\.git(#.* )?$/] *)
Definition git_name : regexp :=
  {| bol := false;
     body :=
       Seq (Grp 1 (Plus true (notc "/")))
         (Seq (Lit ".git")
            (Seq (Opt (Grp 2 (Seq (Chr "#") (Star true dot)))) Eol)) |}.

(** [/.+@/] *)
Definition qualifier : regexp :=
  {| bol := false; body := Seq (Plus true dot) (Chr "@") |}.

End Patterns.

(* ================================================================== *)
(** ** The validator of the semver package

  The semver package is a dependency of the program, not part of it.  This
  is its [valid(version)] in strict mode, as [createK8sApp.js] calls it: the
  argument must be a string of at most 256 characters that the FULL pattern
  [^v?MAJOR.MINOR.PATCH(-PRERELEASE)?(+BUILD)?$] matches, with the three
  numbers at most MAX_SAFE_INTEGER; the answer is the [version] field of the
  parsed object, [MAJOR.MINOR.PATCH(-PRERELEASE)?], or [null].  (The 7.x
  line of the package also trims blanks around the argument; that is not
  modelled.) *)

Module Semver.
Import JsString.

Definition MAX_LENGTH : nat := 256.
Definition MAX_SAFE_INTEGER : N := 9007199254740991.

(** The text before the first [c], and the text after it if there is one. *)
Fixpoint cut (c : ascii) (s : string) : string * option string :=
  match s with
  | EmptyString => (EmptyString, None)
  | String a s' =>
      if Ascii.eqb a c then (EmptyString, Some s')
      else let (l, r) := cut c s' in (String a l, r)
  end.

(** [[0-9A-Za-z-]] *)
Definition id_char (c : ascii) : bool :=
  (is_digit c || is_alpha c || Ascii.eqb c "-")%bool.

(** NUMERICIDENTIFIER: [0|[1-9]\d*] *)
Definition numeric_identifier (s : string) : bool :=
  match s with
  | EmptyString => false
  | String c s' =>
      if Ascii.eqb c "0" then
        match s' with EmptyString => true | String _ _ => false end
      else (is_digit c && all_chars is_digit s')%bool
  end.

(** NONNUMERICIDENTIFIER: [\d*[a-zA-Z-][a-zA-Z0-9-]*] *)
Definition non_numeric_identifier (s : string) : bool :=
  (all_chars id_char s && negb (all_chars is_digit s))%bool.

(** PRERELEASEIDENTIFIER *)
Definition prerelease_identifier (s : string) : bool :=
  (numeric_identifier s || non_numeric_identifier s)%bool.

(** BUILDIDENTIFIER: [[0-9A-Za-z-]+] *)
Definition build_identifier (s : string) : bool :=
  (truthy s && all_chars id_char s)%bool.

(** [+text] for a text of decimal digits. *)
Definition to_number (s : string) : N :=
  match NilZero.uint_of_string s with
  | Some d => N.of_uint d
  | None => 0%N
  end.

(** [String(n)] for a safe integer. *)
Definition of_number (n : N) : string :=
  NilZero.string_of_uint (N.to_uint n).

Record SemVer : Type :=
  { major : N; minor : N; patch : N;
    prerelease : list (N + string);
    build : list string }.

(** A numeric prerelease identifier below MAX_SAFE_INTEGER becomes a
    number. *)
Definition prerelease_id (id : string) : N + string :=
  if (truthy id && all_chars is_digit id)%bool then
    if (to_number id <? MAX_SAFE_INTEGER)%N then inl (to_number id)
    else inr id
  else inr id.

Definition strip_v (s : string) : string :=
  match s with
  | String "v" s' => s'
  | _ => s
  end.

Definition ids_of (o : option string) : list string :=
  match o with
  | Some t => split "." t
  | None => []
  end.

(** [parse]: the FULL pattern, then the bounds of the constructor. *)
Definition parse (version : string) : option SemVer :=
  if (MAX_LENGTH <? String.length version)%nat then None
  else
    let (mp, b) := cut "+" (strip_v version) in
    let (mn, p) := cut "-" mp in
    match split "." mn with
    | [x; y; z] =>
        if (numeric_identifier x && numeric_identifier y
            && numeric_identifier z
            && forallb prerelease_identifier (ids_of p)
            && forallb build_identifier (ids_of b))%bool
        then
          if ((to_number x <=? MAX_SAFE_INTEGER)
              && (to_number y <=? MAX_SAFE_INTEGER)
              && (to_number z <=? MAX_SAFE_INTEGER))%N%bool
          then Some {| major := to_number x; minor := to_number y;
                       patch := to_number z;
                       prerelease := map prerelease_id (ids_of p);
                       build := ids_of b |}
          else None
        else None
    | _ => None
    end.

Definition show_id (i : N + string) : string :=
  match i with
  | inl n => of_number n
  | inr s => s
  end.

(** [SemVer.prototype.format]: the build metadata is left out. *)
Definition format (v : SemVer) : string :=
  of_number (major v) ++ "." ++ of_number (minor v) ++ "."
    ++ of_number (patch v)
    ++ match prerelease v with
       | [] => ""
       | _ :: _ => "-" ++ join "." (map show_id (prerelease v))
       end.

(** [semver.valid]: [None] is [null]; an argument that is not a string
    (here: [undefined]) is not valid. *)
Definition valid (version : option string) : option string :=
  match version with
  | Some s =>
      match parse s with
      | Some v => Some (format v)
      | None => None
      end
  | None => None
  end.

End Semver.

(* ================================================================== *)
(** ** Values, exceptions and promises *)

Module Js.

(** What a [throw] carries: an Error object. *)
Inductive error : Type :=
| TypeError (message : string)
| Error (message : string).

Definition message (e : error) : string :=
  match e with
  | TypeError msg => msg
  | Error msg => msg
  end.

(** The result of a synchronous call. *)
Inductive outcome (A : Type) : Type :=
| Returned (a : A)
| Threw (e : error).
Arguments Returned {A} a.
Arguments Threw {A} e.

(** What a promise of this program is rejected with: the object
    [{ command }] of [install], or a thrown Error. *)
Inductive reason : Type :=
| CommandFailure (command : string)
| Thrown (e : error).

(** A promise when the process ends: fulfilled, rejected, or still pending
    because the process has died of an error that a stream emitted and
    nothing listened to. *)
Inductive promise (A : Type) : Type :=
| Resolved (a : A)
| Rejected (r : reason)
| Uncaught (e : error).
Arguments Resolved {A} a.
Arguments Rejected {A} r.
Arguments Uncaught {A} e.

(** A string or [undefined] ([None]). *)
Definition value : Type := option string.

(** A value inside a template literal. *)
Definition show (v : value) : string :=
  match v with
  | Some s => s
  | None => "undefined"
  end.

(** The truthy strings. *)
Definition truthy_value (v : value) : option string :=
  match v with
  | Some s => if JsString.truthy s then Some s else None
  | None => None
  end.

(** Reading a property of [null]. *)
Definition null_property (prop : string) : error :=
  TypeError ("Cannot read property '" ++ prop ++ "' of null").

End Js.

(* ================================================================== *)
(** ** The path module (POSIX) *)

Module Path.
Import JsString.

(** One step of [normalizeString]: the segments kept so far, the most
    recent first. *)
Definition push_segment (allowAboveRoot : bool) (kept : list string)
           (seg : string) : list string :=
  if (String.eqb seg "" || String.eqb seg ".")%bool then kept
  else if String.eqb seg ".." then
    match kept with
    | [] => if allowAboveRoot then [".."] else []
    | last :: kept' =>
        if String.eqb last ".."
        then if allowAboveRoot then ".." :: kept else kept
        else kept'
    end
  else seg :: kept.

Definition normalizeString (path : string) (allowAboveRoot : bool)
  : string :=
  join "/" (rev (fold_left (push_segment allowAboveRoot)
                           (split "/" path) [])).

Definition isAbsolute (path : string) : bool :=
  match path with
  | String "/" _ => true
  | _ => false
  end.

Definition not_a_string : Js.error :=
  Js.TypeError "Path must be a string. Received undefined".

(** The loop of [path.resolve], from the last argument to the first and
    then the working directory [cwd], until the path is absolute.
    [args] holds the arguments not yet visited, the last one first;
    [None] is an argument that is [undefined]. *)
Fixpoint resolve_loop (cwd : string) (args : list (option string))
         (resolvedPath : string) : Js.outcome (string * bool) :=
  match args with
  | [] =>
      if truthy cwd
      then Js.Returned (cwd ++ "/" ++ resolvedPath, isAbsolute cwd)
      else Js.Returned (resolvedPath, false)
  | None :: _ => Js.Threw not_a_string
  | Some path :: args' =>
      if truthy path then
        if isAbsolute path
        then Js.Returned (path ++ "/" ++ resolvedPath, true)
        else resolve_loop cwd args' (path ++ "/" ++ resolvedPath)
      else resolve_loop cwd args' resolvedPath
  end.

(** [path.resolve(...args)] in a process whose working directory is
    [cwd]. *)
Definition resolve (cwd : string) (args : list (option string))
  : Js.outcome string :=
  match resolve_loop cwd (rev args) "" with
  | Js.Threw e => Js.Threw e
  | Js.Returned (resolvedPath, resolvedAbsolute) =>
      let resolvedPath :=
        normalizeString resolvedPath (negb resolvedAbsolute) in
      if resolvedAbsolute then Js.Returned ("/" ++ resolvedPath)
      else if truthy resolvedPath then Js.Returned resolvedPath
      else Js.Returned "."
  end.

Definition ends_with_slash (path : string) : bool :=
  match rev (list_ascii_of_string path) with
  | c :: _ => Ascii.eqb c "/"
  | [] => false
  end.

(** [path.normalize(path)] *)
Definition normalize (path : string) : string :=
  if truthy path then
    let absolute := isAbsolute path in
    let trailingSeparator := ends_with_slash path in
    let path' := normalizeString path (negb absolute) in
    let path' :=
      if (negb (truthy path') && negb absolute)%bool then "." else path' in
    let path' :=
      if (truthy path' && trailingSeparator)%bool then path' ++ "/"
      else path' in
    if absolute then "/" ++ path' else path'
  else ".".

Fixpoint join_loop (args : list (option string)) (joined : option string)
  : Js.outcome (option string) :=
  match args with
  | [] => Js.Returned joined
  | None :: _ => Js.Threw not_a_string
  | Some arg :: args' =>
      if truthy arg then
        join_loop args'
          (Some match joined with
                | None => arg
                | Some j => j ++ "/" ++ arg
                end)
      else join_loop args' joined
  end.

(** [path.join(...args)] *)
Definition join (args : list (option string)) : Js.outcome string :=
  match join_loop args None with
  | Js.Threw e => Js.Threw e
  | Js.Returned None => Js.Returned "."
  | Js.Returned (Some joined) => Js.Returned (normalize joined)
  end.

End Path.

(* ================================================================== *)
(** ** The world of the program

  The state the program acts on (the listing of the project root, the
  working directory of the process, the console, the exit code, the
  subprocesses started) and the answers of its collaborators (the
  temporary directory, the unpacking of an archive, the manifest a
  [require] loads, the exit code of the package manager). *)

Module World.
Import Js.

(** The stream handed to [extractStream]. *)
Inductive stream : Type :=
| Hyperquest (url : string)
| ReadStream (path : string).

(** What becomes of [stream.pipe(unpack(dest, callback))]: the callback is
    called without an error, or with one, or the stream emits [error];
    nothing listens to that event, the callback is never called and the
    process dies. *)
Inductive piped : Type :=
| Unpacked
| UnpackError (err : error)
| StreamError (err : error).

Record world : Type := mkWorld
  { root_dir : option (list string);   (* [None]: the root does not exist *)
    process_cwd : string;
    console : list string;             (* the lines printed, oldest first *)
    exit_code : option Z;              (* set by [process.exit] *)
    spawned : list (string * list string);
    tmp_dir : error + string;          (* what [tmp.dir] calls back with *)
    unpack : stream -> string -> piped;
    require_name : string -> outcome value;      (* [require(p).name] *)
    close_code : string -> list string -> option Z
                                       (* [None]: killed by a signal *) }.

Definition set_root_dir (d : option (list string)) (w : world) : world :=
  mkWorld d (process_cwd w) (console w) (exit_code w) (spawned w)
          (tmp_dir w) (unpack w) (require_name w) (close_code w).
Definition set_process_cwd (p : string) (w : world) : world :=
  mkWorld (root_dir w) p (console w) (exit_code w) (spawned w)
          (tmp_dir w) (unpack w) (require_name w) (close_code w).
Definition set_console (c : list string) (w : world) : world :=
  mkWorld (root_dir w) (process_cwd w) c (exit_code w) (spawned w)
          (tmp_dir w) (unpack w) (require_name w) (close_code w).
Definition set_exit_code (e : option Z) (w : world) : world :=
  mkWorld (root_dir w) (process_cwd w) (console w) e (spawned w)
          (tmp_dir w) (unpack w) (require_name w) (close_code w).
Definition set_spawned (l : list (string * list string)) (w : world)
  : world :=
  mkWorld (root_dir w) (process_cwd w) (console w) (exit_code w) l
          (tmp_dir w) (unpack w) (require_name w) (close_code w).

(** A computation: it returns or throws, and leaves a world. *)
Definition M (A : Type) : Type := world -> outcome A * world.

Definition ret {A : Type} (a : A) : M A := fun w => (Returned a, w).

Definition bind {A B : Type} (x : M A) (f : A -> M B) : M B :=
  fun w =>
    match x w with
    | (Returned a, w1) => f a w1
    | (Threw e, w1) => (Threw e, w1)
    end.

Definition lift {A : Type} (o : outcome A) : M A := fun w => (o, w).

(** [arr.forEach(f)] *)
Fixpoint forEach {A : Type} (arr : list A) (f : A -> M unit) : M unit :=
  match arr with
  | [] => ret tt
  | a :: arr' => bind (f a) (fun _ => forEach arr' f)
  end.

(** [p.then(f)]: a callback that throws rejects the promise; no callback
    runs on a promise that is never settled. *)
Definition then_ {A B : Type} (p : M (promise A)) (f : A -> M (promise B))
  : M (promise B) :=
  fun w =>
    match p w with
    | (Returned (Resolved a), w1) =>
        match f a w1 with
        | (Threw e, w2) => (Returned (Rejected (Thrown e)), w2)
        | r => r
        end
    | (Returned (Rejected r), w1) => (Returned (Rejected r), w1)
    | (Returned (Uncaught e), w1) => (Returned (Uncaught e), w1)
    | (Threw e, w1) => (Threw e, w1)
    end.

(** [p.catch(h)] *)
Definition catch_ {A : Type} (p : M (promise A))
           (h : reason -> M (promise A)) : M (promise A) :=
  fun w =>
    match p w with
    | (Returned (Rejected r), w1) =>
        match h r w1 with
        | (Threw e, w2) => (Returned (Rejected (Thrown e)), w2)
        | x => x
        end
    | x => x
    end.

(** [console.log(line)] *)
Definition console_log (line : string) : M unit :=
  fun w => (Returned tt, set_console (console w ++ [line]) w).

(** [fs.readdirSync] of the project root. *)
Definition readdirSync : M (list string) :=
  fun w =>
    match root_dir w with
    | Some entries => (Returned entries, w)
    | None => (Threw (Error "ENOENT: no such file or directory, scandir"), w)
    end.

(** [fs.removeSync] of the entry [file] of the project root; removing
    what does not exist is not an error. *)
Definition removeSync_entry (file : string) : M unit :=
  fun w =>
    (Returned tt,
     match root_dir w with
     | Some entries =>
         set_root_dir
           (Some (filter (fun f => negb (String.eqb f file)) entries)) w
     | None => w
     end).

(** [fs.removeSync] of the project root itself. *)
Definition removeSync_root : M unit :=
  fun w => (Returned tt, set_root_dir None w).

(** [process.chdir(p)] *)
Definition chdir (p : string) : M unit :=
  fun w => (Returned tt, set_process_cwd p w).

(** [process.exit(code)] *)
Definition process_exit (code : Z) : M unit :=
  fun w => (Returned tt, set_exit_code (Some code) w).

(** [path.resolve(...args)]: it reads the working directory. *)
Definition path_resolve (args : list (option string)) : M string :=
  fun w => (Path.resolve (process_cwd w) args, w).

(** [spawn(command, args)] and the code its [close] event reports. *)
Definition spawn_close (command : string) (args : list string)
  : M (option Z) :=
  fun w => (Returned (close_code w command args),
            set_spawned (spawned w ++ [(command, args)]) w).

(** [s.match(x)[1]]: the first capture, [undefined] when its group took no
    part in the match; reading a property of [null] throws. *)
Definition match_1 (s : string) (x : Regex.regexp) : outcome value :=
  match Regex.exec x s with
  | Some c => Returned (Regex.group 1 c)
  | None => Threw (null_property "1")
  end.

End World.

Declare Scope js_scope.
Delimit Scope js_scope with js.
Notation "x <- e ;; k" := (World.bind e (fun x => k))
(at level 61, e at next level, right associativity) : js_scope.
Notation "e ;; k" := (World.bind e (fun _ => k))
(at level 61, right associativity) : js_scope.

(** Colours are presentation: chalk with colour support off. *)
Module Chalk.
Definition green (s : string) : string := s.
Definition cyan (s : string) : string := s.
Definition red (s : string) : string := s.
End Chalk.

(* ================================================================== *)
(** ** createK8sApp.js *)

Module App.
Import Js JsString World.
Local Open Scope js_scope.

(** These files should be allowed to remain on a failed install, but then
    silently removed during the next create. *)
Definition errorLogFilePatterns : list string := ["npm-debug.log"].

Definition validFiles : list string :=
  [".DS_Store"; "Thumbs.db"; ".git"; ".gitignore"; "README.md"; "LICENSE";
   ".npmignore"; "docs"; ".gitlab-ci.yml"; ".gitattributes"].

(** The conflicts of a listing: what is neither a valid file nor a log file
    of a previous installation. *)
Definition conflicts_of (files : list string) : list string :=
  filter
    (fun file =>
       negb (existsb (fun pattern => indexOf_is_0 file pattern)
                     errorLogFilePatterns))
    (filter (fun file => negb (includes validFiles file)) files).

Definition isSafeToCreateProjectIn (root name : string) : M bool :=
  console_log "" ;;
  files <- readdirSync ;;
  let conflicts := conflicts_of files in
  if (0 <? List.length conflicts)%nat then
    console_log ("The directory " ++ Chalk.green name
                   ++ " contains files that could conflict:") ;;
    console_log "" ;;
    forEach conflicts (fun c => console_log ("  " ++ c)) ;;
    console_log "" ;;
    console_log
      "Either try using a new directory name, or remove the files listed above." ;;
    ret false
  else
    (* Remove any remnant files from a previous installation *)
    currentFiles <- readdirSync ;;
    forEach currentFiles (fun file =>
      forEach errorLogFilePatterns (fun errorLogFilePattern =>
        (* This will catch npm-debug.log* files *)
        if indexOf_is_0 file errorLogFilePattern
        then removeSync_entry file
        else ret tt)) ;;
    ret true.

Definition knownGeneratedFiles : list string := ["package.json"; "node_modules"].

(** What [console.log(reason)] prints. *)
Definition inspect (r : reason) : string :=
  match r with
  | CommandFailure command => "{ command: '" ++ command ++ "' }"
  | Thrown (TypeError msg) => "TypeError: " ++ msg
  | Thrown (Error msg) => "Error: " ++ msg
  end.

(** [reason.command] *)
Definition command_of (r : reason) : value :=
  match r with
  | CommandFailure command => Some command
  | Thrown _ => None
  end.

(** [reason.message] *)
Definition message_of (r : reason) : value :=
  match r with
  | CommandFailure _ => None
  | Thrown e => Some (message e)
  end.

(** The first part of the handler that [run] passes to [catch]: what it
    prints about the failure. *)
Definition report_failure (reason : reason) : M unit :=
  console_log "" ;;
  console_log "Aborting installation." ;;
  match truthy_value (command_of reason) with
  | Some command =>
      console_log ("  " ++ Chalk.cyan command ++ " has failed.")
  | None =>
      console_log (Chalk.red "Unexpected error. Please report it as a bug:") ;;
      console_log (inspect reason)
  end ;;
  console_log "".

(** The second part of the handler: the generated files are deleted, then
    the root if nothing remains, and the process exits. *)
Definition delete_generated (root appName : string) : M unit :=
  (* On 'exit' we will delete these files from target directory. *)
  currentFiles <- readdirSync ;;
  forEach currentFiles (fun file =>
    forEach knownGeneratedFiles (fun fileToMatch =>
      (* This remove all of knownGeneratedFiles. *)
      if String.eqb file fileToMatch then
        console_log ("Deleting generated file... " ++ Chalk.cyan file) ;;
        removeSync_entry file
      else ret tt)) ;;
  remainingFiles <- readdirSync ;;
  match remainingFiles with
  | [] =>
      (* Delete target folder if empty *)
      parent <- path_resolve [Some root; Some ".."] ;;
      console_log ("Deleting " ++ Chalk.cyan (appName ++ "/") ++ " from "
                     ++ Chalk.cyan parent) ;;
      parent' <- path_resolve [Some root; Some ".."] ;;
      chdir parent' ;;
      removeSync_root
  | _ :: _ => ret tt
  end ;;
  console_log "Done." ;;
  process_exit 1.

(** The handler that [run] passes to [catch]. *)
Definition run_catch (root appName : string) (reason : reason) : M unit :=
  report_failure reason ;;
  delete_generated root appName.

Definition getInstallPackage (version : value) (originalDirectory : string)
  : M string :=
  let packageToInstall := "k8s-scripts" in
  match truthy_value (Semver.valid version) with
  | Some validSemver => ret (packageToInstall ++ "@" ++ validSemver)
  | None =>
      match truthy_value version with
      | Some version =>
          if (String.eqb (charAt 0 version) "@"
              && indexOf_is_minus1 version "/")%bool
          then ret (packageToInstall ++ version)
          else if Regex.test Patterns.file_prefix version then
            path <- lift (match_1 version Patterns.file_path) ;;
            resolved <- path_resolve [Some originalDirectory; path] ;;
            ret ("file:" ++ resolved)
          else
            (* for tar.gz or alternative paths *)
            ret version
      | None => ret packageToInstall
      end
  end.

(** A double quote. *)
Definition dquote : string := String (ascii_of_nat 34) EmptyString.

(** What [getTemporaryDirectory] resolves with; [cleanup] swallows what its
    callback throws and has no effect on the world. *)
Record tmpobj : Type := { tmpdir : string }.

Definition cleanup (obj : tmpobj) : M unit := ret tt.

Definition getTemporaryDirectory : M (promise tmpobj) :=
  fun w =>
    match tmp_dir w with
    | inl err => (Returned (Rejected (Thrown err)), w)
    | inr dir => (Returned (Resolved {| tmpdir := dir |}), w)
    end.

(** Only the callback of [unpack] settles the promise: an [error] of the
    stream itself has no listener. *)
Definition extractStream (stream : stream) (dest : string)
  : M (promise string) :=
  fun w =>
    match unpack w stream dest with
    | Unpacked => (Returned (Resolved dest), w)
    | UnpackError err => (Returned (Rejected (Thrown err)), w)
    | StreamError err => (Returned (Uncaught err), w)
    end.

(** [require(p).name] *)
Definition require_name_of (p : string) : M value :=
  fun w => (require_name w p, w).

(** The first two steps of the tarball branch of [getPackageName]: unpack
    the archive into a temporary directory and read the name its manifest
    declares. *)
Definition readArchiveName (installPackage : string) : M (promise value) :=
  then_
    (then_ getTemporaryDirectory (fun obj =>
       let stream :=
         if Regex.test Patterns.http installPackage
         then Hyperquest installPackage
         else ReadStream installPackage in
       then_ (extractStream stream (tmpdir obj))
             (fun _ => ret (Resolved obj))))
    (fun obj =>
       manifest <- lift (Path.join [Some (tmpdir obj);
                                    Some "package.json"]) ;;
       packageName <- require_name_of manifest ;;
       cleanup obj ;;
       ret (Resolved packageName)).

(** The [catch] handler of the tarball branch of [getPackageName].
    The package name could be with or without semver version, e.g.
    k8s-scripts-0.2.0-alpha.1.tgz.  However, this function returns package
    name only without semver version. *)
Definition assumeProjectName (installPackage : string) (err : reason)
  : M (promise value) :=
  console_log
    ("Could not extract the package name from the archive: "
       ++ show (message_of err)) ;;
  assumedProjectName <-
    lift (match_1 installPackage Patterns.tarball_stem) ;;
  console_log
    ("Based on the filename, assuming it is " ++ dquote
       ++ Chalk.cyan (show assumedProjectName) ++ dquote) ;;
  ret (Resolved assumedProjectName).

(** Extract package name from tarball url or path. *)
Definition getPackageName (installPackage : string) : M (promise value) :=
  if Regex.test Patterns.tarball installPackage then
    catch_ (readArchiveName installPackage) (assumeProjectName installPackage)
  else if indexOf_is_0 installPackage "git+" then
    (* Pull package name out of git urls *)
    name <- lift (match_1 installPackage Patterns.git_name) ;;
    ret (Resolved name)
  else if Regex.test Patterns.qualifier installPackage then
    (* Do not match @scope/ when stripping off @version or @tag *)
    ret (Resolved
           (Some (charAt 0 installPackage
                    ++ hd "" (split "@" (substr 1 installPackage)))))
  else if Regex.test Patterns.file_prefix installPackage then
    installPackagePath <-
      lift (match_1 installPackage Patterns.file_path) ;;
    manifest <- lift (Path.join [installPackagePath; Some "package.json"]) ;;
    name <- require_name_of manifest ;;
    ret (Resolved name)
  else ret (Resolved (Some installPackage)).

Definition install (root : string) (dependencies : list string)
           (verbose : bool) : M (promise unit) :=
  let command := "npm" in
  let args :=
    (["install"; "--save"; "--save-exact"; "--loglevel"; "error"]
       ++ dependencies)%list in
  let args := if verbose then (args ++ ["--verbose"])%list else args in
  code <- spawn_close command args ;;
  match code with
  | Some 0%Z => ret (Resolved tt)
  | _ => ret (Rejected (CommandFailure (command ++ " " ++ join " " args)))
  end.

End App.

(* ================================================================== *)
(** ** The statements of the specification, in its own words *)

Module Claimed.
Import JsString.

(** The command line as the specification writes it:
    [<pm> install --save --save-exact --loglevel error [--verbose] <reference...>]. *)
Definition command_line (verbose : bool) (references : list string)
  : string :=
  join " "
    (["npm"; "install"; "--save"; "--save-exact"; "--loglevel"; "error"]
       ++ (if verbose then ["--verbose"] else []) ++ references)%list.

(** The name of a log file of a previous installation: it begins with
    [npm-debug.log]. *)
Definition is_error_log (file : string) : bool :=
  String.prefix "npm-debug.log" file.

(** A version without the optional leading [v] and without the build
    metadata that follows a [+]. *)
Definition normalised (V : string) : string :=
  fst (Semver.cut "+" (Semver.strip_v V)).

(** The generated artifacts: the manifest file and the directory of the
    installed dependencies. *)
Definition is_generated (file : string) : bool :=
  (String.eqb file "package.json" || String.eqb file "node_modules")%bool.

(** The words of a command line, each after a blank. *)
Fixpoint words (l : list string) : string :=
  match l with
  | [] => ""
  | d :: l' => " " ++ d ++ words l'
  end.

End Claimed.

(* ================================================================== *)
(** ** Worlds to run the program in *)

Module Scenario.
Import Js World.

(** A world in which every archive is corrupt, so that unpacking fails, and
    no manifest is found; the package manager exits with [code]. *)
Definition offline (entries : list string) (code : option Z) : world :=
  {| root_dir := Some entries;
     process_cwd := "/home/user/my-k8s-app";
     console := [];
     exit_code := None;
     spawned := [];
     tmp_dir := inr "/tmp/tmp-4242";
     unpack := fun _ _ => UnpackError (Error "incorrect header check");
     require_name := fun _ => Threw (Error "Cannot find module");
     close_code := fun _ _ => code |}.

(** A world in which every archive unpacks and the unpacked manifest
    declares the name [name]. *)
Definition unpacking (entries : list string) (name : string) : world :=
  {| root_dir := Some entries;
     process_cwd := "/home/user/my-k8s-app";
     console := [];
     exit_code := None;
     spawned := [];
     tmp_dir := inr "/tmp/tmp-4242";
     unpack := fun _ _ => Unpacked;
     require_name :=
       fun p => if String.eqb p "/tmp/tmp-4242/package.json"
                then Returned (Some name)
                else Threw (Error "Cannot find module");
     close_code := fun _ _ => Some 0%Z |}.

(** A line feed. *)
Definition LF : string := String (ascii_of_nat 10) EmptyString.

End Scenario.

(* ================================================================== *)
(** ** createApp and run

  The rest of [createK8sApp.js]: [createApp], which prepares the project
  root, and [run], which chains resolution, name extraction, installation
  and the hand-over to the initializer, with the rollback handler behind
  them.  Two things are code of others and are parameters: the
  initializer, which the installed package provides, and what the package
  manager, once spawned, does to the project root. *)

Module Bootstrap.
Import Js JsString World App.
Local Open Scope js_scope.

(** [path.basename(path)] (POSIX): the last segment that is not empty, the
    empty string when there is none. *)
Definition basename (path : string) : string :=
  fold_left (fun found seg => if truthy seg then seg else found)
            (split "/" path) "".

(** [fs.ensureDirSync] of the project root. *)
Definition ensureDirSync : M unit :=
  fun w =>
    (Returned tt,
     match root_dir w with
     | Some _ => w
     | None => set_root_dir (Some []) w
     end).

(** [fs.writeFileSync] of the entry [file] of the project root: the entry
    is created, or overwritten when it exists. *)
Definition writeFileSync_entry (file : string) : M unit :=
  fun w =>
    match root_dir w with
    | Some entries =>
        (Returned tt,
         if includes entries file then w
         else set_root_dir (Some (entries ++ [file])%list) w)
    | None => (Threw (Error "ENOENT: no such file or directory, open"), w)
    end.

(** [process.cwd()] *)
Definition cwd : M string := fun w => (Returned (process_cwd w), w).

(** [require(scriptsPath)] applied to
    [(root, appName, verbose, originalDirectory)]. *)
Definition initializer : Type :=
  string -> string -> string -> bool -> string -> M unit.

(** What the spawned package manager does to the listing of the project
    root before its [close] event. *)
Definition child : Type := option (list string) -> option (list string).

(** [install] together with the work of the process it spawns. *)
Definition installing (npm : child) (root : string)
           (dependencies : list string) (verbose : bool)
  : M (promise unit) :=
  fun w =>
    let (settled, w1) := install root dependencies verbose w in
    (settled, set_root_dir (npm (root_dir w1)) w1).

(** [run] returns nothing; the model returns the state of its promise
    chain when the process ends.  [getInstallPackage] and [getPackageName]
    are called before the chain exists: what they throw, [run] throws. *)
Definition run (npm : child) (init : initializer) (root appName : string)
           (version : value) (verbose : bool) (originalDirectory : string)
  : M (promise unit) :=
  packageToInstall <- getInstallPackage version originalDirectory ;;
  let allDependencies := [packageToInstall] in
  console_log "Installing packages. This might take a couple of minutes." ;;
  catch_
    (then_
       (then_ (getPackageName packageToInstall)
              (fun packageName =>
                 then_ (installing npm root allDependencies verbose)
                       (fun _ => ret (Resolved packageName))))
       (fun packageName =>
          here <- cwd ;;
          scriptsPath <- path_resolve [Some here; Some "node_modules";
                                       packageName; Some "scripts";
                                       Some "init.js"] ;;
          init scriptsPath root appName verbose originalDirectory ;;
          ret (Resolved tt)))
    (fun reason =>
       run_catch root appName reason ;;
       ret (Resolved tt)).

(** [createApp] returns nothing; the model returns the state of the
    promise chain of [run] when the process ends, and [None] when the
    process exits before [run] is called. *)
Definition createApp (npm : child) (init : initializer) (name : string)
           (verbose : bool) (version : value)
  : M (option (promise unit)) :=
  root <- path_resolve [Some name] ;;
  let appName := basename root in
  ensureDirSync ;;
  safe <- isSafeToCreateProjectIn root name ;;
  if negb safe then
    process_exit 1 ;;
    ret None
  else
    console_log ("Creating a new Kubernetes app in " ++ Chalk.green root
                   ++ ".") ;;
    console_log "" ;;
    writeFileSync_entry "package.json" ;;
    originalDirectory <- cwd ;;
    chdir root ;;
    settled <- run npm init root appName version verbose originalDirectory ;;
    ret (Some settled).

End Bootstrap.

(** The shapes of references that the properties speak of. *)
Module Shape.
Import JsString.

(** [pat] occurs nowhere in [s]. *)
Fixpoint occurs_not (pat s : string) : bool :=
  (negb (String.prefix pat s)
   && match s with
      | EmptyString => true
      | String _ s' => occurs_not pat s'
      end)%bool.

(** No dash of [s] is followed by a digit. *)
Fixpoint dash_digit_free (s : string) : bool :=
  match s with
  | EmptyString => true
  | String a s' =>
      ((negb (Ascii.eqb a "-")
        || match s' with
           | String b _ => negb (is_digit b)
           | EmptyString => true
           end)
       && dash_digit_free s')%bool
  end.

(** A character of a plain file-name stem: on one line, and neither a dot
    nor a slash. *)
Definition stem_char (c : ascii) : bool :=
  (Regex.dot c && Regex.notc "." c && Regex.notc "/" c)%bool.

(** The pattern [r] does not bind the capture group [i]. *)
Fixpoint no_group (i : nat) (r : Regex.re) : bool :=
  match r with
  | Regex.Seq r1 r2 | Regex.Alt r1 r2 => (no_group i r1 && no_group i r2)%bool
  | Regex.Opt r1 => no_group i r1
  | Regex.Grp j r1 => (negb (Nat.eqb i j) && no_group i r1)%bool
  | _ => true
  end.

(** What the pattern of a git address asks for after [.git]: an optional
    fragment, then the end. *)
Definition git_tail : Regex.re :=
  Regex.Seq
    (Regex.Opt (Regex.Grp 2 (Regex.Seq (Regex.Chr "#")
                               (Regex.Star true Regex.dot))))
    Regex.Eol.

(** What the pattern of the fallback asks for after the stem: an optional
    dash, digits and more, then the extension of an archive, then the
    end. *)
Definition stem_tail : Regex.re :=
  Regex.Seq
    (Regex.Opt (Regex.Seq (Regex.Chr "-")
                  (Regex.Seq (Regex.Plus true Regex.digit)
                     (Regex.Plus true Regex.dot))))
    (Regex.Seq (Regex.Chr ".")
       (Regex.Seq (Patterns.tgz_or_tar_gz 2) Regex.Eol)).

(** An initializer that does nothing. *)
Definition idle : Bootstrap.initializer :=
  fun _ _ _ _ _ => World.ret tt.

(** An initializer that throws. *)
Definition broken : Bootstrap.initializer :=
  fun _ _ _ _ _ w => (Js.Threw (Js.Error "init failed"), w).

(** A world in which every manifest loads and declares no name, the root
    holds the manifest of the app, and the package manager succeeds. *)
Definition nameless : World.world :=
  {| World.root_dir := Some ["package.json"];
     World.process_cwd := "/home/user/my-k8s-app";
     World.console := [];
     World.exit_code := None;
     World.spawned := [];
     World.tmp_dir := inr "/tmp/tmp-4242";
     World.unpack := fun _ _ => World.Unpacked;
     World.require_name := fun _ => Js.Returned None;
     World.close_code := fun _ _ => Some 0%Z |}.

(** A world in which no archive can be opened: the stream of every
    archive emits [error]. *)
Definition unreadable : World.world :=
  {| World.root_dir := Some ["package.json"];
     World.process_cwd := "/home/user/my-k8s-app";
     World.console := [];
     World.exit_code := None;
     World.spawned := [];
     World.tmp_dir := inr "/tmp/tmp-4242";
     World.unpack :=
       fun _ _ =>
         World.StreamError (Js.Error "ENOENT: no such file or directory, open");
     World.require_name := fun _ => Js.Threw (Js.Error "Cannot find module");
     World.close_code := fun _ _ => Some 0%Z |}.

(** A world in which the project root does not exist yet; the package
    manager exits with [code]. *)
Definition fresh (code : option Z) : World.world :=
  World.set_root_dir None (Scenario.offline [] code).

End Shape.

(* ================================================================== *)
(** * Properties *)

Import Js JsString World App.
Import Claimed (words, is_error_log, is_generated, normalised).

(** ** Strings *)

Section StringFacts.

Lemma append_nil_r (s : string) : s ++ "" = s.
Proof. induction s as [|a s IH]; simpl; [reflexivity | now rewrite IH]. Qed.

Lemma append_assoc (s1 s2 s3 : string) : (s1 ++ s2) ++ s3 = s1 ++ s2 ++ s3.
Proof. induction s1 as [|a s1 IH]; simpl; [reflexivity | now rewrite IH]. Qed.

Lemma substring_all (s : string) : String.substring 0 (String.length s) s = s.
Proof. induction s as [|a s IH]; simpl; [reflexivity | now rewrite IH]. Qed.

(** [s.indexOf(pat) === 0] says that [pat] is a prefix of [s]. *)
Lemma indexOf_is_0_prefix (s pat : string) :
  indexOf_is_0 s pat = String.prefix pat s.
Proof.
  unfold indexOf_is_0, indexOf.
  destruct s as [|a s]; simpl.
  - destruct pat; reflexivity.
  - destruct pat as [|b pat]; [reflexivity|].
    destruct (ascii_dec b a) as [->|Hne].
    + destruct (String.prefix pat s); [reflexivity|].
      destruct (String.index 0 (String a pat) s); reflexivity.
    + destruct (String.index 0 (String b pat) s); reflexivity.
Qed.

Lemma charAt_0_cons (a : ascii) (s : string) :
  charAt 0 (String a s) = String a "".
Proof. unfold charAt. simpl. now destruct s. Qed.

Lemma substr_1_cons (a : ascii) (s : string) :
  substr 1 (String a s) = s.
Proof.
  unfold substr. simpl. rewrite Nat.sub_0_r. apply substring_all.
Qed.

End StringFacts.

(** ** install *)

Lemma join_cons_words (x : string) (l : list string) :
  join " " (x :: l) = x ++ words l.
Proof.
  revert x; induction l as [|y l IH]; intro x.
  - simpl. now rewrite append_nil_r.
  - change (join " " (x :: y :: l)) with (x ++ " " ++ join " " (y :: l)).
    now rewrite IH.
Qed.

Lemma words_app (l1 l2 : list string) :
  words (l1 ++ l2) = words l1 ++ words l2.
Proof.
  induction l1 as [|d l1 IH]; simpl; [reflexivity|].
  now rewrite IH, append_assoc.
Qed.

(** C1 (as amended).  [install] starts the package manager once, as
    [npm install --save --save-exact --loglevel error <reference...> [--verbose]]:
    the references in the order supplied, and the verbose flag, when
    requested, after them.  When the subprocess closes with code 0 the
    promise resolves; with any other code it is rejected with an object
    whose [command] is that command line. *)
Theorem install_command_line :
  forall (root : string) (dependencies : list string) (verbose : bool)
         (w : world),
    let args :=
      (["install"; "--save"; "--save-exact"; "--loglevel"; "error"]
         ++ dependencies ++ (if verbose then ["--verbose"] else []))%list in
    let line :=
      "npm install --save --save-exact --loglevel error"
        ++ words dependencies ++ (if verbose then " --verbose" else "") in
    line = join " " ("npm" :: args)
    /\ spawned (snd (install root dependencies verbose w))
       = (spawned w ++ [("npm", args)])%list
    /\ fst (install root dependencies verbose w)
       = Returned (match close_code w "npm" args with
                   | Some 0%Z => Resolved tt
                   | _ => Rejected (CommandFailure line)
                   end).
Proof.
  intros root dependencies verbose w args line.
  assert (Hline : line = join " " ("npm" :: args)).
  { unfold line, args. rewrite join_cons_words, !words_app.
    destruct verbose; simpl; rewrite ?append_nil_r; reflexivity. }
  assert (Hargs :
    (if verbose
     then ((["install"; "--save"; "--save-exact"; "--loglevel"; "error"]
              ++ dependencies) ++ ["--verbose"])%list
     else (["install"; "--save"; "--save-exact"; "--loglevel"; "error"]
              ++ dependencies)%list) = args).
  { unfold args. destruct verbose.
    - now rewrite <- List.app_assoc.
    - now rewrite List.app_nil_r. }
  split; [exact Hline|].
  unfold install, bind, spawn_close. rewrite Hargs.
  split.
  - destruct (close_code w "npm" args) as [[| |]|]; reflexivity.
  - assert (Hcmd : "npm" ++ " " ++ join " " args = line).
    { rewrite Hline. reflexivity. }
    rewrite Hcmd.
    destruct (close_code w "npm" args) as [[| |]|]; reflexivity.
Qed.

(** C1, as the specification states it, fails: with the verbose flag the
    command line of the rejection has [--verbose] after the reference, not
    before it. *)
Lemma install_verbose_precedes_references_counterexample :
  fst (install "/home/user/my-k8s-app" ["k8s-scripts"] true
         (Scenario.offline ["package.json"] (Some 1%Z)))
  = Returned (Rejected (CommandFailure
      "npm install --save --save-exact --loglevel error k8s-scripts --verbose"))
  /\ "npm install --save --save-exact --loglevel error k8s-scripts --verbose"
     <> Claimed.command_line true ["k8s-scripts"].
Proof.
  split; [reflexivity|].
  vm_compute. discriminate.
Qed.

(** ** The file system of the project root *)

(** Reduce the setters and the projections of an explicit world. *)
Ltac unfold_setters :=
  cbn [set_root_dir set_process_cwd set_console set_exit_code set_spawned
       root_dir process_cwd console exit_code spawned tmp_dir unpack
       require_name close_code].

Section WorldFacts.

Lemma set_root_dir_same (w : world) (d : option (list string)) :
  root_dir w = d -> set_root_dir d w = w.
Proof. destruct w; simpl; intros <-; reflexivity. Qed.

Lemma set_console_same (w : world) (c : list string) :
  console w = c -> set_console c w = w.
Proof. destruct w; simpl; intros <-; reflexivity. Qed.

Lemma set_console_twice (w : world) (c1 c2 : list string) :
  set_console c1 (set_console c2 w) = set_console c1 w.
Proof. reflexivity. Qed.

Lemma console_set_console (w : world) (c : list string) :
  console (set_console c w) = c.
Proof. reflexivity. Qed.

Lemma filter_filter {A : Type} (f g : A -> bool) (l : list A) :
  filter f (filter g l) = filter (fun a => g a && f a)%bool l.
Proof.
  induction l as [|a l IH]; simpl; [reflexivity|].
  destruct (g a); simpl; [destruct (f a)|]; now rewrite IH.
Qed.

Lemma filter_all {A : Type} (f : A -> bool) (l : list A) :
  (forall a, In a l -> f a = true) -> filter f l = l.
Proof.
  induction l as [|a l IH]; simpl; intro H; [reflexivity|].
  rewrite (H a (or_introl eq_refl)). f_equal. apply IH. auto.
Qed.

Lemma existsb_eqb_In (x : string) (l : list string) :
  existsb (String.eqb x) l = true <-> In x l.
Proof.
  rewrite existsb_exists. split.
  - intros (y & Hy & Heq). apply String.eqb_eq in Heq. now subst.
  - intro H. exists x. split; [exact H | apply String.eqb_refl].
Qed.

(** Printing a line for each element of an array. *)
Lemma forEach_console_log {A : Type} (f : A -> string) (l : list A) :
  forall w,
    forEach l (fun a => console_log (f a)) w
    = (Returned tt, set_console (console w ++ map f l) w).
Proof.
  induction l as [|a l IH]; intro w; simpl.
  - unfold ret. now rewrite List.app_nil_r, set_console_same.
  - unfold bind, console_log. rewrite IH. destruct w; simpl.
    now rewrite <- List.app_assoc.
Qed.

(** A loop over a listing whose body removes the entries selected by [sel],
    printing the lines [msg] for each of them. *)
Lemma forEach_removing (sel : string -> bool) (msg : string -> list string)
      (body : string -> M unit) :
  (forall a w entries,
      root_dir w = Some entries ->
      body a w
      = (Returned tt,
         if sel a
         then set_root_dir
                (Some (filter (fun f => negb (String.eqb f a)) entries))
                (set_console (console w ++ msg a) w)
         else w)) ->
  forall l w entries,
    root_dir w = Some entries ->
    forEach l body w
    = (Returned tt,
       set_root_dir
         (Some (filter (fun f => negb (sel f && existsb (String.eqb f) l))%bool
                       entries))
         (set_console (console w ++ flat_map msg (filter sel l)) w)).
Proof.
  intro Hbody.
  induction l as [|a l IH]; intros w entries Hw.
  - simpl. unfold ret. f_equal.
    rewrite List.app_nil_r, (set_console_same w) by reflexivity.
    symmetry. apply set_root_dir_same. rewrite Hw. f_equal.
    symmetry. apply filter_all. intros f _. now rewrite andb_false_r.
  - simpl forEach. unfold bind. rewrite (Hbody a w entries Hw).
    destruct (sel a) eqn:Ha.
    + rewrite (IH _ (filter (fun f => negb (String.eqb f a)) entries))
        by (destruct w; reflexivity).
      rewrite filter_filter.
      assert (Hf :
        filter (fun f => negb (String.eqb f a)
                         && negb (sel f && existsb (String.eqb f) l))%bool
               entries
        = filter (fun f => negb (sel f && existsb (String.eqb f) (a :: l)))%bool
                 entries).
      { apply filter_ext. intro f. simpl.
        destruct (String.eqb_spec f a) as [->|Hne]; simpl.
        - now rewrite Ha.
        - reflexivity. }
      rewrite Hf. simpl filter. rewrite Ha. simpl flat_map.
      destruct w; simpl. now rewrite <- List.app_assoc.
    + rewrite (IH w entries Hw).
      assert (Hf :
        filter (fun f => negb (sel f && existsb (String.eqb f) l))%bool entries
        = filter (fun f => negb (sel f && existsb (String.eqb f) (a :: l)))%bool
                 entries).
      { apply filter_ext. intro f. simpl.
        destruct (String.eqb_spec f a) as [->|Hne]; simpl.
        - now rewrite Ha.
        - reflexivity. }
      rewrite Hf. simpl filter. now rewrite Ha.
Qed.

Lemma flat_map_constant_nil {A B : Type} (l : list A) :
  flat_map (fun _ : A => @nil B) l = [].
Proof. induction l; simpl; auto. Qed.

End WorldFacts.

(** ** isSafeToCreateProjectIn *)

Section Guard.

Lemma conflicts_of_spec (files : list string) :
  conflicts_of files
  = filter (fun f => negb (includes validFiles f) && negb (is_error_log f))%bool
           files.
Proof.
  unfold conflicts_of. rewrite filter_filter. apply filter_ext. intro f.
  unfold errorLogFilePatterns, is_error_log. simpl existsb.
  now rewrite indexOf_is_0_prefix, orb_false_r.
Qed.

Lemma In_conflicts_of (files : list string) (f : string) :
  In f (conflicts_of files)
  <-> In f files /\ ~ In f validFiles /\ is_error_log f = false.
Proof.
  rewrite conflicts_of_spec, filter_In, andb_true_iff, !negb_true_iff.
  unfold includes.
  pose proof (existsb_eqb_In f validFiles) as Hin.
  destruct (existsb (String.eqb f) validFiles).
  - split; [intros (_ & Hf & _); discriminate|].
    intros (_ & Hn & _). exfalso. apply Hn, Hin. reflexivity.
  - split; intros (Hf & _ & Hl); repeat split; auto.
    intro Hv. apply Hin in Hv. discriminate.
Qed.

(** The loop that removes the remnant log files. *)
Lemma purge_error_logs (l : list string) (w : world) (entries : list string) :
  root_dir w = Some entries ->
  forEach l (fun file =>
    forEach errorLogFilePatterns (fun errorLogFilePattern =>
      if indexOf_is_0 file errorLogFilePattern
      then removeSync_entry file
      else ret tt)) w
  = (Returned tt,
     set_root_dir
       (Some (filter (fun f => negb (is_error_log f
                                     && existsb (String.eqb f) l))%bool
                     entries)) w).
Proof.
  intro Hw.
  rewrite (forEach_removing is_error_log (fun _ => [])) with (entries := entries).
  - rewrite flat_map_constant_nil, List.app_nil_r.
    now rewrite (set_console_same w).
  - intros a w' entries' Hw'. simpl. unfold bind, ret.
    rewrite indexOf_is_0_prefix. fold (is_error_log a).
    destruct (is_error_log a); [|reflexivity].
    unfold removeSync_entry. rewrite Hw', List.app_nil_r.
    now rewrite (set_console_same w').
  - exact Hw.
Qed.

(** What the guard prints when it finds conflicts. *)
Lemma isSafeToCreateProjectIn_spec (root name : string) (w : world)
      (files : list string) :
  root_dir w = Some files ->
  isSafeToCreateProjectIn root name w
  = match conflicts_of files with
    | [] =>
        (Returned true,
         set_root_dir (Some (filter (fun f => negb (is_error_log f)) files))
           (set_console (console w ++ [""]) w))
    | _ :: _ =>
        (Returned false,
         set_console
           (console w
              ++ [""; "The directory " ++ name
                        ++ " contains files that could conflict:"; ""]
              ++ map (fun c => "  " ++ c) (conflicts_of files)
              ++ [""; "Either try using a new directory name, or remove the files listed above."])
           w)
    end.
Proof.
  intro Hw.
  assert (Hw' : forall c, root_dir (set_console c w) = Some files)
    by (intro c; destruct w; exact Hw).
  unfold isSafeToCreateProjectIn.
  unfold bind at 1, console_log at 1.
  unfold bind at 1, readdirSync at 1. rewrite Hw'.
  destruct (conflicts_of files) as [|c cs] eqn:Hc.
  - cbn [List.length Nat.ltb Nat.leb].
    unfold bind at 1, readdirSync at 1. rewrite Hw'.
    unfold bind at 1.
    rewrite (purge_error_logs files _ files) by apply Hw'.
    unfold ret. f_equal.
    assert (Hf :
      filter (fun f => negb (is_error_log f
                             && existsb (String.eqb f) files))%bool files
      = filter (fun f => negb (is_error_log f)) files).
    { apply filter_ext_in. intros f Hf.
      apply existsb_eqb_In in Hf. now rewrite Hf, andb_true_r. }
    rewrite Hf. destruct w; reflexivity.
  - cbn [List.length Nat.ltb Nat.leb].
    unfold Chalk.green.
    unfold bind at 1. unfold console_log at 1.
    unfold bind at 1. unfold console_log at 1.
    unfold bind at 1. rewrite forEach_console_log.
    unfold bind, console_log, ret.
    rewrite !set_console_twice, !console_set_console.
    do 2 f_equal. rewrite <- !List.app_assoc. reflexivity.
Qed.

End Guard.

(** C6.  In a project root that lists [files], the guard returns false
    exactly when some entry is neither in the allow-list [validFiles] nor
    begins with [npm-debug.log]; it then prints every such entry, in the
    order of the listing, between its header and its advice, and removes
    nothing.  A root with only [.git] and [README.md] is safe; a root with
    [.git] and the directory [dist/] (listed as [dist]) is not, and [dist]
    is what is printed. *)
Theorem isSafeToCreateProjectIn_conflicts :
  forall (root name : string) (w : world) (files : list string),
    root_dir w = Some files ->
    let conflicts :=
      filter (fun f => negb (includes validFiles f)
                       && negb (is_error_log f))%bool files in
    (fst (isSafeToCreateProjectIn root name w) = Returned false
     <-> exists f, In f files /\ ~ In f validFiles /\ is_error_log f = false)
    /\ (fst (isSafeToCreateProjectIn root name w) = Returned false ->
        snd (isSafeToCreateProjectIn root name w)
        = set_console
            (console w
               ++ [""; "The directory " ++ name
                         ++ " contains files that could conflict:"; ""]
               ++ map (fun c => "  " ++ c) conflicts
               ++ [""; "Either try using a new directory name, or remove the files listed above."])
            w)
    /\ fst (isSafeToCreateProjectIn "/home/user/my-k8s-app" "my-k8s-app"
              (Scenario.offline [".git"; "README.md"] None))
       = Returned true
    /\ isSafeToCreateProjectIn "/home/user/my-k8s-app" "my-k8s-app"
         (Scenario.offline [".git"; "dist"] None)
       = (Returned false,
          set_console
            [""; "The directory my-k8s-app contains files that could conflict:";
             ""; "  dist"; "";
             "Either try using a new directory name, or remove the files listed above."]
            (Scenario.offline [".git"; "dist"] None)).
Proof.
  intros root name w files Hw conflicts.
  rewrite (isSafeToCreateProjectIn_spec root name w files Hw).
  assert (Hc : conflicts = conflicts_of files)
    by (symmetry; apply conflicts_of_spec).
  rewrite Hc.
  split; [|split; [|split]].
  - destruct (conflicts_of files) as [|c cs] eqn:E; simpl.
    + split; [discriminate|].
      intros (f & Hf). apply In_conflicts_of in Hf. rewrite E in Hf.
      destruct Hf.
    + split; [|reflexivity]. intros _. exists c.
      apply In_conflicts_of. rewrite E. now left.
  - destruct (conflicts_of files) as [|c cs] eqn:E; simpl.
    + discriminate.
    + reflexivity.
  - reflexivity.
  - reflexivity.
Qed.

(** A root that lists [.git], [src] and [dist]: both conflicts are
    reported. *)
Lemma isSafeToCreateProjectIn_conflicts_witness :
  root_dir (Scenario.offline [".git"; "src"; "dist"] None)
  = Some [".git"; "src"; "dist"]
  /\ (fst (isSafeToCreateProjectIn "/home/user/my-k8s-app" "my-k8s-app"
             (Scenario.offline [".git"; "src"; "dist"] None))
      = Returned false
      <-> exists f, In f [".git"; "src"; "dist"] /\ ~ In f validFiles
                    /\ is_error_log f = false).
Proof.
  split; [reflexivity|].
  apply (isSafeToCreateProjectIn_conflicts
           "/home/user/my-k8s-app" "my-k8s-app"
           (Scenario.offline [".git"; "src"; "dist"] None)
           [".git"; "src"; "dist"]).
  reflexivity.
Defined.

(** C7.  When every entry of the project root is in the allow-list or
    begins with [npm-debug.log], the guard returns true, and afterwards the
    root lists exactly the entries that do not begin with [npm-debug.log]:
    the log files no longer exist, the other entries remain. *)
Theorem isSafeToCreateProjectIn_self_heals :
  forall (root name : string) (w : world) (files : list string),
    root_dir w = Some files ->
    (forall f, In f files -> In f validFiles \/ is_error_log f = true) ->
    fst (isSafeToCreateProjectIn root name w) = Returned true
    /\ root_dir (snd (isSafeToCreateProjectIn root name w))
       = Some (filter (fun f => negb (is_error_log f)) files)
    /\ (forall f, is_error_log f = true ->
                  ~ In f (filter (fun f => negb (is_error_log f)) files)).
Proof.
  intros root name w files Hw Hfiles.
  rewrite (isSafeToCreateProjectIn_spec root name w files Hw).
  destruct (conflicts_of files) as [|c cs] eqn:E.
  - split; [reflexivity | split].
    + destruct w; reflexivity.
    + intros f Hf Hin. apply filter_In in Hin.
      destruct Hin as [_ Hin]. now rewrite Hf in Hin.
  - exfalso.
    assert (Hc : In c (conflicts_of files)) by (rewrite E; now left).
    apply In_conflicts_of in Hc. destruct Hc as (Hin & Hnv & Hnl).
    destruct (Hfiles c Hin) as [Hv|Hl]; [now apply Hnv | congruence].
Qed.

(** The root of the specification's example: a log file [npm-debug.log.1234]
    next to [.git]. *)
Lemma isSafeToCreateProjectIn_self_heals_witness :
  root_dir (Scenario.offline [".git"; "npm-debug.log.1234"] None)
  = Some [".git"; "npm-debug.log.1234"]
  /\ (forall f, In f [".git"; "npm-debug.log.1234"] ->
                In f validFiles \/ is_error_log f = true)
  /\ fst (isSafeToCreateProjectIn "/home/user/my-k8s-app" "my-k8s-app"
         (Scenario.offline [".git"; "npm-debug.log.1234"] None))
  = Returned true
  /\ root_dir (snd (isSafeToCreateProjectIn "/home/user/my-k8s-app"
                      "my-k8s-app"
                      (Scenario.offline [".git"; "npm-debug.log.1234"] None)))
     = Some [".git"].
Proof.
  assert (Hfiles : forall f, In f [".git"; "npm-debug.log.1234"] ->
                             In f validFiles \/ is_error_log f = true).
  { simpl. intros f [<-|[<-|[]]]; [left; tauto | right; reflexivity]. }
  destruct (isSafeToCreateProjectIn_self_heals
              "/home/user/my-k8s-app" "my-k8s-app"
              (Scenario.offline [".git"; "npm-debug.log.1234"] None)
              [".git"; "npm-debug.log.1234"] eq_refl Hfiles)
    as (H1 & H2 & _).
  split; [reflexivity | split; [exact Hfiles | split; [exact H1 | exact H2]]].
Defined.

(** ** The rollback handler of run *)

Section Rollback.

(** The loop that deletes the generated files. *)
Lemma delete_generated_files (l : list string) (w : world)
      (entries : list string) :
  root_dir w = Some entries ->
  forEach l (fun file =>
    forEach knownGeneratedFiles (fun fileToMatch =>
      if String.eqb file fileToMatch then
        (console_log ("Deleting generated file... " ++ Chalk.cyan file) ;;
         removeSync_entry file)%js
      else ret tt)) w
  = (Returned tt,
     set_root_dir
       (Some (filter (fun f => negb (is_generated f
                                     && existsb (String.eqb f) l))%bool
                     entries))
       (set_console
          (console w
             ++ flat_map (fun f => ["Deleting generated file... " ++ f])
                         (filter is_generated l)) w)).
Proof.
  intro Hw.
  apply (forEach_removing is_generated
           (fun f => ["Deleting generated file... " ++ f])); [|exact Hw].
  clear. intros a w entries Hw. unfold is_generated, Chalk.cyan.
  simpl forEach. unfold bind, ret, console_log, removeSync_entry.
  destruct (String.eqb_spec a "package.json") as [->|Hp].
  - simpl. unfold_setters. now rewrite Hw.
  - destruct (String.eqb_spec a "node_modules") as [->|Hn].
    + simpl. unfold_setters. now rewrite Hw.
    + reflexivity.
Qed.

(** [path.resolve] of two strings returns. *)
Lemma resolve_two_strings (cwd a b : string) :
  exists p, Path.resolve cwd [Some a; Some b] = Returned p.
Proof.
  unfold Path.resolve. simpl rev. simpl Path.resolve_loop.
  destruct (truthy b), (Path.isAbsolute b), (truthy a), (Path.isAbsolute a),
    (truthy cwd), (Path.isAbsolute cwd); simpl;
    repeat match goal with
           | |- context [if ?c then _ else _] => destruct c
           end; eexists; reflexivity.
Qed.

(** What is printed about the failure is all that [report_failure] does. *)
Lemma report_failure_spec (reason : reason) (w : world) :
  exists lines,
    report_failure reason w = (Returned tt, set_console (console w ++ lines) w).
Proof.
  unfold report_failure.
  destruct (truthy_value (command_of reason)) as [command|];
    unfold bind, console_log; cbv beta iota;
    rewrite !console_set_console, !set_console_twice, <- !List.app_assoc;
    eexists; reflexivity.
Qed.

Lemma delete_generated_spec (root appName : string) (w : world)
      (entries : list string) :
  root_dir w = Some entries ->
  exists lines,
    delete_generated root appName w
    = match filter (fun f => negb (is_generated f)) entries with
      | [] =>
          match Path.resolve (process_cwd w) [Some root; Some ".."] with
          | Returned parent =>
              (Returned tt,
               set_exit_code (Some 1%Z)
                 (set_console lines
                    (set_root_dir None (set_process_cwd parent w))))
          | Threw e => (Threw e, w)
          end
      | remaining =>
          (Returned tt,
           set_exit_code (Some 1%Z)
             (set_console lines (set_root_dir (Some remaining) w)))
      end.
Proof.
  intro Hw. unfold delete_generated.
  unfold bind at 1, readdirSync at 1. rewrite Hw.
  unfold bind at 1. rewrite (delete_generated_files entries w entries Hw).
  assert (Hf :
    filter (fun f => negb (is_generated f
                           && existsb (String.eqb f) entries))%bool entries
    = filter (fun f => negb (is_generated f)) entries).
  { apply filter_ext_in. intros f Hf.
    apply existsb_eqb_In in Hf. now rewrite Hf, andb_true_r. }
  rewrite Hf.
  unfold bind at 1, readdirSync at 1. unfold_setters.
  destruct (filter (fun f => negb (is_generated f)) entries) as [|r rs].
  - unfold bind at 1. unfold bind at 1, path_resolve at 1. unfold_setters.
    destruct (resolve_two_strings (process_cwd w) root "..") as [p Hp].
    rewrite Hp.
    unfold bind, console_log, path_resolve, chdir, removeSync_root,
      process_exit.
    unfold_setters. rewrite Hp.
    destruct w; unfold_setters. eexists; reflexivity.
  - unfold bind, ret, console_log, process_exit.
    destruct w; unfold_setters. eexists; reflexivity.
Qed.

End Rollback.

(** The handler on its own.  When it runs in a project root that lists
    [entries], for whatever reason, it deletes the entries named
    [package.json] and [node_modules] and no other.  If nothing remains, it
    deletes the root itself and makes the parent of the root the working
    directory of the process; if something remains, the root keeps exactly
    the remaining entries and the working directory is not changed.  In
    both cases the handler ends the process with exit code 1. *)
Lemma run_catch_handler :
  forall (root appName : string) (reason : reason) (w : world)
         (entries : list string),
    root_dir w = Some entries ->
    let remaining := filter (fun f => negb (is_generated f)) entries in
    let w' := snd (run_catch root appName reason w) in
    fst (run_catch root appName reason w) = Returned tt
    /\ exit_code w' = Some 1%Z
    /\ (remaining = [] ->
        root_dir w' = None
        /\ Path.resolve (process_cwd w) [Some root; Some ".."]
           = Returned (process_cwd w'))
    /\ (remaining <> [] ->
        root_dir w' = Some remaining /\ process_cwd w' = process_cwd w).
Proof.
  intros root appName reason w entries Hw remaining w'.
  destruct (report_failure_spec reason w) as [lines0 Hrep].
  destruct (delete_generated_spec root appName
              (set_console (console w ++ lines0) w) entries)
    as [lines Hdel]; [destruct w; exact Hw|].
  assert (Hrun :
    run_catch root appName reason w
    = delete_generated root appName (set_console (console w ++ lines0) w)).
  { unfold run_catch, bind. now rewrite Hrep. }
  unfold w'. rewrite Hrun, Hdel. fold remaining.
  destruct remaining as [|r rs].
  - unfold_setters.
    destruct (resolve_two_strings (process_cwd w) root "..") as [p Hp].
    rewrite Hp. cbn [fst snd].
    split; [reflexivity | split; [reflexivity | split]].
    + intros _. split; reflexivity.
    + intro Hne. now contradiction Hne.
  - cbn [fst snd].
    split; [reflexivity | split; [reflexivity | split]].
    + discriminate.
    + intros _. split; reflexivity.
Qed.

(** ** The matcher *)

Section RegexFacts.
Import Regex.

Variable p : ascii -> bool.

(** A greedy iteration runs through a prefix of characters of its class
    when the match succeeds from the end of that prefix. *)
Lemma star_greedy_prefix (s1 s2 : string) (c r : caps) (k : cont) :
  all_chars p s1 = true ->
  star true p s2 c k = Some r ->
  star true p (s1 ++ s2) c k = Some r.
Proof.
  intros Hall Hk. induction s1 as [|a s1 IH]; simpl in *.
  - exact Hk.
  - apply andb_true_iff in Hall. destruct Hall as [Ha Hall].
    now rewrite Ha, (IH Hall).
Qed.

(** A greedy iteration over a whole input of its class. *)
Lemma star_greedy_all (s : string) (c r : caps) (k : cont) :
  all_chars p s = true ->
  k "" c = Some r ->
  star true p s c k = Some r.
Proof.
  intros Hall Hk.
  rewrite <- (append_nil_r s). now apply star_greedy_prefix.
Qed.

(** An iteration fails when its continuation fails at every position of the
    input. *)
Lemma star_none (greedy : bool) (s : string) (c : caps) (k : cont) :
  (forall s1 s2, s = s1 ++ s2 -> k s2 c = None) ->
  star greedy p s c k = None.
Proof.
  induction s as [|a s IH]; intro Hk; simpl.
  - apply (Hk "" ""). reflexivity.
  - assert (Hhere : k (String a s) c = None) by (apply (Hk ""); reflexivity).
    assert (Hrest : star greedy p s c k = None).
    { apply IH. intros s1 s2 ->. apply (Hk (String a s1)). reflexivity. }
    rewrite Hhere, Hrest. destruct (p a), greedy; reflexivity.
Qed.

(** An iteration that succeeds hands a suffix of the input to its
    continuation. *)
Lemma star_some (greedy : bool) (s : string) (c r : caps) (k : cont) :
  star greedy p s c k = Some r ->
  exists s1 s2, s = s1 ++ s2 /\ k s2 c = Some r.
Proof.
  induction s as [|a s IH]; simpl; intro H.
  - now exists "", "".
  - destruct (p a); [|now exists "", (String a s)].
    destruct greedy.
    + destruct (star true p s c k) as [r'|] eqn:E.
      * injection H as ->. destruct (IH eq_refl) as (s1 & s2 & -> & Hk).
        now exists (String a s1), s2.
      * now exists "", (String a s).
    + destruct (k (String a s) c) as [r'|] eqn:E.
      * injection H as ->. now exists "", (String a s).
      * destruct (IH H) as (s1 & s2 & -> & Hk).
        now exists (String a s1), s2.
Qed.

End RegexFacts.

(** ** The validator *)

Section SemverFacts.
Import Semver.

Lemma strip_v_other (c : ascii) (s : string) :
  c <> "v"%char -> strip_v (String c s) = String c s.
Proof.
  intro Hc.
  destruct c as [[|] [|] [|] [|] [|] [|] [|] [|]];
    try reflexivity; now contradiction Hc.
Qed.

Lemma cut_head (c a : ascii) (s l : string) (r : option string) :
  cut c s = (String a l, r) -> exists s', s = String a s'.
Proof.
  destruct s as [|b s]; simpl; [discriminate|].
  destruct (Ascii.eqb b c); [discriminate|].
  destruct (cut c s). intro H. injection H as -> _ _. now exists s.
Qed.

Lemma split_head (sep a : ascii) (s x : string) (rest : list string) :
  split sep s = String a x :: rest -> exists s', s = String a s'.
Proof.
  destruct s as [|b s]; simpl; [discriminate|].
  destruct (Ascii.eqb b sep); [discriminate|].
  destruct (split sep s); intro H; injection H as -> _; now exists s.
Qed.

Lemma numeric_identifier_head (x : string) :
  numeric_identifier x = true ->
  exists a x', x = String a x' /\ is_digit a = true.
Proof.
  destruct x as [|a x]; simpl; [discriminate|].
  destruct (Ascii.eqb_spec a "0") as [->|Hne].
  - intros _. now exists "0"%char, x.
  - intro H. apply andb_true_iff in H. destruct H as [Ha _].
    now exists a, x.
Qed.

(** A version that parses starts, after an optional [v], with a digit. *)
Lemma parse_head (V : string) (v : SemVer) :
  parse V = Some v ->
  exists a t, strip_v V = String a t /\ is_digit a = true.
Proof.
  unfold parse.
  destruct (MAX_LENGTH <? String.length V)%nat; [discriminate|].
  destruct (cut "+" (strip_v V)) as [mp b] eqn:E1.
  destruct (cut "-" mp) as [mn pre] eqn:E2.
  destruct (split "." mn) as [|x [|y [|z [|]]]] eqn:E3; try discriminate.
  destruct (numeric_identifier x) eqn:Hx; [|discriminate].
  intros _.
  destruct (numeric_identifier_head x Hx) as (a & x' & -> & Ha).
  destruct (split_head _ _ _ _ _ E3) as [mn' ->].
  destruct (cut_head _ _ _ _ _ E2) as [mp' ->].
  destruct (cut_head _ _ _ _ _ E1) as [t Ht].
  now exists a, t.
Qed.

(** A valid version starts with [v] or with a digit. *)
Lemma valid_head (V N : string) :
  valid (Some V) = Some N ->
  exists c s, V = String c s /\ (c = "v"%char \/ is_digit c = true).
Proof.
  unfold valid. destruct (parse V) as [v|] eqn:Hp; [|discriminate].
  intros _. destruct (parse_head V v Hp) as (a & t & Hs & Ha).
  destruct V as [|c s]; [discriminate|].
  exists c, s. split; [reflexivity|].
  destruct (Ascii.eqb_spec c "v") as [->|Hne]; [now left|].
  right. rewrite (strip_v_other c s Hne) in Hs. now injection Hs as -> _.
Qed.

(** The normalised version is not the empty string. *)
Lemma valid_truthy (V N : string) :
  valid (Some V) = Some N -> truthy N = true.
Proof.
  unfold valid. destruct (parse V) as [v|]; [|discriminate].
  intro H. injection H as <-. unfold format.
  destruct (of_number (major v)); reflexivity.
Qed.

Lemma split_nonempty (sep : ascii) (s : string) :
  exists h t, split sep s = h :: t.
Proof.
  destruct s as [|c s]; simpl; [now exists "", []|].
  destruct (Ascii.eqb c sep); [now eexists; eexists|].
  destruct (split sep s); now eexists; eexists.
Qed.

(** Joining what was split gives the string back. *)
Lemma join_split (sep : ascii) (s : string) :
  join (String sep "") (split sep s) = s.
Proof.
  unfold join. induction s as [|c s IH]; [reflexivity|].
  simpl split. destruct (split_nonempty sep s) as (h & t & Hs).
  rewrite Hs in *. destruct (Ascii.eqb_spec c sep) as [->|Hne].
  - change (String.concat (String sep "") ("" :: h :: t))
      with (String sep (String.concat (String sep "") (h :: t))).
    now rewrite IH.
  - destruct t as [|t1 t].
    + simpl in *. now rewrite IH.
    + change (String.concat (String sep "") (String c h :: t1 :: t))
        with (String c (String.concat (String sep "") (h :: t1 :: t))).
      now rewrite IH.
Qed.

Lemma cut_spec (c : ascii) (s l : string) (r : option string) :
  cut c s = (l, r) ->
  s = match r with
      | Some t => l ++ String c t
      | None => l
      end.
Proof.
  revert l r. induction s as [|a s IH]; intros l r; simpl.
  - intro H. now injection H as <- <-.
  - destruct (Ascii.eqb_spec a c) as [->|Hne].
    + intro H. now injection H as <- <-.
    + destruct (cut c s) as [l' r'] eqn:E. intro H. injection H as <- <-.
      rewrite (IH l' r' eq_refl) at 1. now destruct r'.
Qed.

Lemma uint_of_digits (s : string) :
  all_chars is_digit s = true ->
  exists d, NilEmpty.uint_of_string s = Some d.
Proof.
  induction s as [|a s IH]; simpl; intro H; [now eexists|].
  apply andb_true_iff in H. destruct H as [Ha Hs].
  destruct (IH Hs) as [d ->].
  destruct a as [[|] [|] [|] [|] [|] [|] [|] [|]];
    try discriminate Ha; eexists; reflexivity.
Qed.

(** Printing the number read from a numeric identifier gives the identifier
    back. *)
Lemma of_to_number (x : string) :
  numeric_identifier x = true -> of_number (to_number x) = x.
Proof.
  destruct x as [|a x]; [discriminate|]. simpl numeric_identifier.
  destruct (Ascii.eqb_spec a "0") as [->|Hne].
  - destruct x; [reflexivity | discriminate].
  - intro H. apply andb_true_iff in H. destruct H as [Ha Hx].
    destruct (uint_of_digits x Hx) as [d Hd].
    unfold to_number, of_number, NilZero.uint_of_string.
    cbn [NilEmpty.uint_of_string]. rewrite Hd.
    destruct a as [[|] [|] [|] [|] [|] [|] [|] [|]];
      try discriminate Ha; try (now contradiction Hne);
      cbn [uint_of_char]; rewrite Unsigned.to_of;
      cbn [Decimal.unorm Decimal.nzhead NilZero.string_of_uint
           NilEmpty.string_of_uint];
      now rewrite (NilEmpty.sus x d Hd).
Qed.

Lemma show_prerelease_id (id : string) :
  prerelease_identifier id = true -> show_id (prerelease_id id) = id.
Proof.
  unfold prerelease_identifier, non_numeric_identifier, prerelease_id.
  intro H. destruct (truthy id && all_chars is_digit id)%bool eqn:E;
    [|reflexivity].
  destruct ((to_number id <? MAX_SAFE_INTEGER)%N); [|reflexivity].
  simpl. apply of_to_number.
  apply andb_true_iff in E. destruct E as [_ E]. rewrite E in H.
  now rewrite andb_false_r, orb_false_r in H.
Qed.

Lemma show_prerelease_ids (ids : list string) :
  forallb prerelease_identifier ids = true ->
  map show_id (map prerelease_id ids) = ids.
Proof.
  induction ids as [|id ids IH]; simpl; intro H; [reflexivity|].
  apply andb_true_iff in H. destruct H as [Hid Hids].
  now rewrite (show_prerelease_id id Hid), (IH Hids).
Qed.

(** The normalised version is the text of the version, without the leading
    [v] and without the build metadata. *)
Lemma format_parse (V : string) (v : SemVer) :
  parse V = Some v -> format v = fst (cut "+" (strip_v V)).
Proof.
  unfold parse.
  destruct (MAX_LENGTH <? String.length V)%nat; [discriminate|].
  destruct (cut "+" (strip_v V)) as [mp b] eqn:E1.
  destruct (cut "-" mp) as [mn pre] eqn:E2.
  destruct (split "." mn) as [|x [|y [|z [|]]]] eqn:E3; try discriminate.
  destruct (numeric_identifier x && numeric_identifier y
            && numeric_identifier z
            && forallb prerelease_identifier (ids_of pre)
            && forallb build_identifier (ids_of b))%bool eqn:Hok;
    [|discriminate].
  destruct ((to_number x <=? MAX_SAFE_INTEGER)
            && (to_number y <=? MAX_SAFE_INTEGER)
            && (to_number z <=? MAX_SAFE_INTEGER))%N%bool; [|discriminate].
  intro H. injection H as <-.
  repeat (apply andb_true_iff in Hok; destruct Hok as [Hok ?]).
  unfold format. cbn [major minor patch prerelease fst].
  rewrite !of_to_number by assumption.
  rewrite show_prerelease_ids by assumption.
  pose proof (join_split "." mn) as Hmn. rewrite E3 in Hmn.
  change (join "." [x; y; z]) with (x ++ "." ++ y ++ "." ++ z) in Hmn.
  rewrite (cut_spec _ _ _ _ E2).
  destruct pre as [t|]; cbn [ids_of].
  - destruct (split_nonempty "." t) as (h & tl & Ht).
    pose proof (join_split "." t) as Hj. rewrite Ht in *.
    cbn [map]. rewrite Hj, <- Hmn, !append_assoc. reflexivity.
  - cbn [map]. now rewrite <- Hmn, append_nil_r.
Qed.

End SemverFacts.

(** ** getInstallPackage *)

Section Resolver.

(** The branch of a valid semantic version. *)
Lemma getInstallPackage_semver (V N C : string) (w : world) :
  Semver.valid (Some V) = Some N ->
  getInstallPackage (Some V) C w = (Returned ("k8s-scripts@" ++ N), w).
Proof.
  intro HV. unfold getInstallPackage. rewrite HV. unfold truthy_value.
  now rewrite (valid_truthy V N HV).
Qed.

(** A string that starts with [@] or with [f] is not a valid version. *)
Lemma valid_none_of_head (c : ascii) (s : string) :
  c <> "v"%char -> is_digit c = false ->
  Semver.valid (Some (String c s)) = None.
Proof.
  intros Hv Hd. destruct (Semver.valid (Some (String c s))) as [N|] eqn:E;
    [|reflexivity].
  destruct (valid_head _ _ E) as (c' & s' & Heq & Hc).
  injection Heq as <- _. destruct Hc as [Hc|Hc]; [now contradiction Hv|].
  congruence.
Qed.

(** What [getInstallPackage] does with a string that is not empty and not
    a valid version. *)
Lemma getInstallPackage_other (V C : string) :
  Semver.valid (Some V) = None ->
  truthy V = true ->
  getInstallPackage (Some V) C
  = if (String.eqb (charAt 0 V) "@" && indexOf_is_minus1 V "/")%bool
    then ret ("k8s-scripts" ++ V)
    else if Regex.test Patterns.file_prefix V then
           (path <- lift (match_1 V Patterns.file_path) ;;
            resolved <- path_resolve [Some C; path] ;;
            ret ("file:" ++ resolved))%js
         else ret V.
Proof.
  intros HV Ht. unfold getInstallPackage. rewrite HV.
  unfold truthy_value. now rewrite Ht.
Qed.

(** The branch of a dist-tag: [@] and no slash. *)
Lemma getInstallPackage_tag (t C : string) (w : world) :
  indexOf (String "@" t) "/" = None ->
  getInstallPackage (Some (String "@" t)) C w
  = (Returned ("k8s-scripts@" ++ t), w).
Proof.
  intro Hslash.
  rewrite getInstallPackage_other;
    [| apply valid_none_of_head; [discriminate | reflexivity]
     | reflexivity].
  unfold indexOf_is_minus1. rewrite Hslash, charAt_0_cons. reflexivity.
Qed.

(** The capture of [file_path] on a path of one line. *)
Lemma file_path_capture (P : string) :
  truthy P = true ->
  all_chars Regex.dot P = true ->
  Regex.exec Patterns.file_path ("file:" ++ P) = Some [(1, P)].
Proof.
  intros HP Hdot. unfold Regex.exec. simpl.
  rewrite (star_greedy_all Regex.dot P [] [(1, P)]); auto.
  destruct P as [|a P]; [discriminate|]. simpl.
  unfold Regex.consumed. simpl. now rewrite substring_all.
Qed.

(** [path.resolve] of a non-empty path against an absolute directory does
    not read the working directory of the process. *)
Lemma resolve_absolute (cwd C P : string) :
  Path.isAbsolute C = true ->
  truthy P = true ->
  Path.resolve cwd [Some C; Some P]
  = Returned ("/" ++ Path.normalizeString
                       (if Path.isAbsolute P then P ++ "/"
                        else C ++ "/" ++ P ++ "/") false).
Proof.
  intros HC HP. unfold Path.resolve. simpl rev. simpl Path.resolve_loop.
  rewrite HP.
  assert (HtC : truthy C = true) by (destruct C; [discriminate|reflexivity]).
  destruct (Path.isAbsolute P); [reflexivity|].
  now rewrite HtC, HC.
Qed.

(** The branch of a local path, where it works: the path is not empty and
    has no line terminator.  The reference is [file:] and the resolution of
    the path against the original directory, whatever the working
    directory of the process. *)
Lemma getInstallPackage_file (P C : string) (w : world) :
  truthy P = true ->
  all_chars Regex.dot P = true ->
  Path.isAbsolute C = true ->
  getInstallPackage (Some ("file:" ++ P)) C w
  = (Returned ("file:/" ++ Path.normalizeString
                             (if Path.isAbsolute P then P ++ "/"
                              else C ++ "/" ++ P ++ "/") false), w).
Proof.
  intros HP Hdot HC.
  rewrite getInstallPackage_other;
    [| apply (valid_none_of_head "f"); [discriminate | reflexivity]
     | reflexivity].
  assert (H1 : charAt 0 ("file:" ++ P) = "f") by reflexivity.
  assert (H2 : Regex.test Patterns.file_prefix ("file:" ++ P) = true)
    by reflexivity.
  rewrite H1, H2. simpl (String.eqb "f" "@"). cbn [andb].
  unfold bind, lift, match_1, path_resolve, ret.
  rewrite (file_path_capture P HP Hdot). simpl Regex.group.
  now rewrite (resolve_absolute _ C P HC HP).
Qed.

End Resolver.

(** C2 (as amended).  For every valid semantic version [V], whatever the
    original directory, the reference is [k8s-scripts@] followed by the
    normalised version: [V] without the optional leading [v] and without
    the build metadata after a [+]. *)
Theorem getInstallPackage_valid_semver :
  forall (V C : string) (w : world),
    Semver.valid (Some V) <> None ->
    getInstallPackage (Some V) C w
    = (Returned ("k8s-scripts@" ++ normalised V), w).
Proof.
  intros V C w HV.
  destruct (Semver.valid (Some V)) as [N|] eqn:E; [|now contradiction HV].
  rewrite (getInstallPackage_semver V N C w E). do 3 f_equal.
  unfold Semver.valid in E.
  destruct (Semver.parse V) as [v|] eqn:Hp; [|discriminate].
  injection E as <-. now apply format_parse.
Qed.

(** The version of the help text, [0.8.2]. *)
Lemma getInstallPackage_valid_semver_witness :
  Semver.valid (Some "0.8.2") <> None
  /\ getInstallPackage (Some "0.8.2") "/home/user"
       (Scenario.offline [] None)
     = (Returned "k8s-scripts@0.8.2", Scenario.offline [] None).
Proof.
  assert (H : Semver.valid (Some "0.8.2") <> None)
    by (vm_compute; discriminate).
  split; [exact H|].
  exact (getInstallPackage_valid_semver "0.8.2" "/home/user"
           (Scenario.offline [] None) H).
Defined.

(** C2, as the specification states it, fails: [1.2.3+build.5] and [v1.2.3]
    are valid, and the reference carries [1.2.3], not the version string
    itself. *)
Lemma getInstallPackage_version_itself_counterexample :
  Semver.valid (Some "1.2.3+build.5") = Some "1.2.3"
  /\ fst (getInstallPackage (Some "1.2.3+build.5") "/home/user"
            (Scenario.offline [] None))
     <> Returned ("k8s-scripts" ++ "@" ++ "1.2.3+build.5")
  /\ Semver.valid (Some "v1.2.3") = Some "1.2.3"
  /\ fst (getInstallPackage (Some "v1.2.3") "/home/user"
            (Scenario.offline [] None))
     <> Returned ("k8s-scripts" ++ "@" ++ "v1.2.3").
Proof.
  repeat split; try (vm_compute; reflexivity); vm_compute; discriminate.
Qed.

(** A version without a leading [v] and without a [+] is its own normal
    form. *)
Lemma normalised_plain (V : string) :
  String.prefix "v" V = false ->
  all_chars (Regex.notc "+") V = true ->
  normalised V = V.
Proof.
  intros Hv Hplus. unfold normalised.
  assert (Hs : Semver.strip_v V = V).
  { destruct V as [|c s]; [reflexivity|].
    apply strip_v_other. intros ->. simpl in Hv.
    destruct s; discriminate. }
  rewrite Hs. clear Hv Hs.
  induction V as [|a V IH]; [reflexivity|].
  simpl in *. apply andb_true_iff in Hplus. destruct Hplus as [Ha HV].
  unfold Regex.notc in Ha. apply negb_true_iff in Ha. rewrite Ha.
  specialize (IH HV). destruct (Semver.cut "+" V). simpl in *. now subst.
Qed.

(** C8: the code at a failing input.  The relative path [a], line feed,
    [b]: the pattern that captures the path of a [file:] reference does not
    match across the line feed, reading its capture throws, and no
    reference is returned, whatever the original directory and the working
    directory of the process. *)
Theorem getInstallPackage_file_line_feed_throws :
  forall (C : string) (w : world),
    Regex.test Patterns.file_prefix ("file:" ++ "a" ++ Scenario.LF ++ "b")
    = true
    /\ Path.isAbsolute ("a" ++ Scenario.LF ++ "b") = false
    /\ getInstallPackage (Some ("file:" ++ "a" ++ Scenario.LF ++ "b")) C w
       = (Threw (TypeError "Cannot read property '1' of null"), w).
Proof.
  intros C w. split; [reflexivity | split; [reflexivity|]].
  rewrite getInstallPackage_other;
    [reflexivity
    | apply (valid_none_of_head "f"); [discriminate | reflexivity]
    | reflexivity].
Qed.

(** C9: the code at two failing inputs.  [getInstallPackage] throws on
    [file:] with nothing after it (the capture of the path is [undefined],
    and [path.resolve] refuses it) and on a [file:] reference whose path
    holds a line feed (the pattern does not match, and reading the capture
    of [null] throws), whatever the original directory. *)
Theorem getInstallPackage_throws :
  forall (C : string) (w : world),
    getInstallPackage (Some "file:") C w
    = (Threw (TypeError "Path must be a string. Received undefined"), w)
    /\ getInstallPackage (Some ("file:.." ++ Scenario.LF)) C w
       = (Threw (TypeError "Cannot read property '1' of null"), w).
Proof.
  intros C w. split;
    (rewrite getInstallPackage_other;
     [reflexivity
     | apply (valid_none_of_head "f"); [discriminate | reflexivity]
     | reflexivity]).
Qed.

(** The shapes do not overlap: a valid version is neither a dist-tag nor a
    [file:] reference. *)
Lemma valid_excludes_other_shapes (V : string) :
  Semver.valid (Some V) <> None ->
  String.prefix "@" V = false /\ String.prefix "file:" V = false.
Proof.
  intro HV. destruct (Semver.valid (Some V)) as [N|] eqn:E;
    [clear HV | now contradiction HV].
  destruct (valid_head V N E) as (c & s & -> & Hc).
  change (String.prefix "@" (String c s))
    with (if ascii_dec "@" c then String.prefix "" s else false).
  change (String.prefix "file:" (String c s))
    with (if ascii_dec "f" c then String.prefix "ile:" s else false).
  destruct Hc as [->|Hc].
  - split; reflexivity.
  - split.
    + destruct (ascii_dec "@" c) as [<-|]; [discriminate Hc | reflexivity].
    + destruct (ascii_dec "f" c) as [<-|]; [discriminate Hc | reflexivity].
Qed.

(** Outside the [file:] branch [getInstallPackage] returns a reference. *)
Lemma getInstallPackage_returns (version : value) (C : string) (w : world) :
  (forall V, version = Some V -> Regex.test Patterns.file_prefix V = false) ->
  exists ref, getInstallPackage version C w = (Returned ref, w).
Proof.
  intro Hfile. unfold getInstallPackage.
  destruct (truthy_value (Semver.valid version)); [now eexists|].
  destruct version as [V|]; [|now eexists].
  unfold truthy_value. destruct (truthy V); [|now eexists].
  destruct (String.eqb (charAt 0 V) "@" && indexOf_is_minus1 V "/")%bool;
    [now eexists|].
  rewrite (Hfile V eq_refl). now eexists.
Qed.

(** [getInstallPackage] leaves the world as it is. *)
Lemma getInstallPackage_pure (version : value) (C : string) (w : world) :
  snd (getInstallPackage version C w) = w.
Proof.
  unfold getInstallPackage.
  destruct (truthy_value (Semver.valid version)); [reflexivity|].
  destruct (truthy_value version) as [V|]; [|reflexivity].
  destruct (String.eqb (charAt 0 V) "@" && indexOf_is_minus1 V "/")%bool;
    [reflexivity|].
  destruct (Regex.test Patterns.file_prefix V); [|reflexivity].
  unfold bind, lift, path_resolve, ret.
  destruct (match_1 V Patterns.file_path); [|reflexivity].
  destruct (Path.resolve (process_cwd w) [Some C; a]); reflexivity.
Qed.

(** ** getPackageName *)

Section Extractor.
Import Regex.

(** A greedy iteration succeeds when its continuation succeeds where the
    iteration starts. *)
Lemma star_greedy_here (p : ascii -> bool) (s : string) (c r0 : caps)
      (k : cont) :
  k s c = Some r0 -> exists r, star true p s c k = Some r.
Proof.
  intro Hk. destruct s as [|a s]; simpl; [now exists r0|].
  destruct (p a); [|now exists r0].
  destruct (star true p s c k) as [r|]; [now exists r | now exists r0].
Qed.

(** The pattern of a qualifier matches the resolved registry references. *)
Lemma qualifier_matches (X : string) :
  test Patterns.qualifier ("k8s-scripts@" ++ X) = true.
Proof.
  unfold test, exec. cbn [bol body Patterns.qualifier].
  set (k := fun (s2 : string) (c2 : caps) => m (Chr "@") s2 c2 accept).
  assert (Hm : exists r,
    m (Seq (Plus true dot) (Chr "@")) ("k8s-scripts@" ++ X) [] accept
    = Some r).
  { destruct (star_greedy_here dot ("@" ++ X) [] [] k eq_refl) as [r Hr].
    exists r. change ("k8s-scripts@" ++ X)
      with (String "k" ("8s-scripts" ++ ("@" ++ X))).
    cbn [m Plus]. simpl (dot "k"). cbv iota. fold k.
    now apply star_greedy_prefix. }
  destruct Hm as [r Hr].
  change ("k8s-scripts@" ++ X) with (String "k" ("8s-scripts@" ++ X)) in *.
  cbn [search]. now rewrite Hr.
Qed.

Lemma hd_split_cons (sep c : ascii) (s : string) :
  hd "" (split sep (String c s))
  = if Ascii.eqb c sep then "" else String c (hd "" (split sep s)).
Proof.
  simpl. destruct (Ascii.eqb c sep); [reflexivity|].
  destruct (split_nonempty sep s) as (h & t & ->). reflexivity.
Qed.

(** The name of a resolved registry reference that is not shaped like a
    tarball. *)
Lemma getPackageName_qualified (X : string) (w : world) :
  test Patterns.tarball ("k8s-scripts@" ++ X) = false ->
  getPackageName ("k8s-scripts@" ++ X) w
  = (Returned (Resolved (Some "k8s-scripts")), w).
Proof.
  intro Htar. unfold getPackageName.
  rewrite Htar, indexOf_is_0_prefix, qualifier_matches.
  change ("k8s-scripts@" ++ X) with (String "k" ("8s-scripts@" ++ X)).
  simpl (String.prefix _ _). cbv iota.
  rewrite charAt_0_cons, substr_1_cons.
  change ("8s-scripts@" ++ X)
    with (String "8" (String "s" (String "-" (String "s" (String "c"
           (String "r" (String "i" (String "p" (String "t" (String "s"
           (String "@" X))))))))))).
  rewrite !hd_split_cons. reflexivity.
Qed.

Lemma all_chars_app (q : ascii -> bool) (s1 s2 : string) :
  all_chars q (s1 ++ s2) = (all_chars q s1 && all_chars q s2)%bool.
Proof.
  induction s1 as [|a s1 IH]; simpl; [reflexivity|].
  now rewrite IH, andb_assoc.
Qed.

(** What the tarball pattern matches ends in [.tgz] or in [.tar.gz]. *)
Lemma tarball_test_suffix (s : string) :
  test Patterns.tarball s = true ->
  exists x, s = x ++ ".tgz" \/ s = x ++ ".tar.gz".
Proof.
  unfold test, exec. cbn [bol body Patterns.tarball].
  destruct (m _ s [] accept) as [r|] eqn:E; [intros _ | discriminate].
  destruct s as [|a s]; [discriminate E|].
  cbn [m Plus] in E. destruct (dot a); [|discriminate E].
  apply star_some in E. destruct E as (s1 & s2 & -> & Hk).
  exists (String a s1).
  cbn [m Patterns.tgz_or_tar_gz Lit] in Hk.
  repeat match type of Hk with
         | context [match ?t with EmptyString => _ | String _ _ => _ end] =>
             is_var t; destruct t as [|? ?]; try discriminate Hk
         | context [Ascii.eqb ?x ?y] =>
             is_var y; destruct (Ascii.eqb_spec x y) as [Heq|?];
             [subst y|]; try discriminate Hk
         end;
    [left | right]; reflexivity.
Qed.

(** The pattern of the fallback asks for a slash. *)
Lemma tarball_stem_needs_slash (s : string) :
  all_chars (notc "/") s = true -> exec Patterns.tarball_stem s = None.
Proof.
  intro Hs. unfold exec. cbn [bol body Patterns.tarball_stem].
  cbn [m Plus]. destruct s as [|a s]; [reflexivity|].
  destruct (dot a); [|reflexivity].
  apply star_none. intros s1 s2 ->.
  simpl in Hs. apply andb_true_iff in Hs. destruct Hs as [_ Hs].
  rewrite all_chars_app in Hs. apply andb_true_iff in Hs.
  destruct Hs as [_ Hs].
  destruct s2 as [|b s2]; [reflexivity|].
  simpl in Hs. apply andb_true_iff in Hs. destruct Hs as [Hb _].
  unfold notc in Hb. apply negb_true_iff in Hb.
  cbn [m]. rewrite Ascii.eqb_sym. now rewrite Hb.
Qed.

(** The fallback on a reference that keeps [foo-1.2.3.tgz] in a directory. *)
Lemma tarball_stem_in_directory (D : string) :
  truthy D = true ->
  all_chars dot D = true ->
  test Patterns.tarball (D ++ "/foo-1.2.3.tgz") = true
  /\ exec Patterns.tarball_stem (D ++ "/foo-1.2.3.tgz")
     = Some [(2, "tgz"); (1, "foo")].
Proof.
  intros HD Hdot. destruct D as [|a D]; [discriminate|].
  simpl in Hdot. apply andb_true_iff in Hdot. destruct Hdot as [Ha Hdot].
  unfold test, exec.
  cbn [bol body Patterns.tarball Patterns.tarball_stem].
  change (String a D ++ "/foo-1.2.3.tgz")
    with (String a (D ++ "/foo-1.2.3.tgz")).
  cbn [m Plus]. rewrite Ha. split.
  - erewrite star_greedy_prefix; [reflexivity | exact Hdot | reflexivity].
  - apply star_greedy_prefix; [exact Hdot | reflexivity].
Qed.

End Extractor.

(** C10 (as amended).  For a version that is absent, a valid semantic
    version, or a dist-tag (it starts with [@] and has no slash),
    [getInstallPackage] returns a reference, and [getPackageName] resolves
    that reference to [k8s-scripts] provided the reference is not shaped
    like a tarball, that is, the tarball pattern does not match it. *)
Theorem getPackageName_of_getInstallPackage :
  forall (version : value) (C : string) (w : world),
    (version = None
     \/ exists V, version = Some V
                  /\ (Semver.valid (Some V) <> None
                      \/ (String.prefix "@" V = true
                          /\ indexOf V "/" = None))) ->
    exists ref,
      getInstallPackage version C w = (Returned ref, w)
      /\ (Regex.test Patterns.tarball ref = false ->
          getPackageName ref w
          = (Returned (Resolved (Some "k8s-scripts")), w)).
Proof.
  intros version C w [->|(V & -> & [HV|[Hat Hslash]])].
  - exists "k8s-scripts". split; reflexivity.
  - destruct (Semver.valid (Some V)) as [N|] eqn:E; [|now contradiction HV].
    exists ("k8s-scripts@" ++ N). split.
    + now apply getInstallPackage_semver.
    + apply getPackageName_qualified.
  - destruct V as [|c t]; [discriminate|].
    change (String.prefix "@" (String c t))
      with (if ascii_dec "@" c then String.prefix "" t else false) in Hat.
    destruct (ascii_dec "@" c) as [<-|]; [|discriminate].
    exists ("k8s-scripts@" ++ t). split.
    + now apply getInstallPackage_tag.
    + apply getPackageName_qualified.
Qed.

(** The tag of the help text, [@next]. *)
Lemma getPackageName_of_getInstallPackage_witness :
  (String.prefix "@" "@next" = true /\ indexOf "@next" "/" = None)
  /\ exists ref,
    getInstallPackage (Some "@next") "/home/user" (Scenario.offline [] None)
    = (Returned ref, Scenario.offline [] None)
    /\ (Regex.test Patterns.tarball ref = false ->
        getPackageName ref (Scenario.offline [] None)
        = (Returned (Resolved (Some "k8s-scripts")),
           Scenario.offline [] None)).
Proof.
  split; [split; reflexivity|].
  apply (getPackageName_of_getInstallPackage (Some "@next") "/home/user"
           (Scenario.offline [] None)).
  right. exists "@next". split; [reflexivity|].
  right. split; reflexivity.
Defined.

(** C10, as stated, fails: [1.2.3-alpha.tgz] is a valid semantic version
    and [@next.tgz] is a dist-tag; their references end in [.tgz], the
    tarball branch is taken, and where such an archive does not unpack the
    promise is rejected. *)
Lemma getPackageName_of_getInstallPackage_counterexample :
  Semver.valid (Some "1.2.3-alpha.tgz") = Some "1.2.3-alpha.tgz"
  /\ getInstallPackage (Some "1.2.3-alpha.tgz") "/home/user"
       (Scenario.offline [] None)
     = (Returned "k8s-scripts@1.2.3-alpha.tgz", Scenario.offline [] None)
  /\ fst (getPackageName "k8s-scripts@1.2.3-alpha.tgz"
            (Scenario.offline [] None))
     = Returned (Rejected (Thrown
         (TypeError "Cannot read property '1' of null")))
  /\ getInstallPackage (Some "@next.tgz") "/home/user"
       (Scenario.offline [] None)
     = (Returned "k8s-scripts@next.tgz", Scenario.offline [] None)
  /\ fst (getPackageName "k8s-scripts@next.tgz" (Scenario.offline [] None))
     = Returned (Rejected (Thrown
         (TypeError "Cannot read property '1' of null"))).
Proof.
  repeat split; vm_compute; reflexivity.
Qed.

(** Without a slash in the reference the handler of the tarball branch
    throws after its first line. *)
Lemma assumeProjectName_without_directory (installPackage : string)
      (r : reason) (w : world) :
  all_chars (Regex.notc "/") installPackage = true ->
  assumeProjectName installPackage r w
  = (Threw (TypeError "Cannot read property '1' of null"),
     set_console
       (console w
          ++ ["Could not extract the package name from the archive: "
                ++ show (message_of r)]) w).
Proof.
  intro Hslash.
  unfold assumeProjectName, bind, console_log, lift, match_1.
  now rewrite (tarball_stem_needs_slash installPackage Hslash).
Qed.

(** Reading the name from the archive, step by step. *)
Lemma readArchiveName_spec (installPackage d : string) (w : world) :
  tmp_dir w = inr d ->
  readArchiveName installPackage w
  = match unpack w (if Regex.test Patterns.http installPackage
                    then Hyperquest installPackage
                    else ReadStream installPackage) d with
    | UnpackError err => (Returned (Rejected (Thrown err)), w)
    | StreamError err => (Returned (Uncaught err), w)
    | Unpacked =>
        match Path.join [Some d; Some "package.json"] with
        | Returned p =>
            match require_name w p with
            | Returned name => (Returned (Resolved name), w)
            | Threw e => (Returned (Rejected (Thrown e)), w)
            end
        | Threw e => (Returned (Rejected (Thrown e)), w)
        end
    end.
Proof.
  intro Htmp.
  unfold readArchiveName, then_, getTemporaryDirectory, extractStream.
  rewrite Htmp. cbv beta iota. cbn [tmpdir].
  destruct (unpack w _ d); cbv beta iota; [|reflexivity..].
  unfold ret, bind, lift, require_name_of, cleanup. cbn [tmpdir].
  destruct (Path.join [Some d; Some "package.json"]); [|reflexivity].
  destruct (require_name w a); reflexivity.
Qed.

(** C3: the code where it fails.  For a tarball-shaped reference without a
    slash, a bare file name such as [foo-1.2.3.tgz], a failure to read the
    name from the archive is not recovered: the pattern of the fallback
    asks for a directory, reading its capture throws, and the promise is
    rejected. *)
Theorem getPackageName_fallback_without_directory :
  forall (installPackage : string) (w w1 : world) (r : reason),
    Regex.test Patterns.tarball installPackage = true ->
    all_chars (Regex.notc "/") installPackage = true ->
    readArchiveName installPackage w = (Returned (Rejected r), w1) ->
    fst (getPackageName installPackage w)
    = Returned (Rejected (Thrown
        (TypeError "Cannot read property '1' of null"))).
Proof.
  intros ip w w1 r Htar Hslash Hread.
  unfold getPackageName. rewrite Htar.
  unfold catch_. rewrite Hread.
  now rewrite (assumeProjectName_without_directory ip r w1 Hslash).
Qed.

(** The reference [foo-1.2.3.tgz] where the archive does not unpack. *)
Lemma getPackageName_fallback_without_directory_witness :
  Regex.test Patterns.tarball "foo-1.2.3.tgz" = true
  /\ all_chars (Regex.notc "/") "foo-1.2.3.tgz" = true
  /\ readArchiveName "foo-1.2.3.tgz" (Scenario.offline [] None)
     = (Returned (Rejected
          (Thrown (Error "incorrect header check"))),
        Scenario.offline [] None)
  /\ fst (getPackageName "foo-1.2.3.tgz" (Scenario.offline [] None))
     = Returned (Rejected (Thrown
         (TypeError "Cannot read property '1' of null"))).
Proof.
  split; [reflexivity | split; [reflexivity | split; [reflexivity|]]].
  apply (getPackageName_fallback_without_directory "foo-1.2.3.tgz"
           (Scenario.offline [] None) (Scenario.offline [] None)
           (Thrown (Error "incorrect header check")));
    reflexivity.
Defined.

(** C4: the code at the reference [foo-1.2.3.tgz].  When the archive
    unpacks and its manifest declares [bar], the promise resolves to [bar];
    when unpacking fails, the promise is rejected, it does not resolve to
    [foo]. *)
Theorem getPackageName_foo_tarball :
  forall (w : world) (d : string),
    tmp_dir w = inr d ->
    (unpack w (ReadStream "foo-1.2.3.tgz") d = Unpacked ->
     (forall p, Path.join [Some d; Some "package.json"] = Returned p ->
                require_name w p = Returned (Some "bar")) ->
     getPackageName "foo-1.2.3.tgz" w = (Returned (Resolved (Some "bar")), w))
    /\ (forall err,
          unpack w (ReadStream "foo-1.2.3.tgz") d = UnpackError err ->
          fst (getPackageName "foo-1.2.3.tgz" w)
          = Returned (Rejected (Thrown
              (TypeError "Cannot read property '1' of null")))).
Proof.
  intros w d Htmp.
  pose proof (readArchiveName_spec "foo-1.2.3.tgz" d w Htmp) as Hread.
  change (Regex.test Patterns.http "foo-1.2.3.tgz") with false in Hread.
  cbv iota in Hread.
  split.
  - intros Hunpack Hname.
    assert (Hjoin : exists p,
      Path.join [Some d; Some "package.json"] = Returned p)
      by (unfold Path.join; simpl; destruct (truthy d); eexists; reflexivity).
    destruct Hjoin as [p Hp].
    rewrite Hunpack, Hp, (Hname p Hp) in Hread.
    unfold getPackageName.
    change (Regex.test Patterns.tarball "foo-1.2.3.tgz") with true.
    cbv iota. unfold catch_. now rewrite Hread.
  - intros err Hunpack. rewrite Hunpack in Hread.
    unfold getPackageName.
    change (Regex.test Patterns.tarball "foo-1.2.3.tgz") with true.
    cbv iota. unfold catch_. rewrite Hread.
    now rewrite assumeProjectName_without_directory.
Qed.

(** The two worlds of the round trip: one that unpacks a manifest named
    [bar], one in which unpacking fails. *)
Lemma getPackageName_foo_tarball_witness :
  tmp_dir (Scenario.unpacking [] "bar") = inr "/tmp/tmp-4242"
  /\ tmp_dir (Scenario.offline [] None) = inr "/tmp/tmp-4242"
  /\ getPackageName "foo-1.2.3.tgz" (Scenario.unpacking [] "bar")
  = (Returned (Resolved (Some "bar")), Scenario.unpacking [] "bar")
  /\ fst (getPackageName "foo-1.2.3.tgz" (Scenario.offline [] None))
     = Returned (Rejected (Thrown
         (TypeError "Cannot read property '1' of null"))).
Proof.
  split; [reflexivity | split; [reflexivity | split]].
  - apply (proj1 (getPackageName_foo_tarball (Scenario.unpacking [] "bar")
                    "/tmp/tmp-4242" eq_refl)); [reflexivity|].
    intros p Hp. vm_compute in Hp. injection Hp as <-. reflexivity.
  - apply (proj2 (getPackageName_foo_tarball (Scenario.offline [] None)
                    "/tmp/tmp-4242" eq_refl)
             (Error "incorrect header check")).
    reflexivity.
Defined.

(** Where the pattern of the fallback matches, a failure to read the name
    from the archive is recovered: the promise resolves to the first
    capture, and both lines of the warning are printed. *)
Lemma getPackageName_fallback (installPackage : string) (w w1 : world)
      (r : reason) (c : Regex.caps) :
  Regex.test Patterns.tarball installPackage = true ->
  readArchiveName installPackage w = (Returned (Rejected r), w1) ->
  Regex.exec Patterns.tarball_stem installPackage = Some c ->
  getPackageName installPackage w
  = (Returned (Resolved (Regex.group 1 c)),
     set_console
       (console w1
          ++ ["Could not extract the package name from the archive: "
                ++ show (message_of r);
              "Based on the filename, assuming it is "
                ++ dquote ++ show (Regex.group 1 c) ++ dquote]) w1).
Proof.
  intros Htar Hread Hstem.
  unfold getPackageName. rewrite Htar. unfold catch_. rewrite Hread.
  unfold assumeProjectName, bind, console_log, lift, match_1, ret.
  rewrite Hstem. unfold Chalk.cyan.
  rewrite set_console_twice, console_set_console, <- List.app_assoc.
  reflexivity.
Qed.

(** With a directory in front of the file name the fallback works: when
    the name cannot be read from the archive, the promise resolves to the
    stem [foo] of [foo-1.2.3.tgz]. *)
Lemma getPackageName_fallback_in_directory (D : string) (w w1 : world)
      (r : reason) :
  truthy D = true ->
  all_chars Regex.dot D = true ->
  readArchiveName (D ++ "/foo-1.2.3.tgz") w = (Returned (Rejected r), w1) ->
  fst (getPackageName (D ++ "/foo-1.2.3.tgz") w)
  = Returned (Resolved (Some "foo")).
Proof.
  intros HD Hdot Hread.
  destruct (tarball_stem_in_directory D HD Hdot) as [Htar Hstem].
  now rewrite (getPackageName_fallback _ w w1 r _ Htar Hread Hstem).
Qed.

(** * Further properties *)

(** ** Literals and prefixes *)

Section Literals.
Import Regex.

Lemma prefix_cons (a b : ascii) (l s : string) :
  String.prefix (String a l) (String b s)
  = if Ascii.eqb a b then String.prefix l s else false.
Proof.
  change (String.prefix (String a l) (String b s))
    with (if ascii_dec a b then String.prefix l s else false).
  destruct (ascii_dec a b) as [->|Hne].
  - now rewrite Ascii.eqb_refl.
  - destruct (Ascii.eqb_spec a b); [contradiction | reflexivity].
Qed.

Lemma prefix_nil (s : string) : String.prefix "" s = true.
Proof. now destruct s. Qed.

(** A string with the prefix [l] is [l] followed by a rest. *)
Lemma prefix_split (l s : string) :
  String.prefix l s = true -> exists s', s = l ++ s'.
Proof.
  revert s. induction l as [|a l IH]; intros s H.
  - now exists s.
  - destruct s as [|b s]; [discriminate H|].
    rewrite prefix_cons in H.
    destruct (Ascii.eqb_spec a b) as [->|]; [|discriminate H].
    destruct (IH s H) as [s' ->]. now exists s'.
Qed.

Lemma prefix_app (l s : string) : String.prefix l (l ++ s) = true.
Proof.
  induction l as [|a l IH]; simpl append; [apply prefix_nil|].
  now rewrite prefix_cons, Ascii.eqb_refl.
Qed.

(** A literal consumes itself. *)
Lemma m_Lit_app (l s : string) (c : caps) (k : cont) :
  m (Lit l) (l ++ s) c k = k s c.
Proof.
  revert k. induction l as [|a l IH]; intro k; [reflexivity|].
  simpl. now rewrite Ascii.eqb_refl, IH.
Qed.

(** A literal fails on an input that does not start with it. *)
Lemma m_Lit_none (l s : string) (c : caps) (k : cont) :
  String.prefix l s = false -> m (Lit l) s c k = None.
Proof.
  revert s k. induction l as [|a l IH]; intros s k H.
  - now rewrite prefix_nil in H.
  - destruct s as [|b s]; [reflexivity|].
    rewrite prefix_cons in H. simpl.
    destruct (Ascii.eqb a b); [now apply IH | reflexivity].
Qed.

(** A pattern that is [^] and a literal tests for a prefix. *)
Lemma test_literal (l s : string) :
  test {| bol := true; body := Lit l |} s = String.prefix l s.
Proof.
  unfold test, exec. cbn [bol body].
  destruct (String.prefix l s) eqn:H.
  - destruct (prefix_split l s H) as [s' ->]. now rewrite m_Lit_app.
  - now rewrite m_Lit_none.
Qed.

End Literals.

(** ** getInstallPackage, branch by branch *)

(** X1.  [getInstallPackage] changes nothing in the world, whether it
    returns or throws, and it throws only for a version that starts with
    [file:]. *)
Theorem getInstallPackage_effects :
  forall (version : value) (C : string) (w : world),
    snd (getInstallPackage version C w) = w
    /\ (forall e, fst (getInstallPackage version C w) = Threw e ->
                  exists P, version = Some ("file:" ++ P)).
Proof.
  intros version C w. split; [apply getInstallPackage_pure|].
  intros e He.
  destruct version as [V|].
  - destruct (String.prefix "file:" V) eqn:Hp.
    + destruct (prefix_split _ _ Hp) as [P ->]. now exists P.
    + destruct (getInstallPackage_returns (Some V) C w) as [ref Href].
      * intros V' [= <-]. unfold Patterns.file_prefix.
        now rewrite test_literal.
      * rewrite Href in He. discriminate He.
  - discriminate He.
Qed.

(** X2.  Without a version, or with the empty string for one, the
    reference is the bare name of the scripts package. *)
Theorem getInstallPackage_default :
  forall (version : value) (C : string) (w : world),
    truthy_value version = None ->
    getInstallPackage version C w = (Returned "k8s-scripts", w).
Proof.
  intros [[|a V]|] C w H; [reflexivity | discriminate H | reflexivity].
Qed.

Lemma getInstallPackage_default_witness :
  truthy_value (Some "") = None
  /\ getInstallPackage (Some "") "/home/user" (Scenario.offline [] None)
     = (Returned "k8s-scripts", Scenario.offline [] None).
Proof.
  split; [reflexivity|].
  apply (getInstallPackage_default (Some "") "/home/user"
           (Scenario.offline [] None)).
  reflexivity.
Defined.

(** X3.  A dist-tag, a version that starts with [@] and holds no slash, is
    appended to the name of the scripts package as it is. *)
Theorem getInstallPackage_dist_tag :
  forall (V C : string) (w : world),
    String.prefix "@" V = true ->
    indexOf V "/" = None ->
    getInstallPackage (Some V) C w = (Returned ("k8s-scripts" ++ V), w).
Proof.
  intros V C w Hat Hslash.
  destruct (prefix_split _ _ Hat) as [t ->].
  now apply (getInstallPackage_tag t C w).
Qed.

Lemma getInstallPackage_dist_tag_witness :
  String.prefix "@" "@next" = true
  /\ indexOf "@next" "/" = None
  /\ getInstallPackage (Some "@next") "/home/user" (Scenario.offline [] None)
     = (Returned "k8s-scripts@next", Scenario.offline [] None).
Proof.
  split; [reflexivity | split; [reflexivity|]].
  apply (getInstallPackage_dist_tag "@next" "/home/user"
           (Scenario.offline [] None)); reflexivity.
Defined.

(** X4.  A [file:] version whose path is not empty and holds no line
    terminator becomes [file:] followed by an absolute path: the
    resolution of the path against the original directory.  When the
    original directory is absolute, the working directory of the process
    plays no part. *)
Theorem getInstallPackage_file_resolves :
  forall (P C : string) (w : world),
    truthy P = true ->
    all_chars Regex.dot P = true ->
    Path.isAbsolute C = true ->
    exists r,
      (forall here, Path.resolve here [Some C; Some P] = Returned r)
      /\ Path.isAbsolute r = true
      /\ getInstallPackage (Some ("file:" ++ P)) C w
         = (Returned ("file:" ++ r), w).
Proof.
  intros P C w HP Hdot HC.
  exists ("/" ++ Path.normalizeString
                   (if Path.isAbsolute P then P ++ "/"
                    else C ++ "/" ++ P ++ "/") false).
  split; [|split].
  - intro here. now apply resolve_absolute.
  - reflexivity.
  - now apply getInstallPackage_file.
Qed.

Lemma getInstallPackage_file_resolves_witness :
  truthy "../my-k8s-scripts" = true
  /\ all_chars Regex.dot "../my-k8s-scripts" = true
  /\ Path.isAbsolute "/home/user/work" = true
  /\ exists r,
      (forall here,
          Path.resolve here [Some "/home/user/work"; Some "../my-k8s-scripts"]
          = Returned r)
      /\ Path.isAbsolute r = true
      /\ getInstallPackage (Some ("file:" ++ "../my-k8s-scripts"))
           "/home/user/work" (Scenario.offline [] None)
         = (Returned ("file:" ++ r), Scenario.offline [] None).
Proof.
  split; [reflexivity | split; [reflexivity | split; [reflexivity|]]].
  apply (getInstallPackage_file_resolves "../my-k8s-scripts"
           "/home/user/work" (Scenario.offline [] None)); reflexivity.
Defined.

(** X5.  Every other version is the reference: a string that is not
    empty, not a valid semantic version, not a dist-tag and does not start
    with [file:] is returned as it is.  That is the way of archive
    addresses, git addresses, names of forks and scoped names. *)
Theorem getInstallPackage_passthrough :
  forall (V C : string) (w : world),
    truthy V = true ->
    Semver.valid (Some V) = None ->
    (String.prefix "@" V && indexOf_is_minus1 V "/")%bool = false ->
    String.prefix "file:" V = false ->
    getInstallPackage (Some V) C w = (Returned V, w).
Proof.
  intros V C w Ht Hv Htag Hfile.
  rewrite (getInstallPackage_other V C Hv Ht).
  unfold Patterns.file_prefix. rewrite test_literal, Hfile.
  destruct V as [|a V]; [discriminate Ht|].
  rewrite charAt_0_cons.
  rewrite prefix_cons, prefix_nil in Htag.
  assert (Heq : String.eqb (String a "") "@" = Ascii.eqb "@" a).
  { change (String.eqb (String a "") "@")
      with (if Ascii.eqb a "@" then true else false).
    rewrite Ascii.eqb_sym. now destruct (Ascii.eqb "@" a). }
  rewrite Heq.
  assert (Heq' : (if Ascii.eqb "@" a then true else false) = Ascii.eqb "@" a)
    by now destruct (Ascii.eqb "@" a).
  rewrite Heq' in Htag. now rewrite Htag.
Qed.

Lemma getInstallPackage_passthrough_witness :
  truthy "https://mysite.com/my-k8s-scripts-0.8.2.tgz" = true
  /\ Semver.valid (Some "https://mysite.com/my-k8s-scripts-0.8.2.tgz") = None
  /\ getInstallPackage (Some "https://mysite.com/my-k8s-scripts-0.8.2.tgz")
       "/home/user" (Scenario.offline [] None)
     = (Returned "https://mysite.com/my-k8s-scripts-0.8.2.tgz",
        Scenario.offline [] None)
  /\ getInstallPackage (Some "@mycompany/k8s-scripts")
       "/home/user" (Scenario.offline [] None)
     = (Returned "@mycompany/k8s-scripts", Scenario.offline [] None).
Proof.
  split; [reflexivity | split; [reflexivity | split]].
  - apply (getInstallPackage_passthrough
             "https://mysite.com/my-k8s-scripts-0.8.2.tgz" "/home/user"
             (Scenario.offline [] None)); reflexivity.
  - apply (getInstallPackage_passthrough "@mycompany/k8s-scripts"
             "/home/user" (Scenario.offline [] None)); reflexivity.
Defined.

(** ** getPackageName, branch by branch *)

Section ExtractorBranches.
Import Regex.

(** Reading the name from an archive returns a promise and leaves the
    world as it is. *)
Lemma readArchiveName_settles (installPackage : string) (w : world) :
  exists p, readArchiveName installPackage w = (Returned p, w).
Proof.
  destruct (tmp_dir w) as [err|d] eqn:Htmp.
  - exists (Rejected (Thrown err)).
    unfold readArchiveName, then_, getTemporaryDirectory. now rewrite Htmp.
  - rewrite (readArchiveName_spec installPackage d w Htmp).
    destruct (unpack w _ d); [|eexists; reflexivity..].
    destruct (Path.join [Some d; Some "package.json"]);
      [|eexists; reflexivity].
    destruct (require_name w a); eexists; reflexivity.
Qed.

(** The handler of the tarball branch prints one line or two, and does
    nothing else. *)
Lemma assumeProjectName_frame (installPackage : string) (r : reason)
      (w : world) :
  exists lines,
    snd (assumeProjectName installPackage r w)
    = set_console (console w ++ lines) w.
Proof.
  unfold assumeProjectName, bind, console_log, lift, match_1, ret.
  destruct (exec Patterns.tarball_stem installPackage).
  - rewrite set_console_twice, console_set_console, <- List.app_assoc.
    eexists; reflexivity.
  - eexists; reflexivity.
Qed.

Lemma set_console_nil (w : world) : set_console (console w ++ []) w = w.
Proof. rewrite List.app_nil_r. now apply set_console_same. Qed.

(** No character [a] in [s]: the literal [a] fails at every position. *)
Lemma Chr_none_on_suffix (a : ascii) (s s1 s2 : string) (c : caps)
      (k : cont) :
  all_chars (notc a) s = true -> s = s1 ++ s2 -> m (Chr a) s2 c k = None.
Proof.
  intros Hs ->. rewrite all_chars_app in Hs.
  apply andb_true_iff in Hs. destruct Hs as [_ Hs].
  destruct s2 as [|b s2]; [reflexivity|].
  simpl in Hs. apply andb_true_iff in Hs. destruct Hs as [Hb _].
  unfold notc in Hb. apply negb_true_iff in Hb.
  simpl. rewrite Ascii.eqb_sym. now rewrite Hb.
Qed.

(** A search fails when the pattern fails at every position. *)
Lemma search_none (r : re) (s : string) :
  (forall s1 s2, s = s1 ++ s2 -> m r s2 [] accept = None) ->
  search r s = None.
Proof.
  induction s as [|a s IH]; intro H.
  - simpl. now rewrite (H "" "" eq_refl).
  - cbn [search]. rewrite (H "" (String a s) eq_refl).
    apply IH. intros s1 s2 ->. apply (H (String a s1)). reflexivity.
Qed.

(** The pattern of a qualifier needs an [@]. *)
Lemma qualifier_needs_at (a : ascii) (s : string) :
  all_chars (notc "@") s = true ->
  m (body Patterns.qualifier) (String a s) [] accept = None.
Proof.
  intro Hs. cbn [body Patterns.qualifier m Plus].
  destruct (dot a); [|reflexivity].
  apply star_none. intros s1 s2 Heq.
  now apply (Chr_none_on_suffix "@" s s1 s2).
Qed.

Lemma qualifier_fails (s : string) :
  all_chars (notc "@") (substr 1 s) = true ->
  test Patterns.qualifier s = false.
Proof.
  intro Hs. unfold test, exec. cbn [bol].
  destruct s as [|a s]; [reflexivity|].
  rewrite substr_1_cons in Hs.
  cbn [search]. rewrite (qualifier_needs_at a s Hs).
  rewrite search_none; [reflexivity|].
  intros s1 s2 ->. destruct s2 as [|b s2]; [reflexivity|].
  apply qualifier_needs_at.
  rewrite all_chars_app in Hs. apply andb_true_iff in Hs.
  destruct Hs as [_ Hs]. simpl in Hs.
  apply andb_true_iff in Hs. now destruct Hs.
Qed.

(** The pattern of a qualifier matches where an [@] follows characters of
    one line. *)
Lemma qualifier_succeeds (a : ascii) (n rest : string) :
  all_chars dot (String a n) = true ->
  test Patterns.qualifier (String a (n ++ "@" ++ rest)) = true.
Proof.
  intro Hdot. simpl in Hdot. apply andb_true_iff in Hdot.
  destruct Hdot as [Ha Hn].
  unfold test, exec. cbn [bol body Patterns.qualifier].
  set (k := fun (s2 : string) (c2 : caps) => m (Chr "@") s2 c2 accept).
  destruct (star_greedy_here dot ("@" ++ rest) [] [] k eq_refl) as [r Hr].
  assert (Hm : m (Seq (Plus true dot) (Chr "@"))
                 (String a (n ++ "@" ++ rest)) [] accept = Some r).
  { cbn [m Plus]. rewrite Ha. fold k. now apply star_greedy_prefix. }
  cbn [search]. now rewrite Hm.
Qed.

(** The text before the first separator. *)
Lemma hd_split_app (sep : ascii) (n rest : string) :
  all_chars (notc sep) n = true ->
  hd "" (split sep (n ++ String sep rest)) = n.
Proof.
  induction n as [|a n IH]; intro Hn.
  - simpl. now rewrite Ascii.eqb_refl.
  - simpl in Hn. apply andb_true_iff in Hn. destruct Hn as [Ha Hn].
    change (String a n ++ String sep rest)
      with (String a (n ++ String sep rest)).
    rewrite hd_split_cons. unfold notc in Ha. apply negb_true_iff in Ha.
    now rewrite Ha, IH.
Qed.

(** The qualifier branch keeps the first character and what follows it up
    to the first [@]. *)
Lemma getPackageName_qualifier_branch (a : ascii) (n rest : string)
      (w : world) :
  all_chars dot (String a n) = true ->
  all_chars (notc "@") n = true ->
  test Patterns.tarball (String a (n ++ "@" ++ rest)) = false ->
  String.prefix "git+" (String a (n ++ "@" ++ rest)) = false ->
  getPackageName (String a (n ++ "@" ++ rest)) w
  = (Returned (Resolved (Some (String a n))), w).
Proof.
  intros Hdot Hat Htar Hgit. unfold getPackageName.
  rewrite Htar, indexOf_is_0_prefix, Hgit, (qualifier_succeeds a n rest Hdot).
  rewrite charAt_0_cons, substr_1_cons.
  change ("@" ++ rest) with (String "@" rest).
  now rewrite (hd_split_app "@" n rest Hat).
Qed.

(** Where [pat] occurs nowhere, no suffix starts with it. *)
Lemma occurs_not_suffix (pat s1 s2 : string) :
  Shape.occurs_not pat (s1 ++ s2) = true ->
  Shape.occurs_not pat s2 = true.
Proof.
  induction s1 as [|a s1 IH]; intro H; [exact H|].
  apply IH. simpl in H. apply andb_true_iff in H. now destruct H.
Qed.

Lemma occurs_not_prefix (pat s : string) :
  Shape.occurs_not pat s = true -> String.prefix pat s = false.
Proof.
  intro H. destruct s; simpl in H; apply andb_true_iff in H;
    destruct H as [H _]; now apply negb_true_iff in H.
Qed.

(** The pattern of a git address fails where [.git] occurs nowhere. *)
Lemma git_name_needs_suffix (s : string) :
  Shape.occurs_not ".git" s = true -> exec Patterns.git_name s = None.
Proof.
  intro Hs. unfold exec. cbn [bol body Patterns.git_name].
  apply search_none. intros s1 s2 ->.
  apply occurs_not_suffix in Hs.
  cbn [m Plus]. destruct s2 as [|b s2]; [reflexivity|].
  destruct (notc "/" b); [|reflexivity].
  apply star_none. intros t1 t2 ->.
  apply (occurs_not_suffix _ (String b t1) t2) in Hs.
  apply m_Lit_none. now apply occurs_not_prefix.
Qed.

End ExtractorBranches.

(** [getPackageName] prints and does nothing else. *)
Lemma getPackageName_pure_console (installPackage : string) (w : world) :
  exists lines,
    snd (getPackageName installPackage w)
    = set_console (console w ++ lines) w
    /\ (Regex.test Patterns.tarball installPackage = false -> lines = [])
    /\ (Regex.test Patterns.tarball installPackage = true ->
        exists p, fst (getPackageName installPackage w) = Returned p).
Proof.
  unfold getPackageName.
  destruct (Regex.test Patterns.tarball installPackage).
  - destruct (readArchiveName_settles installPackage w) as [p Hp].
    unfold catch_. rewrite Hp. destruct p as [name|r|e].
    + exists []. rewrite set_console_nil.
      split; [reflexivity | split; [reflexivity|]]. now eexists.
    + destruct (assumeProjectName_frame installPackage r w) as [lines Hl].
      exists lines.
      destruct (assumeProjectName installPackage r w) as [[x|e] w2];
        simpl in Hl |- *;
        (split; [exact Hl | split; [discriminate|]]); intros _;
        eexists; reflexivity.
    + exists []. rewrite set_console_nil.
      split; [reflexivity | split; [reflexivity|]]. now eexists.
  - exists []. rewrite set_console_nil.
    split; [|split; [reflexivity | discriminate]].
    destruct (indexOf_is_0 installPackage "git+").
    { unfold bind, lift, ret.
      destruct (match_1 installPackage Patterns.git_name); reflexivity. }
    destruct (Regex.test Patterns.qualifier installPackage); [reflexivity|].
    destruct (Regex.test Patterns.file_prefix installPackage);
      [|reflexivity].
    unfold bind, lift, ret, require_name_of.
    destruct (match_1 installPackage Patterns.file_path); [|reflexivity].
    destruct (Path.join [a; Some "package.json"]); [|reflexivity].
    destruct (require_name w a0); reflexivity.
Qed.

(** X6.  Of the state of the process that is recorded here,
    [getPackageName] changes nothing: the listing of the project root, the
    working directory, the exit code and the processes started are what
    they were (the temporary directory it makes is not part of that
    state).  It prints nothing unless the reference is shaped like a
    tarball.  For such a reference it does not throw, it returns a
    promise; that promise is fulfilled, rejected, or never settled. *)
Theorem getPackageName_frame :
  forall (installPackage : string) (w : world),
    let w' := snd (getPackageName installPackage w) in
    root_dir w' = root_dir w
    /\ process_cwd w' = process_cwd w
    /\ exit_code w' = exit_code w
    /\ spawned w' = spawned w
    /\ (exists lines, console w' = (console w ++ lines)%list)
    /\ (Regex.test Patterns.tarball installPackage = false ->
        console w' = console w)
    /\ (Regex.test Patterns.tarball installPackage = true ->
        exists p, fst (getPackageName installPackage w) = Returned p).
Proof.
  intros installPackage w w'.
  destruct (getPackageName_pure_console installPackage w)
    as (lines & Hl & Hnone & Hp).
  unfold w'. rewrite Hl.
  split; [now destruct w | split; [now destruct w|]].
  split; [now destruct w | split; [now destruct w|]].
  rewrite console_set_console.
  split; [now exists lines | split; [|exact Hp]].
  intro Htar. rewrite (Hnone Htar). apply List.app_nil_r.
Qed.

(** A stream error in the tarball branch. *)
Lemma getPackageName_uncaught (installPackage d : string) (e : error)
      (w : world) :
  Regex.test Patterns.tarball installPackage = true ->
  tmp_dir w = inr d ->
  unpack w (if String.prefix "http" installPackage
            then Hyperquest installPackage
            else ReadStream installPackage) d = StreamError e ->
  getPackageName installPackage w = (Returned (Uncaught e), w).
Proof.
  intros Htar Htmp Hunpack.
  unfold getPackageName. rewrite Htar. unfold catch_.
  rewrite (readArchiveName_spec installPackage d w Htmp).
  unfold Patterns.http. now rewrite test_literal, Hunpack.
Qed.

(** X27.  When the stream of a tarball-shaped reference emits [error],
    because the file is missing or the network fails, nothing listens:
    the promise of [getPackageName] is never settled, the fallback on the
    file name does not run and nothing is printed. *)
Theorem getPackageName_stream_error :
  forall (installPackage d : string) (e : error) (w : world),
    Regex.test Patterns.tarball installPackage = true ->
    tmp_dir w = inr d ->
    unpack w (if String.prefix "http" installPackage
              then Hyperquest installPackage
              else ReadStream installPackage) d = StreamError e ->
    getPackageName installPackage w = (Returned (Uncaught e), w).
Proof.
  intros installPackage d e w. apply getPackageName_uncaught.
Qed.

Lemma getPackageName_stream_error_witness :
  getPackageName "/home/user/my-k8s-scripts-0.8.2.tgz" Shape.unreadable
  = (Returned
       (Uncaught (Error "ENOENT: no such file or directory, open")),
     Shape.unreadable).
Proof.
  apply (getPackageName_stream_error "/home/user/my-k8s-scripts-0.8.2.tgz"
           "/tmp/tmp-4242" (Error "ENOENT: no such file or directory, open")
           Shape.unreadable); reflexivity.
Defined.

(** X7.  A reference with a qualifier, text of one line followed by an
    [@], resolves to what stands before the first [@] that is not the
    first character, unless the reference is shaped like a tarball or
    starts with [git+].  The [@] of a scope is kept. *)
Theorem getPackageName_strips_qualifier :
  forall (a : ascii) (n rest : string) (w : world),
    all_chars Regex.dot (String a n) = true ->
    all_chars (Regex.notc "@") n = true ->
    Regex.test Patterns.tarball (String a (n ++ "@" ++ rest)) = false ->
    String.prefix "git+" (String a (n ++ "@" ++ rest)) = false ->
    getPackageName (String a (n ++ "@" ++ rest)) w
    = (Returned (Resolved (Some (String a n))), w).
Proof.
  intros a n rest w. apply getPackageName_qualifier_branch.
Qed.

Lemma getPackageName_strips_qualifier_witness :
  getPackageName "@mycompany/k8s-scripts@1.2.3" (Scenario.offline [] None)
  = (Returned (Resolved (Some "@mycompany/k8s-scripts")),
     Scenario.offline [] None).
Proof.
  apply (getPackageName_strips_qualifier "@" "mycompany/k8s-scripts" "1.2.3"
           (Scenario.offline [] None)); reflexivity.
Defined.

(** X8.  A [file:] reference whose path holds an [@] never reaches the
    branch that reads the manifest: the qualifier branch comes first, and
    the promise resolves to the reference cut at the [@], whatever
    manifest the path holds. *)
Theorem getPackageName_file_with_at :
  forall (P1 P2 : string) (w : world),
    all_chars Regex.dot P1 = true ->
    all_chars (Regex.notc "@") P1 = true ->
    Regex.test Patterns.tarball ("file:" ++ P1 ++ "@" ++ P2) = false ->
    Regex.test Patterns.file_prefix ("file:" ++ P1 ++ "@" ++ P2) = true
    /\ getPackageName ("file:" ++ P1 ++ "@" ++ P2) w
       = (Returned (Resolved (Some ("file:" ++ P1))), w).
Proof.
  intros P1 P2 w Hdot Hat Htar.
  split; [unfold Patterns.file_prefix; rewrite test_literal;
          apply prefix_app|].
  change ("file:" ++ P1 ++ "@" ++ P2)
    with (String "f" (("ile:" ++ P1) ++ "@" ++ P2)) in *.
  change ("file:" ++ P1) with (String "f" ("ile:" ++ P1)).
  apply getPackageName_qualifier_branch;
    [exact Hdot | exact Hat | exact Htar | reflexivity].
Qed.

Lemma getPackageName_file_with_at_witness :
  Regex.test Patterns.file_prefix ("file:" ++ "/home/me" ++ "@" ++ "work/fork")
  = true
  /\ getPackageName ("file:" ++ "/home/me" ++ "@" ++ "work/fork")
       (Scenario.offline [] None)
     = (Returned (Resolved (Some ("file:" ++ "/home/me"))),
        Scenario.offline [] None).
Proof.
  apply (getPackageName_file_with_at "/home/me" "work/fork"
           (Scenario.offline [] None)); reflexivity.
Defined.

(** The last branch: the reference is the name. *)
Lemma getPackageName_last_branch (installPackage : string) (w : world) :
  Regex.test Patterns.tarball installPackage = false ->
  String.prefix "git+" installPackage = false ->
  String.prefix "file:" installPackage = false ->
  all_chars (Regex.notc "@") (substr 1 installPackage) = true ->
  getPackageName installPackage w
  = (Returned (Resolved (Some installPackage)), w).
Proof.
  intros Htar Hgit Hfile Hat. unfold getPackageName.
  rewrite Htar, indexOf_is_0_prefix, Hgit,
    (qualifier_fails installPackage Hat).
  unfold Patterns.file_prefix. now rewrite test_literal, Hfile.
Qed.

(** [getPackageName] leaves the world it found, with some lines
    printed. *)
Lemma getPackageName_leaves (installPackage : string) (w w2 : world)
      (o : outcome (promise value)) :
  getPackageName installPackage w = (o, w2) ->
  exists lines, w2 = set_console (console w ++ lines) w.
Proof.
  intro H.
  destruct (getPackageName_pure_console installPackage w)
    as (lines & Hl & _).
  rewrite H in Hl. exists lines. exact Hl.
Qed.

(** X9.  A plain name resolves to itself: a reference that is not shaped
    like a tarball, does not start with [git+] or [file:], and has no [@]
    after its first character. *)
Theorem getPackageName_plain :
  forall (installPackage : string) (w : world),
    Regex.test Patterns.tarball installPackage = false ->
    String.prefix "git+" installPackage = false ->
    String.prefix "file:" installPackage = false ->
    all_chars (Regex.notc "@") (substr 1 installPackage) = true ->
    getPackageName installPackage w
    = (Returned (Resolved (Some installPackage)), w).
Proof.
  intros installPackage w. apply getPackageName_last_branch.
Qed.

Lemma getPackageName_plain_witness :
  getPackageName "@mycompany/k8s-scripts" (Scenario.offline [] None)
  = (Returned (Resolved (Some "@mycompany/k8s-scripts")),
     Scenario.offline [] None).
Proof.
  apply (getPackageName_plain "@mycompany/k8s-scripts"
           (Scenario.offline [] None)); reflexivity.
Defined.

(** X10.  A git address in which [.git] occurs nowhere makes
    [getPackageName] throw: the pattern of the git branch does not match,
    and reading the capture of [null] throws before any promise exists. *)
Theorem getPackageName_git_without_suffix_throws :
  forall (installPackage : string) (w : world),
    String.prefix "git+" installPackage = true ->
    Regex.test Patterns.tarball installPackage = false ->
    Shape.occurs_not ".git" installPackage = true ->
    getPackageName installPackage w
    = (Threw (TypeError "Cannot read property '1' of null"), w).
Proof.
  intros ip w Hgit Htar Hocc. unfold getPackageName.
  rewrite Htar, indexOf_is_0_prefix, Hgit.
  unfold bind, lift, match_1. now rewrite (git_name_needs_suffix ip Hocc).
Qed.

Lemma getPackageName_git_without_suffix_throws_witness :
  getPackageName "git+https://github.com/mycompany/k8s-scripts"
    (Scenario.offline [] None)
  = (Threw (TypeError "Cannot read property '1' of null"),
     Scenario.offline [] None).
Proof.
  apply (getPackageName_git_without_suffix_throws
           "git+https://github.com/mycompany/k8s-scripts"
           (Scenario.offline [] None)); reflexivity.
Defined.

(** X11.  For a [file:] reference whose path is not empty and holds
    neither a line terminator nor an [@], and which is not shaped like a
    tarball, the name is the one declared by the manifest [package.json]
    under that path; when the manifest cannot be loaded, the error is
    thrown, not delivered as a rejection. *)
Theorem getPackageName_file_manifest :
  forall (P : string) (w : world),
    truthy P = true ->
    all_chars Regex.dot P = true ->
    all_chars (Regex.notc "@") P = true ->
    Regex.test Patterns.tarball ("file:" ++ P) = false ->
    getPackageName ("file:" ++ P) w
    = match require_name w (Path.normalize (P ++ "/package.json")) with
      | Returned name => (Returned (Resolved name), w)
      | Threw e => (Threw e, w)
      end.
Proof.
  intros P w HP Hdot Hat Htar. unfold getPackageName.
  rewrite Htar, indexOf_is_0_prefix.
  change (String.prefix "git+" ("file:" ++ P)) with false. cbv iota.
  rewrite qualifier_fails
    by (change ("file:" ++ P) with (String "f" ("ile:" ++ P));
        rewrite substr_1_cons; exact Hat).
  unfold Patterns.file_prefix at 1. rewrite test_literal, prefix_app.
  unfold bind, lift, match_1, require_name_of, ret.
  rewrite (file_path_capture P HP Hdot). cbn [Regex.group Nat.eqb].
  unfold Path.join. cbn [Path.join_loop]. rewrite HP.
  cbn [truthy].
  destruct (require_name w _); reflexivity.
Qed.

Lemma getPackageName_file_manifest_witness :
  getPackageName ("file:" ++ "/home/user/my-k8s-scripts")
    (Scenario.offline [] None)
  = (Threw (Error "Cannot find module"), Scenario.offline [] None).
Proof.
  apply (getPackageName_file_manifest "/home/user/my-k8s-scripts"
           (Scenario.offline [] None)); reflexivity.
Defined.

(** X12.  When the archive of a tarball-shaped reference unpacks and its
    manifest loads, the promise resolves to the name the manifest
    declares, whatever the file name of the archive says, and nothing is
    printed.  The archive is fetched when the reference starts with
    [http], and read from the file system otherwise. *)
Theorem getPackageName_reads_manifest :
  forall (installPackage d : string) (name : value) (w : world),
    Regex.test Patterns.tarball installPackage = true ->
    tmp_dir w = inr d ->
    truthy d = true ->
    unpack w (if String.prefix "http" installPackage
              then Hyperquest installPackage
              else ReadStream installPackage) d = Unpacked ->
    require_name w (Path.normalize (d ++ "/package.json")) = Returned name ->
    getPackageName installPackage w = (Returned (Resolved name), w).
Proof.
  intros ip d name w Htar Htmp Hd Hunpack Hname.
  unfold getPackageName. rewrite Htar. unfold catch_.
  rewrite (readArchiveName_spec ip d w Htmp).
  unfold Patterns.http. rewrite test_literal, Hunpack.
  unfold Path.join. cbn [Path.join_loop]. rewrite Hd. cbn [truthy].
  change ("/" ++ "package.json") with "/package.json".
  now rewrite Hname.
Qed.

Lemma getPackageName_reads_manifest_witness :
  getPackageName "https://mysite.com/my-k8s-scripts-0.8.2.tgz"
    (Scenario.unpacking [] "k8s-scripts")
  = (Returned (Resolved (Some "k8s-scripts")),
     Scenario.unpacking [] "k8s-scripts").
Proof.
  apply (getPackageName_reads_manifest
           "https://mysite.com/my-k8s-scripts-0.8.2.tgz" "/tmp/tmp-4242"
           (Some "k8s-scripts") (Scenario.unpacking [] "k8s-scripts"));
    reflexivity.
Defined.

(** ** Iteration: where a greedy and a lazy iteration stop *)

Section Iteration.
Import Regex.

Variable p : ascii -> bool.

(** An iteration fails when its continuation fails wherever the iteration
    can stop. *)
Lemma star_none_reachable (greedy : bool) (s : string) (c : caps)
      (k : cont) :
  (forall s1 s2, s = s1 ++ s2 -> all_chars p s1 = true -> k s2 c = None) ->
  star greedy p s c k = None.
Proof.
  induction s as [|a s IH]; intro Hk; simpl.
  - now apply (Hk "" "").
  - assert (Hhere : k (String a s) c = None) by now apply (Hk "").
    rewrite Hhere. destruct (p a) eqn:Ha; [|reflexivity].
    assert (Hrest : star greedy p s c k = None).
    { apply IH. intros s1 s2 -> Hs1. apply (Hk (String a s1)); [reflexivity|].
      simpl. now rewrite Ha, Hs1. }
    rewrite Hrest. now destruct greedy.
Qed.

(** A greedy iteration stops at the last position where its continuation
    succeeds. *)
Lemma star_greedy_last (s1 s2 : string) (c r : caps) (k : cont) :
  all_chars p s1 = true ->
  k s2 c = Some r ->
  (forall t1 t2, s2 = t1 ++ t2 -> t1 <> "" -> k t2 c = None) ->
  star true p (s1 ++ s2) c k = Some r.
Proof.
  intros Hs1 Hk Hlater. apply star_greedy_prefix; [exact Hs1|].
  destruct s2 as [|a s2]; [exact Hk|]. simpl.
  destruct (p a); [|exact Hk].
  rewrite star_none; [exact Hk|].
  intros u1 u2 ->. apply (Hlater (String a u1)); [reflexivity|discriminate].
Qed.

(** A lazy iteration stops at the first position where its continuation
    succeeds. *)
Lemma star_lazy_first (s1 s2 : string) (c r : caps) (k : cont) :
  all_chars p s1 = true ->
  (forall t1 t2, s1 = t1 ++ t2 -> t2 <> "" -> k (t2 ++ s2) c = None) ->
  k s2 c = Some r ->
  star false p (s1 ++ s2) c k = Some r.
Proof.
  intros Hs1 Hearlier Hk. induction s1 as [|a s1 IH].
  - destruct s2 as [|b s2]; simpl; [exact Hk|].
    rewrite Hk. now destruct (p b).
  - simpl in Hs1. apply andb_true_iff in Hs1. destruct Hs1 as [Ha Hs1].
    change (String a s1 ++ s2) with (String a (s1 ++ s2)).
    assert (H0 : k (String a (s1 ++ s2)) c = None)
      by (apply (Hearlier "" (String a s1) eq_refl); discriminate).
    simpl. rewrite Ha, H0.
    apply IH; [exact Hs1|].
    intros t1 t2 -> Ht2. now apply (Hearlier (String a t1)).
Qed.

(** A greedy iteration succeeds when its continuation succeeds somewhere
    it can stop. *)
Lemma star_greedy_reach (s1 s2 : string) (c r0 : caps) (k : cont) :
  all_chars p s1 = true ->
  k s2 c = Some r0 ->
  exists r, star true p (s1 ++ s2) c k = Some r.
Proof.
  intros Hs1 Hk. destruct (star_greedy_here p s2 c r0 k Hk) as [r Hr].
  exists r. now apply star_greedy_prefix.
Qed.

End Iteration.

Section Captures.
Import Regex.

(** A search skips the positions at which the pattern fails. *)
Lemma search_skip (r : re) (s1 s2 : string) :
  (forall t1 t2, s1 = t1 ++ t2 -> t2 <> "" ->
                 m r (t2 ++ s2) [] accept = None) ->
  search r (s1 ++ s2) = search r s2.
Proof.
  induction s1 as [|a s1 IH]; intro H; [reflexivity|].
  change (String a s1 ++ s2) with (String a (s1 ++ s2)).
  assert (H0 : m r (String a (s1 ++ s2)) [] accept = None)
    by (apply (H "" (String a s1) eq_refl); discriminate).
  cbn [search]. rewrite H0.
  apply IH. intros t1 t2 -> Ht2. now apply (H (String a t1)).
Qed.

Lemma length_append (s1 s2 : string) :
  String.length (s1 ++ s2) = String.length s1 + String.length s2.
Proof. induction s1 as [|a s1 IH]; simpl; [reflexivity | now rewrite IH]. Qed.

(** What lies between an input and its suffix. *)
Lemma consumed_app (s1 s2 : string) : consumed (s1 ++ s2) s2 = s1.
Proof.
  unfold consumed. rewrite length_append, Nat.add_sub.
  induction s1 as [|a s1 IH]; simpl.
  - now destruct s2.
  - now rewrite IH.
Qed.

Lemma consumed_all (s : string) : consumed s "" = s.
Proof.
  unfold consumed. cbn [String.length]. now rewrite Nat.sub_0_r, substring_all.
Qed.

(** A pattern that does not bind the group [i] hands the capture of [i]
    on as it found it. *)
Lemma m_group_frame (i : nat) (r : re) :
  Shape.no_group i r = true ->
  forall (s : string) (c : caps) (k : cont) (x : caps),
    m r s c k = Some x ->
    exists s' c', k s' c' = Some x /\ group i c' = group i c.
Proof.
  induction r as [|a|q|r1 IH1 r2 IH2|r1 IH1 r2 IH2|g q|r1 IH1|j r1 IH1|];
    intros Hng s c k x Hm; simpl in Hng, Hm.
  - now exists s, c.
  - destruct s as [|b s]; [discriminate|].
    destruct (Ascii.eqb a b); [now exists s, c | discriminate].
  - destruct s as [|b s]; [discriminate|].
    destruct (q b); [now exists s, c | discriminate].
  - apply andb_true_iff in Hng. destruct Hng as [H1 H2].
    destruct (IH1 H1 _ _ _ _ Hm) as (s1 & c1 & Hk1 & Hg1).
    destruct (IH2 H2 _ _ _ _ Hk1) as (s2 & c2 & Hk2 & Hg2).
    exists s2, c2. split; [exact Hk2 | congruence].
  - apply andb_true_iff in Hng. destruct Hng as [H1 H2].
    destruct (m r1 s c k) as [y|] eqn:E.
    + injection Hm as ->. now apply (IH1 H1 _ _ _ _ E).
    + now apply (IH2 H2 _ _ _ _ Hm).
  - destruct (star_some q g s c x k Hm) as (s1 & s2 & _ & Hk).
    now exists s2, c.
  - match type of Hm with
    | match ?t with _ => _ end = _ => destruct t as [y|] eqn:E
    end.
    + injection Hm as ->.
      destruct (IH1 Hng _ _ _ _ E) as (s1 & c1 & Hk1 & Hg1).
      destruct (Nat.eqb (String.length s1) (String.length s));
        [discriminate|].
      now exists s1, c1.
    + now exists s, c.
  - apply andb_true_iff in Hng. destruct Hng as [Hij H1].
    destruct (IH1 H1 _ _ _ _ Hm) as (s1 & c1 & Hk1 & Hg1).
    exists s1, ((j, consumed s s1) :: c1). split; [exact Hk1|].
    simpl. apply negb_true_iff in Hij. now rewrite Hij.
  - destruct s; [now exists "", c | discriminate].
Qed.

End Captures.

(** ** The git branch of getPackageName *)

Section GitAddresses.
Import Regex.

Lemma all_chars_tail (q : ascii -> bool) (a : ascii) (s : string) :
  all_chars q (String a s) = true -> all_chars q s = true.
Proof. simpl. intro H. apply andb_true_iff in H. now destruct H. Qed.

Lemma git_tail_none (s : string) (c : caps) :
  s <> "" -> String.prefix "#" s = false ->
  m Shape.git_tail s c accept = None.
Proof.
  intros Hne Hp. destruct s as [|b s]; [now contradiction Hne|].
  rewrite prefix_cons in Hp. unfold Shape.git_tail. cbn [m].
  destruct (Ascii.eqb "#" b); [now rewrite prefix_nil in Hp | reflexivity].
Qed.

Lemma git_tail_fragment (r : string) (c : caps) :
  all_chars dot r = true ->
  m Shape.git_tail ("#" ++ r) c accept = Some ((2, "#" ++ r) :: c).
Proof.
  intro Hr. unfold Shape.git_tail.
  change ("#" ++ r) with (String "#" r). cbn [m Ascii.eqb Bool.eqb].
  erewrite star_greedy_all; [reflexivity | exact Hr |].
  cbn [String.length Nat.eqb]. now rewrite consumed_all.
Qed.

(** After a run of the class, what remains of [v], [/] and more does not
    continue the match when [v] holds no [#]. *)
Lemma git_name_not_before_slash (v rest : string) (c : caps) :
  all_chars (notc "#") v = true ->
  m (Seq (Lit ".git") Shape.git_tail) (v ++ "/" ++ rest) c accept = None.
Proof.
  intro Hv. cbn [m].
  destruct (String.prefix ".git" (v ++ "/" ++ rest)) eqn:Hp;
    [|now apply m_Lit_none].
  destruct (prefix_split _ _ Hp) as [s' Hs']. rewrite Hs', m_Lit_app.
  apply git_tail_none.
  - intros ->.
    do 4 (destruct v as [|? v]; [discriminate Hs'|];
          injection Hs' as _ Hs').
    destruct v; discriminate Hs'.
  - do 4 (destruct v as [|? v]; [discriminate Hs'|];
          injection Hs' as -> Hs'; apply all_chars_tail in Hv).
    subst s'. destruct v as [|b v]; [reflexivity|].
    simpl in Hv. apply andb_true_iff in Hv. destruct Hv as [Hb _].
    unfold notc in Hb. apply negb_true_iff in Hb.
    change (String.prefix "#" (String b v ++ String "/" rest))
      with (String.prefix "#" (String b (v ++ String "/" rest))).
    rewrite prefix_cons, Ascii.eqb_sym. now rewrite Hb.
Qed.

(** A run without a slash that starts before a slash ends before it. *)
Lemma run_before_slash (v rest u1 u2 : string) :
  v ++ "/" ++ rest = u1 ++ u2 ->
  all_chars (notc "/") u1 = true ->
  exists v2, v = u1 ++ v2 /\ u2 = v2 ++ "/" ++ rest.
Proof.
  revert v. induction u1 as [|a u1 IH]; intros v Heq Hu.
  - exists v. now split.
  - simpl in Hu. apply andb_true_iff in Hu. destruct Hu as [Ha Hu].
    destruct v as [|b v].
    + injection Heq as <- _. discriminate Ha.
    + injection Heq as -> Heq.
      destruct (IH v Heq Hu) as (v2 & -> & ->). now exists v2.
Qed.

(** The pattern of a git address does not match from inside a part that
    holds no [#] and is followed by a slash. *)
Lemma git_name_skips (t2 rest : string) :
  all_chars (notc "#") t2 = true ->
  m (body Patterns.git_name) (t2 ++ "/" ++ rest) [] accept = None.
Proof.
  intro Ht. cbn [body Patterns.git_name m Plus].
  destruct t2 as [|b t2]; [reflexivity|].
  change (String b t2 ++ "/" ++ rest) with (String b (t2 ++ "/" ++ rest)).
  cbv iota. destruct (notc "/" b); [|reflexivity].
  apply star_none_reachable. intros u1 u2 Heq Hu.
  destruct (run_before_slash t2 rest u1 u2 Heq Hu) as (v2 & -> & ->).
  simpl in Ht. apply andb_true_iff in Ht. destruct Ht as [_ Ht].
  rewrite all_chars_app in Ht. apply andb_true_iff in Ht.
  destruct Ht as [_ Ht].
  apply (git_name_not_before_slash v2 rest _ Ht).
Qed.

(** No proper suffix of [.git] and a fragment starts with [.git]. *)
Lemma git_suffix_last (frag t1 t2 : string) :
  frag = ""
  \/ (exists r, frag = "#" ++ r /\ Shape.occurs_not ".git" r = true) ->
  ".git" ++ frag = t1 ++ t2 -> t1 <> "" ->
  String.prefix ".git" t2 = false.
Proof.
  intros Hfrag Heq Hne.
  destruct t1 as [|a1 t1]; [now contradiction Hne|].
  simpl in Heq. injection Heq as <- Heq.
  destruct t1 as [|a2 t1]; simpl in Heq; [now subst t2|].
  injection Heq as <- Heq.
  destruct t1 as [|a3 t1]; simpl in Heq; [now subst t2|].
  injection Heq as <- Heq.
  destruct t1 as [|a4 t1]; simpl in Heq; [now subst t2|].
  injection Heq as <- Heq.
  destruct Hfrag as [->|(r & -> & Hocc)].
  - destruct t1; [|discriminate Heq]. simpl in Heq. now subst t2.
  - destruct t1 as [|a5 t1]; simpl in Heq; [now subst t2|].
    injection Heq as <- Heq.
    subst r. apply occurs_not_prefix. now apply occurs_not_suffix in Hocc.
Qed.

(** The pattern of a git address on the last segment of an address. *)
Lemma git_name_capture (pre name frag : string) :
  all_chars (notc "#") pre = true ->
  truthy name = true ->
  all_chars (notc "/") name = true ->
  frag = ""
  \/ (exists r, frag = "#" ++ r /\ all_chars dot r = true
                /\ Shape.occurs_not ".git" r = true) ->
  exists c,
    exec Patterns.git_name (pre ++ "/" ++ name ++ ".git" ++ frag) = Some c
    /\ group 1 c = Some name.
Proof.
  intros Hpre Hname Hslash Hfrag.
  assert (Htail : exists c1,
    forall c0, m Shape.git_tail frag c0 accept = Some (c1 ++ c0)%list).
  { destruct Hfrag as [->|(r & -> & Hr & _)].
    - now exists [].
    - exists [(2, "#" ++ r)]. intro c0. now apply git_tail_fragment. }
  destruct Htail as [c1 Htail].
  exists (c1 ++ [(1, name)])%list. split.
  - unfold exec. cbn [bol].
    rewrite search_skip.
    + change ("/" ++ name ++ ".git" ++ frag)
        with (String "/" (name ++ ".git" ++ frag)).
      cbn [search].
      assert (Hslash0 :
        m (body Patterns.git_name) (String "/" (name ++ ".git" ++ frag))
          [] accept = None) by reflexivity.
      rewrite Hslash0.
      destruct name as [|n0 name]; [discriminate Hname|].
      simpl in Hslash. apply andb_true_iff in Hslash.
      destruct Hslash as [Hn0 Hslash].
      assert (Hm :
        m (body Patterns.git_name) (String n0 name ++ ".git" ++ frag)
          [] accept = Some (c1 ++ [(1, String n0 name)])%list).
      { change (String n0 name ++ ".git" ++ frag)
          with (String n0 (name ++ ".git" ++ frag)).
        cbn [body Patterns.git_name m Plus]. rewrite Hn0.
        apply star_greedy_last; [exact Hslash | |].
        - rewrite m_Lit_app.
          change (String n0 (name ++ ".git" ++ frag))
            with (String n0 name ++ ".git" ++ frag).
          rewrite consumed_app. apply Htail.
        - intros t1 t2 Heq Hne. apply m_Lit_none.
          apply (git_suffix_last frag t1 t2); [|exact Heq | exact Hne].
          destruct Hfrag as [->|(r & -> & _ & Hocc)];
            [now left | right; now exists r]. }
      destruct (String n0 name ++ ".git" ++ frag) eqn:E.
      * destruct name; discriminate E.
      * cbn [search]. now rewrite Hm.
    + intros t1 t2 -> Ht2. apply git_name_skips.
      rewrite all_chars_app in Hpre. apply andb_true_iff in Hpre.
      now destruct Hpre.
  - destruct Hfrag as [->|(r & -> & Hr & _)].
    + specialize (Htail []). simpl in Htail. injection Htail as Hc.
      rewrite List.app_nil_r in Hc. subst c1. simpl. reflexivity.
    + specialize (Htail []). rewrite git_tail_fragment in Htail by exact Hr.
      injection Htail as Hc. rewrite List.app_nil_r in Hc. subst c1.
      reflexivity.
Qed.

End GitAddresses.

(** X13.  A git address whose last segment is a name followed by [.git]
    and an optional fragment resolves to that name, when no [#] stands
    before the last slash and [.git] does not occur again in the
    fragment. *)
Theorem getPackageName_git :
  forall (pre name frag : string) (w : world),
    String.prefix "git+" pre = true ->
    all_chars (Regex.notc "#") pre = true ->
    truthy name = true ->
    all_chars (Regex.notc "/") name = true ->
    frag = ""
    \/ (exists r, frag = "#" ++ r /\ all_chars Regex.dot r = true
                  /\ Shape.occurs_not ".git" r = true) ->
    Regex.test Patterns.tarball (pre ++ "/" ++ name ++ ".git" ++ frag)
    = false ->
    getPackageName (pre ++ "/" ++ name ++ ".git" ++ frag) w
    = (Returned (Resolved (Some name)), w).
Proof.
  intros pre name frag w Hgit Hpre Hname Hslash Hfrag Htar.
  destruct (git_name_capture pre name frag Hpre Hname Hslash Hfrag)
    as (c & Hc & Hg).
  unfold getPackageName. rewrite Htar, indexOf_is_0_prefix.
  destruct (prefix_split _ _ Hgit) as [pre' ->].
  rewrite append_assoc, prefix_app.
  unfold bind, lift, match_1, ret.
  rewrite <- append_assoc. now rewrite Hc, Hg.
Qed.

Lemma getPackageName_git_witness :
  getPackageName
    ("git+ssh://github.com/mycompany" ++ "/" ++ "k8s-scripts" ++ ".git"
       ++ "#v1.2.3") (Scenario.offline [] None)
  = (Returned (Resolved (Some "k8s-scripts")), Scenario.offline [] None).
Proof.
  apply (getPackageName_git "git+ssh://github.com/mycompany" "k8s-scripts"
           "#v1.2.3" (Scenario.offline [] None));
    try reflexivity.
  right. exists "v1.2.3". repeat split; reflexivity.
Defined.

(** ** The fallback of the tarball branch *)

Section ArchiveNames.
Import Regex.

Lemma digit_class (d : ascii) :
  is_digit d = true -> dot d = true /\ notc "/" d = true.
Proof.
  intro Hd. unfold dot, line_terminator, notc.
  destruct (Ascii.eqb_spec d "010") as [->|_]; [discriminate Hd|].
  destruct (Ascii.eqb_spec d "013") as [->|_]; [discriminate Hd|].
  destruct (Ascii.eqb_spec d "/") as [->|_]; [discriminate Hd|].
  now split.
Qed.

Lemma all_chars_impl (q1 q2 : ascii -> bool) (s : string) :
  (forall a, q1 a = true -> q2 a = true) ->
  all_chars q1 s = true -> all_chars q2 s = true.
Proof.
  intro Hq. induction s as [|a s IH]; simpl; [reflexivity|].
  intro H. apply andb_true_iff in H. destruct H as [Ha Hs].
  now rewrite (Hq a Ha), IH.
Qed.

Lemma stem_char_class (a : ascii) :
  Shape.stem_char a = true ->
  dot a = true /\ notc "." a = true /\ notc "/" a = true.
Proof.
  unfold Shape.stem_char. intro H.
  apply andb_true_iff in H. destruct H as [H H3].
  apply andb_true_iff in H. destruct H as [H1 H2]. now repeat split.
Qed.

Lemma dash_digit_free_suffix (t1 t2 : string) :
  Shape.dash_digit_free (t1 ++ t2) = true ->
  Shape.dash_digit_free t2 = true.
Proof.
  induction t1 as [|a t1 IH]; intro H; [exact H|].
  apply IH. change (String a t1 ++ t2) with (String a (t1 ++ t2)) in H.
  cbn [Shape.dash_digit_free] in H.
  apply andb_true_iff in H. now destruct H.
Qed.

(** The pattern of a tarball matches a text of one line that ends in the
    extension of an archive. *)
Lemma tarball_matches (X ext : string) :
  truthy X = true ->
  all_chars dot X = true ->
  ext = "tgz" \/ ext = "tar.gz" ->
  test Patterns.tarball (X ++ "." ++ ext) = true.
Proof.
  intros HX Hdot Hext. destruct X as [|a X]; [discriminate HX|].
  simpl in Hdot. apply andb_true_iff in Hdot. destruct Hdot as [Ha Hdot].
  unfold test, exec. cbn [bol body Patterns.tarball].
  change (String a X ++ "." ++ ext) with (String a (X ++ "." ++ ext)).
  cbn [m Plus]. rewrite Ha.
  match goal with
  | |- match star true dot _ [] ?k with _ => _ end = _ =>
      destruct (star_greedy_reach dot X ("." ++ ext) [] [(1, ext)] k Hdot)
        as [r Hr]; [destruct Hext as [->| ->]; reflexivity|]
  end.
  now rewrite Hr.
Qed.

(** Inside a stem the tail of the pattern does not match. *)
Lemma stem_tail_not_inside (b : ascii) (t rest : string) (c : caps) :
  all_chars Shape.stem_char (String b t) = true ->
  Shape.dash_digit_free (String b t) = true ->
  m Shape.stem_tail (String b t ++ String "-" rest) c accept = None.
Proof.
  intros Hchars Hfree.
  simpl in Hchars. apply andb_true_iff in Hchars.
  destruct Hchars as [Hb _].
  destruct (stem_char_class b Hb) as (_ & Hnd & _).
  unfold notc in Hnd. apply negb_true_iff in Hnd.
  change (String b t ++ String "-" rest)
    with (String b (t ++ String "-" rest)).
  unfold Shape.stem_tail. cbn [m Plus].
  rewrite (Ascii.eqb_sym "." b), Hnd.
  destruct (Ascii.eqb_spec "-" b) as [<-|_]; [|reflexivity].
  destruct t as [|b2 t]; [reflexivity|].
  change (String b2 t ++ String "-" rest)
    with (String b2 (t ++ String "-" rest)).
  cbv iota.
  cbn [Shape.dash_digit_free] in Hfree.
  apply andb_true_iff in Hfree. destruct Hfree as [Hfree _].
  simpl in Hfree. apply negb_true_iff in Hfree.
  unfold digit. now rewrite Hfree.
Qed.

(** At a dash, a digit and more text of one line, the tail of the pattern
    matches. *)
Lemma stem_tail_at_version (d : ascii) (ver ext : string) (c : caps) :
  is_digit d = true ->
  truthy ver = true ->
  all_chars dot ver = true ->
  ext = "tgz" \/ ext = "tar.gz" ->
  exists x,
    m Shape.stem_tail (String "-" (String d (ver ++ "." ++ ext))) c accept
    = Some x.
Proof.
  intros Hd Hver Hdot Hext.
  destruct ver as [|v0 ver]; [discriminate Hver|].
  simpl in Hdot. apply andb_true_iff in Hdot. destruct Hdot as [Hv0 Hdot].
  unfold Shape.stem_tail. cbn [m Plus Ascii.eqb Bool.eqb].
  unfold digit at 1. rewrite Hd.
  match goal with
  | |- exists x, match star true digit ?s c ?k with _ => _ end = _ =>
      assert (Hex : exists r, star true digit s c k = Some r)
  end.
  { change (String v0 ver ++ "." ++ ext)
      with (String v0 (ver ++ "." ++ ext)).
    match goal with
    | |- exists r, star true digit ?s c ?k = _ =>
        assert (Hk : exists r0, k s c = Some r0)
    end.
    { cbv beta. rewrite Hv0.
      apply (star_greedy_reach dot ver ("." ++ ext) c ((2, ext) :: c));
        [exact Hdot|].
      assert (Hlen :
        Nat.eqb (String.length ("." ++ ext))
                (String.length
                   (String "-" (String d (String v0 (ver ++ "." ++ ext)))))
        = false).
      { apply Nat.eqb_neq. cbn [String.length]. rewrite !length_append. lia. }
      rewrite Hlen.
      destruct Hext as [->| ->]; reflexivity. }
    destruct Hk as [r0 Hk].
    now apply (star_greedy_here digit _ c r0). }
  destruct Hex as [r Hr]. exists r. now rewrite Hr.
Qed.

(** The pattern of the fallback on an archive in a directory: the first
    capture is the stem of the file name. *)
Lemma tarball_stem_capture (D stem ver ext : string) (d : ascii) :
  truthy D = true ->
  all_chars dot D = true ->
  truthy stem = true ->
  all_chars Shape.stem_char stem = true ->
  Shape.dash_digit_free stem = true ->
  is_digit d = true ->
  truthy ver = true ->
  all_chars dot ver = true ->
  all_chars (notc "/") ver = true ->
  ext = "tgz" \/ ext = "tar.gz" ->
  exists c,
    exec Patterns.tarball_stem
      (D ++ "/" ++ stem ++ String "-" (String d (ver ++ "." ++ ext)))
    = Some c
    /\ group 1 c = Some stem.
Proof.
  intros HD HDdot Hstem Hchars Hfree Hd Hver Hvdot Hvslash Hext.
  set (rest1 := String "-" (String d (ver ++ "." ++ ext))).
  destruct (stem_tail_at_version d ver ext [(1, stem)] Hd Hver Hvdot Hext)
    as [x Hx]. fold rest1 in Hx.
  assert (Hg : group 1 x = Some stem).
  { destruct (m_group_frame 1 Shape.stem_tail eq_refl _ _ _ _ Hx)
      as (s' & c' & Hacc & Hg).
    injection Hacc as <-. exact Hg. }
  exists x. split; [|exact Hg].
  assert (Hno : all_chars (notc "/") (stem ++ rest1) = true).
  { rewrite all_chars_app. apply andb_true_iff. split.
    - apply (all_chars_impl Shape.stem_char); [|exact Hchars].
      intros a Ha. now destruct (stem_char_class a Ha) as (_ & _ & ?).
    - unfold rest1. cbn [all_chars].
      destruct (digit_class d Hd) as [_ Hds]. rewrite Hds.
      rewrite all_chars_app, Hvslash.
      destruct Hext as [->| ->]; reflexivity. }
  destruct D as [|a0 D]; [discriminate HD|].
  simpl in HDdot. apply andb_true_iff in HDdot.
  destruct HDdot as [Ha0 HDdot].
  destruct stem as [|s0 stem]; [discriminate Hstem|].
  unfold exec. cbn [bol body Patterns.tarball_stem].
  change (String a0 D ++ "/" ++ String s0 stem ++ rest1)
    with (String a0 (D ++ String "/" (String s0 (stem ++ rest1)))).
  cbn [m Plus]. rewrite Ha0.
  apply star_greedy_last; [exact HDdot | |].
  - cbn [Ascii.eqb Bool.eqb].
    assert (Hs0 : dot s0 = true).
    { simpl in Hchars. apply andb_true_iff in Hchars.
      destruct Hchars as [Hs0 _].
      now destruct (stem_char_class s0 Hs0). }
    rewrite Hs0.
    apply star_lazy_first.
    + apply (all_chars_impl Shape.stem_char);
        [|now apply all_chars_tail in Hchars].
      intros a Ha. now destruct (stem_char_class a Ha).
    + intros t1 t2 -> Ht2. destruct t2 as [|b t2]; [now contradiction Ht2|].
      apply (stem_tail_not_inside b t2).
      * apply all_chars_tail in Hchars. rewrite all_chars_app in Hchars.
        apply andb_true_iff in Hchars. now destruct Hchars.
      * now apply (dash_digit_free_suffix (String s0 t1)).
    + change (String s0 (stem ++ rest1)) with (String s0 stem ++ rest1).
      rewrite consumed_app. exact Hx.
  - intros t1 t2 Heq Hne.
    destruct t1 as [|a1 t1]; [now contradiction Hne|].
    injection Heq as <- Heq.
    change (String s0 (stem ++ rest1)) with (String s0 stem ++ rest1) in Heq.
    pose proof (Chr_none_on_suffix "/" (String s0 stem ++ rest1) t1 t2
                  [] accept Hno Heq) as Hchr.
    destruct t2 as [|b t2]; [reflexivity|].
    cbn [m] in Hchr.
    destruct (Ascii.eqb "/" b); [discriminate Hchr | reflexivity].
Qed.

End ArchiveNames.

(** X14.  When reading the name is rejected for an archive that lies in a
    directory and is named stem, dash, version, extension, the promise
    resolves to the stem, and two lines tell so.  The stem is free of
    dots, and no dash in it is followed by a digit; the version starts
    with a digit and has at least one more character; the extension is
    [tgz] or [tar.gz]. *)
Theorem getPackageName_fallback_stem :
  forall (D stem ver ext : string) (d : ascii) (w : world) (r : reason),
    truthy D = true ->
    all_chars Regex.dot D = true ->
    truthy stem = true ->
    all_chars Shape.stem_char stem = true ->
    Shape.dash_digit_free stem = true ->
    is_digit d = true ->
    truthy ver = true ->
    all_chars Regex.dot ver = true ->
    all_chars (Regex.notc "/") ver = true ->
    ext = "tgz" \/ ext = "tar.gz" ->
    fst (readArchiveName
           (D ++ "/" ++ stem ++ String "-" (String d (ver ++ "." ++ ext))) w)
    = Returned (Rejected r) ->
    getPackageName
      (D ++ "/" ++ stem ++ String "-" (String d (ver ++ "." ++ ext))) w
    = (Returned (Resolved (Some stem)),
       set_console
         (console w
            ++ ["Could not extract the package name from the archive: "
                  ++ show (message_of r);
                "Based on the filename, assuming it is "
                  ++ dquote ++ stem ++ dquote]) w).
Proof.
  intros D stem ver ext d w r HD HDdot Hstem Hchars Hfree Hd Hver Hvdot
         Hvslash Hext Hread.
  destruct (tarball_stem_capture D stem ver ext d HD HDdot Hstem Hchars
              Hfree Hd Hver Hvdot Hvslash Hext) as (c & Hc & Hg).
  set (ip := D ++ "/" ++ stem ++ String "-" (String d (ver ++ "." ++ ext)))
    in *.
  assert (Htar : Regex.test Patterns.tarball ip = true).
  { assert (Hip : ip = (D ++ "/" ++ stem ++ String "-" (String d ver))
                         ++ "." ++ ext).
    { unfold ip. now rewrite !append_assoc. }
    rewrite Hip. apply tarball_matches; [| |exact Hext].
    - destruct D; [discriminate HD | reflexivity].
    - rewrite !all_chars_app, HDdot. cbn [all_chars andb].
      assert (Hs : all_chars Regex.dot stem = true).
      { apply (all_chars_impl Shape.stem_char); [|exact Hchars].
        intros a Ha. now destruct (stem_char_class a Ha). }
      rewrite Hs. destruct (digit_class d Hd) as [Hdd _].
      now rewrite Hdd, Hvdot. }
  destruct (readArchiveName_settles ip w) as [p Hp].
  rewrite Hp in Hread. simpl in Hread. injection Hread as ->.
  rewrite (getPackageName_fallback ip w w r c Htar Hp Hc), Hg.
  reflexivity.
Qed.

Lemma getPackageName_fallback_stem_witness :
  getPackageName
    ("https://mysite.com" ++ "/" ++ "my-k8s-scripts"
       ++ String "-" (String "0" (".8.2" ++ "." ++ "tar.gz")))
    (Scenario.offline [] None)
  = (Returned (Resolved (Some "my-k8s-scripts")),
     set_console
       (console (Scenario.offline [] None)
          ++ ["Could not extract the package name from the archive: "
                ++ show (message_of
                           (Thrown (Error "incorrect header check")));
              "Based on the filename, assuming it is "
                ++ dquote ++ "my-k8s-scripts" ++ dquote])
       (Scenario.offline [] None)).
Proof.
  apply (getPackageName_fallback_stem "https://mysite.com" "my-k8s-scripts"
           ".8.2" "tar.gz" "0" (Scenario.offline [] None)
           (Thrown (Error "incorrect header check")));
    try reflexivity.
  now right.
Defined.

(** ** The guard and the rollback, once more *)

Section GuardAndRollback.

Lemma filter_idempotent {A : Type} (f : A -> bool) (l : list A) :
  filter f (filter f l) = filter f l.
Proof.
  rewrite filter_filter. apply filter_ext. intro a. now destruct (f a).
Qed.

(** The conflicts of a part of a listing are conflicts of the listing. *)
Lemma conflicts_of_filter (f : string -> bool) (l : list string) :
  conflicts_of l = [] -> conflicts_of (filter f l) = [].
Proof.
  rewrite !conflicts_of_spec. intro H.
  induction l as [|a l IH]; [reflexivity|].
  cbn [filter] in H |- *.
  destruct (negb (includes validFiles a) && negb (is_error_log a))%bool
    eqn:E; [discriminate H|].
  destruct (f a); cbn [filter]; [rewrite E|]; now apply IH.
Qed.

(** What [report_failure] prints for a failed command. *)
Lemma report_failure_command (c : ascii) (command : string) (w : world) :
  report_failure (CommandFailure (String c command)) w
  = (Returned tt,
     set_console
       (console w
          ++ [""; "Aborting installation.";
              "  " ++ String c command ++ " has failed."; ""]) w).
Proof.
  unfold report_failure, bind, console_log. cbn [command_of truthy_value
    truthy]. unfold Chalk.cyan.
  rewrite !console_set_console, !set_console_twice, <- !List.app_assoc.
  reflexivity.
Qed.

(** What [report_failure] prints for an error. *)
Lemma report_failure_thrown (e : error) (w : world) :
  report_failure (Thrown e) w
  = (Returned tt,
     set_console
       (console w
          ++ [""; "Aborting installation.";
              "Unexpected error. Please report it as a bug:";
              inspect (Thrown e); ""]) w).
Proof.
  unfold report_failure, bind, console_log. cbn [command_of truthy_value].
  unfold Chalk.red.
  rewrite !console_set_console, !set_console_twice, <- !List.app_assoc.
  reflexivity.
Qed.

(** The second part of the handler keeps what was printed, and where the
    root exists it returns. *)
Lemma delete_generated_grows (root appName : string) (w : world)
      (entries : list string) :
  root_dir w = Some entries ->
  exists more w',
    delete_generated root appName w = (Returned tt, w')
    /\ console w' = (console w ++ more)%list
    /\ exit_code w' = Some 1%Z
    /\ spawned w' = spawned w
    /\ root_dir w'
       = match filter (fun f => negb (is_generated f)) entries with
         | [] => None
         | remaining => Some remaining
         end.
Proof.
  intro Hw. unfold delete_generated.
  unfold bind at 1, readdirSync at 1. rewrite Hw.
  unfold bind at 1. rewrite (delete_generated_files entries w entries Hw).
  assert (Hf :
    filter (fun f => negb (is_generated f
                           && existsb (String.eqb f) entries))%bool entries
    = filter (fun f => negb (is_generated f)) entries).
  { apply filter_ext_in. intros f Hf.
    apply existsb_eqb_In in Hf. now rewrite Hf, andb_true_r. }
  rewrite Hf.
  unfold bind at 1, readdirSync at 1. unfold_setters.
  destruct (filter (fun f => negb (is_generated f)) entries) as [|r rs].
  - unfold bind at 1. unfold bind at 1, path_resolve at 1. unfold_setters.
    destruct (resolve_two_strings (process_cwd w) root "..") as [p Hp].
    rewrite Hp.
    unfold bind, console_log, path_resolve, chdir, removeSync_root,
      process_exit.
    unfold_setters. rewrite Hp.
    destruct w; unfold_setters. rewrite <- !List.app_assoc.
    do 2 eexists. split; [reflexivity|]. unfold_setters.
    repeat split; reflexivity.
  - unfold bind, ret, console_log, process_exit.
    destruct w; unfold_setters. rewrite <- !List.app_assoc.
    do 2 eexists. split; [reflexivity|]. unfold_setters.
    repeat split; reflexivity.
Qed.

(** The handler as a whole, where the root exists. *)
Lemma run_catch_grows (root appName : string) (reason : reason) (w : world)
      (entries : list string) :
  root_dir w = Some entries ->
  exists more w',
    run_catch root appName reason w = (Returned tt, w')
    /\ console w'
       = (console (snd (report_failure reason w)) ++ more)%list
    /\ exit_code w' = Some 1%Z
    /\ spawned w' = spawned w
    /\ root_dir w'
       = match filter (fun f => negb (is_generated f)) entries with
         | [] => None
         | remaining => Some remaining
         end.
Proof.
  intro Hw. destruct (report_failure_spec reason w) as [lines Hrep].
  destruct (delete_generated_grows root appName
              (set_console (console w ++ lines) w) entries)
    as (more & w' & Hdel & Hc & He & Hs & Hr); [destruct w; exact Hw|].
  exists more, w'. unfold run_catch, bind. rewrite Hrep, Hdel.
  cbn [snd].
  split; [reflexivity | split; [exact Hc | split; [exact He|]]].
  split; [|exact Hr]. rewrite Hs. now destruct w.
Qed.

End GuardAndRollback.

(** X15.  The guard is idempotent: once it has returned true it returns
    true again, removes nothing more and prints one empty line. *)
Theorem isSafeToCreateProjectIn_idempotent :
  forall (root name : string) (w : world),
    root_dir w <> None ->
    fst (isSafeToCreateProjectIn root name w) = Returned true ->
    let w1 := snd (isSafeToCreateProjectIn root name w) in
    isSafeToCreateProjectIn root name w1
    = (Returned true, set_console (console w1 ++ [""]) w1).
Proof.
  intros root name w Hw Hsafe w1.
  destruct (root_dir w) as [files|] eqn:Hfiles; [clear Hw|now contradiction Hw].
  unfold w1. revert Hsafe.
  rewrite (isSafeToCreateProjectIn_spec root name w files Hfiles).
  destruct (conflicts_of files) as [|c cs] eqn:Hc; [intros _|discriminate].
  cbn [snd].
  set (kept := filter (fun f => negb (is_error_log f)) files).
  rewrite (isSafeToCreateProjectIn_spec root name _ kept)
    by (destruct w; reflexivity).
  unfold kept. rewrite (conflicts_of_filter _ files Hc), filter_idempotent.
  reflexivity.
Qed.

Lemma isSafeToCreateProjectIn_idempotent_witness :
  isSafeToCreateProjectIn "/home/user/my-k8s-app" "my-k8s-app"
    (snd (isSafeToCreateProjectIn "/home/user/my-k8s-app" "my-k8s-app"
            (Scenario.offline [".git"; "npm-debug.log"] None)))
  = (Returned true,
     set_console [""; ""] (Scenario.offline [".git"] None)).
Proof.
  apply (isSafeToCreateProjectIn_idempotent "/home/user/my-k8s-app"
           "my-k8s-app" (Scenario.offline [".git"; "npm-debug.log"] None));
    [discriminate | reflexivity].
Defined.



(** X17.  The rollback hands the root back in a state the guard accepts:
    when the root held nothing but generated files, log files of the
    package manager and allowed files, then after the handler the root is
    gone or the guard returns true for it. *)
Theorem run_catch_then_guard :
  forall (root appName name : string) (reason : reason) (w : world)
         (entries : list string),
    root_dir w = Some entries ->
    (forall f, In f entries ->
               is_generated f = true \/ is_error_log f = true
               \/ In f validFiles) ->
    let w' := snd (run_catch root appName reason w) in
    root_dir w' = None
    \/ fst (isSafeToCreateProjectIn root name w') = Returned true.
Proof.
  intros root appName name reason w entries Hw Hentries w'.
  destruct (run_catch_grows root appName reason w entries Hw)
    as (more & w1 & Hrun & _ & _ & _ & Hroot).
  unfold w'. rewrite Hrun. cbn [snd]. clear w'.
  destruct (filter (fun f => negb (is_generated f)) entries) as [|r rs] eqn:E;
    [now left | right].
  rewrite (isSafeToCreateProjectIn_spec root name w1 (r :: rs) Hroot).
  destruct (conflicts_of (r :: rs)) as [|c cs] eqn:Hc; [reflexivity|].
  exfalso.
  assert (Hin : In c (conflicts_of (r :: rs))) by (rewrite Hc; now left).
  apply In_conflicts_of in Hin. destruct Hin as (Hin & Hnv & Hnl).
  rewrite <- E in Hin. apply filter_In in Hin. destruct Hin as [Hin Hng].
  apply negb_true_iff in Hng.
  destruct (Hentries c Hin) as [Hg|[Hl|Hv]]; [congruence | congruence |].
  now apply Hnv.
Qed.

Lemma run_catch_then_guard_witness :
  let w' := snd (run_catch "/home/user/my-k8s-app" "my-k8s-app"
                   (CommandFailure "npm install")
                   (Scenario.offline
                      [".git"; "package.json"; "npm-debug.log";
                       "node_modules"] (Some 1%Z))) in
  root_dir w' = None
  \/ fst (isSafeToCreateProjectIn "/home/user/my-k8s-app" "my-k8s-app" w')
     = Returned true.
Proof.
  apply (run_catch_then_guard "/home/user/my-k8s-app" "my-k8s-app"
           "my-k8s-app" (CommandFailure "npm install")
           (Scenario.offline
              [".git"; "package.json"; "npm-debug.log"; "node_modules"]
              (Some 1%Z))
           [".git"; "package.json"; "npm-debug.log"; "node_modules"]);
    [reflexivity|].
  intros f [<-|[<-|[<-|[<-|[]]]]].
  - right; right. simpl. tauto.
  - left. reflexivity.
  - right; left. reflexivity.
  - left. reflexivity.
Defined.

(** ** createApp and run *)

Section Chain.
Import Bootstrap.

(** [path.resolve] of one string returns. *)
Lemma resolve_one_string (cwd a : string) :
  exists p, Path.resolve cwd [Some a] = Returned p.
Proof.
  unfold Path.resolve. simpl rev. simpl Path.resolve_loop.
  destruct (truthy a), (Path.isAbsolute a), (truthy cwd),
    (Path.isAbsolute cwd); simpl;
    repeat match goal with
           | |- context [if ?c then _ else _] => destruct c
           end; eexists; reflexivity.
Qed.

(** [install], step by step. *)
Lemma install_spec (root : string) (dependencies : list string)
      (verbose : bool) (w : world) :
  let args :=
    (["install"; "--save"; "--save-exact"; "--loglevel"; "error"]
       ++ dependencies ++ (if verbose then ["--verbose"] else []))%list in
  install root dependencies verbose w
  = (Returned (match close_code w "npm" args with
               | Some 0%Z => Resolved tt
               | _ => Rejected (CommandFailure ("npm " ++ join " " args))
               end),
     set_spawned (spawned w ++ [("npm", args)]) w).
Proof.
  intro args.
  assert (Hargs :
    (if verbose
     then ((["install"; "--save"; "--save-exact"; "--loglevel"; "error"]
              ++ dependencies) ++ ["--verbose"])%list
     else (["install"; "--save"; "--save-exact"; "--loglevel"; "error"]
              ++ dependencies)%list) = args).
  { unfold args. destruct verbose.
    - now rewrite <- List.app_assoc.
    - now rewrite List.app_nil_r. }
  unfold install, bind, spawn_close. rewrite Hargs.
  destruct (close_code w "npm" args) as [[| |]|]; reflexivity.
Qed.

(** [run] once the reference and the name are known: by the code the
    package manager closes with, the initializer or the rollback runs in
    the world the package manager left. *)
Lemma run_spec (npm : child) (init : initializer) (root appName : string)
      (version : value) (verbose : bool) (od ref : string) (name : value)
      (w w2 : world) :
  getInstallPackage version od w = (Returned ref, w) ->
  getPackageName ref
    (set_console
       (console w
          ++ ["Installing packages. This might take a couple of minutes."])
       w)
  = (Returned (Resolved name), w2) ->
  let args :=
    (["install"; "--save"; "--save-exact"; "--loglevel"; "error"; ref]
       ++ (if verbose then ["--verbose"] else []))%list in
  let w3 :=
    set_root_dir (npm (root_dir w2))
      (set_spawned (spawned w2 ++ [("npm", args)]) w2) in
  let rollback := fun (r : reason) (w4 : world) =>
    match run_catch root appName r w4 with
    | (Returned _, w5) => (Returned (Resolved tt), w5)
    | (Threw e, w5) => (Returned (Rejected (Thrown e)), w5)
    end in
  run npm init root appName version verbose od w
  = match close_code w "npm" args with
    | Some 0%Z =>
        match Path.resolve (process_cwd w)
                [Some (process_cwd w); Some "node_modules"; name;
                 Some "scripts"; Some "init.js"] with
        | Returned scriptsPath =>
            match init scriptsPath root appName verbose od w3 with
            | (Returned _, w4) => (Returned (Resolved tt), w4)
            | (Threw e, w4) => rollback (Thrown e) w4
            end
        | Threw e => rollback (Thrown e) w3
        end
    | _ => rollback (CommandFailure ("npm " ++ join " " args)) w3
    end.
Proof.
  intros Hinstall Hname args w3 rollback.
  assert (Hframe : exists lines, w2 = set_console lines w).
  { pose proof (getPackageName_pure_console ref
                  (set_console
                     (console w
                        ++ ["Installing packages. This might take a couple of minutes."])
                     w)) as (lines & Hl & _).
    rewrite Hname in Hl. cbn [snd] in Hl. rewrite Hl.
    rewrite set_console_twice. now eexists. }
  destruct Hframe as [lines ->].
  unfold run. unfold bind at 1. rewrite Hinstall.
  unfold bind at 1, console_log at 1.
  unfold catch_, then_ at 1, then_ at 1. rewrite Hname.
  unfold then_ at 1, installing.
  rewrite (install_spec root [ref] verbose (set_console lines w)).
  change (["install"; "--save"; "--save-exact"; "--loglevel"; "error"]
            ++ [ref] ++ (if verbose then ["--verbose"] else []))%list
    with args.
  assert (Hclose : close_code (set_console lines w) = close_code w)
    by now destruct w.
  assert (Hcwd : process_cwd w3 = process_cwd w) by now destruct w.
  rewrite Hclose.
  change (set_root_dir
            (npm (root_dir
                    (set_spawned
                       (spawned (set_console lines w) ++ [("npm", args)])
                       (set_console lines w))))
            (set_spawned (spawned (set_console lines w) ++ [("npm", args)])
               (set_console lines w)))
    with w3.
  destruct (close_code w "npm" args) as [[| |]|]; cbv beta iota;
    unfold ret; cbv beta iota;
    try (unfold rollback, bind;
         destruct (run_catch root appName _ w3) as [[[]|e] w5];
         reflexivity).
  unfold bind at 1, cwd at 1. unfold bind at 1, path_resolve at 1.
  rewrite Hcwd.
  destruct (Path.resolve (process_cwd w) _) as [scriptsPath|e].
  - unfold bind.
    destruct (init scriptsPath root appName verbose od w3) as [[[]|e] w4].
    + reflexivity.
    + unfold rollback.
      destruct (run_catch root appName (Thrown e) w4) as [[[]|e'] w5];
        reflexivity.
  - unfold rollback, bind.
    destruct (run_catch root appName (Thrown e) w3) as [[[]|e'] w5];
      reflexivity.
Qed.

End Chain.

Section Preparation.
Import Bootstrap.

(** A root without conflicts holds no manifest. *)
Lemma no_conflict_no_manifest (entries : list string) :
  conflicts_of entries = [] ->
  includes (filter (fun f => negb (is_error_log f)) entries) "package.json"
  = false.
Proof.
  intro Hc. unfold includes.
  destruct (existsb _ _) eqn:E; [|reflexivity].
  apply existsb_eqb_In in E. apply filter_In in E. destruct E as [Hin _].
  assert (H : In "package.json" (conflicts_of entries)).
  { apply In_conflicts_of. split; [exact Hin|]. split; [|reflexivity].
    simpl. intuition discriminate. }
  rewrite Hc in H. destruct H.
Qed.

(** [createApp] up to the guard, when the guard finds conflicts. *)
Lemma createApp_conflict_spec (npm : child) (init : initializer)
      (name : string) (verbose : bool) (version : value) (w : world)
      (entries : list string) (root : string) :
  root_dir w = Some entries ->
  conflicts_of entries <> [] ->
  Path.resolve (process_cwd w) [Some name] = Returned root ->
  createApp npm init name verbose version w
  = (Returned None,
     set_exit_code (Some 1%Z) (snd (isSafeToCreateProjectIn root name w))).
Proof.
  intros Hw Hc Hroot.
  unfold createApp. unfold bind at 1, path_resolve at 1. rewrite Hroot.
  unfold bind at 1, ensureDirSync at 1. rewrite Hw.
  unfold bind at 1.
  rewrite (isSafeToCreateProjectIn_spec root name w entries Hw).
  destruct (conflicts_of entries) as [|c cs]; [now contradiction Hc|].
  reflexivity.
Qed.

(** [createApp] up to the call of [run], when the guard finds no
    conflict. *)
Lemma createApp_proceeds (npm : child) (init : initializer)
      (name : string) (verbose : bool) (version : value) (w : world)
      (entries : list string) (root : string) :
  root_dir w = Some entries \/ (root_dir w = None /\ entries = []) ->
  conflicts_of entries = [] ->
  Path.resolve (process_cwd w) [Some name] = Returned root ->
  createApp npm init name verbose version w
  = match run npm init root (basename root) version verbose (process_cwd w)
            (set_process_cwd root
               (set_root_dir
                  (Some (filter (fun f => negb (is_error_log f)) entries
                           ++ ["package.json"])%list)
                  (set_console
                     (console w
                        ++ [""; "Creating a new Kubernetes app in "
                                  ++ root ++ "."; ""]) w))) with
    | (Returned settled, w') => (Returned (Some settled), w')
    | (Threw e, w') => (Threw e, w')
    end.
Proof.
  intros Hw Hc Hroot.
  unfold createApp. unfold bind at 1, path_resolve at 1. rewrite Hroot.
  unfold bind at 1, ensureDirSync at 1.
  set (w0 := match root_dir w with
             | Some _ => w
             | None => set_root_dir (Some []) w
             end).
  assert (Hw0 : root_dir w0 = Some entries).
  { unfold w0. destruct Hw as [Hw|[Hw ->]]; rewrite Hw;
      [exact Hw | now destruct w]. }
  assert (Hrest : console w0 = console w /\ process_cwd w0 = process_cwd w).
  { unfold w0. destruct (root_dir w); [now split | now destruct w]. }
  destruct Hrest as [Hcon Hcwd].
  unfold bind at 1.
  rewrite (isSafeToCreateProjectIn_spec root name w0 entries Hw0), Hc.
  cbn [negb]. cbv iota.
  unfold bind at 1, console_log at 1.
  unfold bind at 1, console_log at 1.
  unfold bind at 1, writeFileSync_entry at 1. unfold_setters.
  rewrite (no_conflict_no_manifest entries Hc).
  unfold bind at 1, cwd at 1. unfold bind at 1, chdir at 1.
  unfold_setters. rewrite Hcon, Hcwd. unfold Chalk.green.
  assert (Hworld :
    set_process_cwd root
      (set_root_dir
         (Some (filter (fun f => negb (is_error_log f)) entries
                  ++ ["package.json"])%list)
         (set_console
            (((console w ++ [""])
                ++ ["Creating a new Kubernetes app in " ++ root ++ "."])
               ++ [""])
            (set_console
               ((console w ++ [""])
                  ++ ["Creating a new Kubernetes app in " ++ root ++ "."])
               (set_root_dir
                  (Some (filter (fun f => negb (is_error_log f)) entries))
                  (set_console (console w ++ [""]) w0)))))
    = set_process_cwd root
        (set_root_dir
           (Some (filter (fun f => negb (is_error_log f)) entries
                    ++ ["package.json"])%list)
           (set_console
              (console w
                 ++ [""; "Creating a new Kubernetes app in "
                           ++ root ++ "."; ""]) w))).
  { rewrite <- !List.app_assoc. unfold w0.
    destruct (root_dir w); destruct w; reflexivity. }
  rewrite Hworld. unfold bind, ret.
  destruct (run npm init root (basename root) version verbose (process_cwd w)
              _) as [[settled|e] w'];
    reflexivity.
Qed.

(** [then] and [catch] throw only where the promise they are called on
    was never made. *)
Lemma then_throws {A B : Type} (p : M (promise A)) (f : A -> M (promise B))
      (w : world) (e : error) :
  fst (then_ p f w) = Threw e -> then_ p f w = (Threw e, snd (p w))
                                 /\ fst (p w) = Threw e.
Proof.
  unfold then_. destruct (p w) as [[[a|r|u]|e'] w1]; cbn [fst snd].
  - destruct (f a w1) as [[x|e''] w2]; discriminate.
  - discriminate.
  - discriminate.
  - intros [= ->]. now split.
Qed.

Lemma catch_throws {A : Type} (p : M (promise A))
      (h : reason -> M (promise A)) (w : world) (e : error) :
  fst (catch_ p h w) = Threw e -> catch_ p h w = (Threw e, snd (p w))
                                  /\ fst (p w) = Threw e.
Proof.
  unfold catch_. destruct (p w) as [[[a|r|u]|e'] w1]; cbn [fst snd].
  - discriminate.
  - destruct (h r w1) as [[x|e''] w2]; discriminate.
  - discriminate.
  - intros [= ->]. now split.
Qed.

(** When [run] throws, it has printed and done nothing else. *)
Lemma run_throw_frame (npm : child) (init : initializer)
      (root appName : string) (version : value) (verbose : bool)
      (od : string) (w : world) (e : error) :
  fst (run npm init root appName version verbose od w) = Threw e ->
  exists lines,
    run npm init root appName version verbose od w
    = (Threw e, set_console (console w ++ lines) w).
Proof.
  intro H.
  destruct (run npm init root appName version verbose od w) as [o w']
    eqn:Hrun.
  cbn [fst] in H. subst o.
  unfold run in Hrun. unfold bind at 1 in Hrun.
  pose proof (getInstallPackage_pure version od w) as Hpure.
  destruct (getInstallPackage version od w) as [[ref|e'] w0];
    cbn [snd] in Hpure; subst w0.
  - unfold bind at 1, console_log at 1 in Hrun. cbv beta iota in Hrun.
    match type of Hrun with
    | ?t = _ => assert (H : fst t = Threw e) by now rewrite Hrun
    end.
    apply catch_throws in H. destruct H as [Hc H].
    apply then_throws in H. destruct H as [H1 H].
    apply then_throws in H. destruct H as [H2 _].
    destruct (getPackageName_pure_console ref
                (set_console
                   (console w
                      ++ ["Installing packages. This might take a couple of minutes."])
                   w)) as (lines & Hl & _).
    exists ("Installing packages. This might take a couple of minutes."
              :: lines).
    rewrite Hc, H1 in Hrun. cbn [snd] in Hrun. rewrite H2 in Hrun.
    cbn [snd] in Hrun.
    rewrite Hl, set_console_twice, console_set_console, <- List.app_assoc
      in Hrun.
    injection Hrun as <-. reflexivity.
  - injection Hrun as <- <-. exists []. now rewrite set_console_nil.
Qed.

End Preparation.

Section Outcomes.
Import Bootstrap.

(** [path.resolve] of strings returns. *)
Lemma resolve_loop_returns (cwd : string) (l : list string) (acc : string) :
  exists x, Path.resolve_loop cwd (map Some l) acc = Returned x.
Proof.
  revert acc. induction l as [|a l IH]; intro acc; simpl.
  - destruct (truthy cwd); eexists; reflexivity.
  - destruct (truthy a); [|apply IH].
    destruct (Path.isAbsolute a); [eexists; reflexivity | apply IH].
Qed.

Lemma resolve_strings (cwd : string) (l : list string) :
  exists p, Path.resolve cwd (map Some l) = Returned p.
Proof.
  unfold Path.resolve. rewrite <- map_rev.
  destruct (resolve_loop_returns cwd (rev l) "") as [[path abs] Hx].
  rewrite Hx. destruct abs; [eexists; reflexivity|].
  destruct (truthy _); eexists; reflexivity.
Qed.

(** The rollback at the end of the chain, where the root exists. *)
Lemma rollback_outcome (root appName : string) (r : reason) (w : world)
      (l : list string) :
  root_dir w = Some l ->
  exists more w',
    match run_catch root appName r w with
    | (Returned _, w5) => (Returned (Resolved tt), w5)
    | (Threw e, w5) => (Returned (Rejected (Thrown e)), w5)
    end = (Returned (Resolved tt), w')
    /\ console w' = (console (snd (report_failure r w)) ++ more)%list
    /\ exit_code w' = Some 1%Z
    /\ spawned w' = spawned w
    /\ root_dir w'
       = match filter (fun f => negb (is_generated f)) l with
         | [] => None
         | remaining => Some remaining
         end.
Proof.
  intro Hw.
  destruct (run_catch_grows root appName r w l Hw)
    as (more & w' & Hrun & H).
  exists more, w'. now rewrite Hrun.
Qed.

End Outcomes.

Section Failures.
Import Bootstrap.

(** The chain of [run] when the package manager fails. *)
Lemma run_failure_outcome (npm : child) (root appName : string)
      (version : value) (verbose : bool) (od ref : string) (name : value)
      (w w2 : world) (l : list string) :
  getInstallPackage version od w = (Returned ref, w) ->
  getPackageName ref
    (set_console
       (console w
          ++ ["Installing packages. This might take a couple of minutes."])
       w)
  = (Returned (Resolved name), w2) ->
  let args :=
    (["install"; "--save"; "--save-exact"; "--loglevel"; "error"; ref]
       ++ (if verbose then ["--verbose"] else []))%list in
  close_code w "npm" args <> Some 0%Z ->
  npm (root_dir w) = Some l ->
  exists w',
    (forall init : initializer,
        run npm init root appName version verbose od w
        = (Returned (Resolved tt), w'))
    /\ exit_code w' = Some 1%Z
    /\ spawned w' = (spawned w ++ [("npm", args)])%list
    /\ root_dir w'
       = match filter (fun f => negb (is_generated f)) l with
         | [] => None
         | remaining => Some remaining
         end
    /\ In ("  npm " ++ join " " args ++ " has failed.") (console w').
Proof.
  intros Hinstall Hname args Hclose Hnpm.
  destruct (getPackageName_leaves _ _ _ _ Hname) as [lines Hw2].
  set (w3 := set_root_dir (npm (root_dir w2))
               (set_spawned (spawned w2 ++ [("npm", args)]) w2)).
  assert (Hroot : root_dir w3 = Some l).
  { unfold w3. rewrite Hw2. destruct w; exact Hnpm. }
  destruct (rollback_outcome root appName
              (CommandFailure ("npm " ++ join " " args)) w3 l Hroot)
    as (more & w' & Hroll & Hcon & Hexit & Hsp & Hrd).
  exists w'. split; [|split; [exact Hexit | split; [|split; [exact Hrd|]]]].
  - intro init.
    rewrite (run_spec npm init root appName version verbose od ref name
               w w2 Hinstall Hname).
    fold args. fold w3.
    destruct (close_code w "npm" args) as [[| |]|];
      [now contradiction Hclose | exact Hroll..].
  - rewrite Hsp. unfold w3. rewrite Hw2. now destruct w.
  - rewrite Hcon.
    change ("npm " ++ join " " args) with (String "n" ("pm " ++ join " " args)).
    rewrite report_failure_command. cbn [snd]. rewrite console_set_console.
    apply in_or_app. left. apply in_or_app. right.
    right. right. left. reflexivity.
Qed.

(** The chain of [run] when the package manager succeeds. *)
Lemma run_success_outcome (npm : child) (init : initializer)
      (root appName : string) (version : value) (verbose : bool)
      (od ref n : string) (w w2 : world) :
  getInstallPackage version od w = (Returned ref, w) ->
  getPackageName ref
    (set_console
       (console w
          ++ ["Installing packages. This might take a couple of minutes."])
       w)
  = (Returned (Resolved (Some n)), w2) ->
  let args :=
    (["install"; "--save"; "--save-exact"; "--loglevel"; "error"; ref]
       ++ (if verbose then ["--verbose"] else []))%list in
  let w3 :=
    set_root_dir (npm (root_dir w))
      (set_spawned (spawned w ++ [("npm", args)]) w2) in
  close_code w "npm" args = Some 0%Z ->
  exists scriptsPath,
    Path.resolve (process_cwd w)
      [Some (process_cwd w); Some "node_modules"; Some n; Some "scripts";
       Some "init.js"] = Returned scriptsPath
    /\ run npm init root appName version verbose od w
       = match init scriptsPath root appName verbose od w3 with
         | (Returned _, w4) => (Returned (Resolved tt), w4)
         | (Threw e, w4) =>
             match run_catch root appName (Thrown e) w4 with
             | (Returned _, w5) => (Returned (Resolved tt), w5)
             | (Threw e', w5) => (Returned (Rejected (Thrown e')), w5)
             end
         end.
Proof.
  intros Hinstall Hname args w3 Hclose.
  destruct (resolve_strings (process_cwd w)
              [process_cwd w; "node_modules"; n; "scripts"; "init.js"])
    as [scriptsPath Hpath].
  cbn [map] in Hpath.
  exists scriptsPath. split; [exact Hpath|].
  rewrite (run_spec npm init root appName version verbose od ref (Some n)
             w w2 Hinstall Hname).
  fold args. rewrite Hclose.
  match goal with
  | |- context [Path.resolve ?a ?b] =>
      replace (Path.resolve a b) with (@Returned string scriptsPath)
        by (symmetry; exact Hpath)
  end.
  destruct (getPackageName_leaves _ _ _ _ Hname) as [lines Hw2].
  assert (Hw3 : set_root_dir (npm (root_dir w2))
                  (set_spawned (spawned w2 ++ [("npm", args)]) w2) = w3).
  { unfold w3. rewrite Hw2. now destruct w. }
  now rewrite Hw3.
Qed.

End Failures.

(** C5: the code where it holds and where it fails.  When the package
    manager closes with a code other than 0, the failure reaches the
    handler that [run] passes to [catch], and the initializer is not
    called: from what the package manager left in the root, [run] deletes
    the entries named [package.json] and [node_modules] and no other; if
    nothing remains it deletes the root and makes the parent of the root
    the working directory, otherwise the root keeps exactly the remaining
    entries and the working directory stays; the process exits with code
    1.  But the resolution of the version and the extraction of the name
    are called before the promise chain exists.  For the version [file:]
    the resolution throws, and for a git address without [.git] the
    extraction throws: [run] throws, the handler does not run, the root
    keeps the manifest and whatever it held, the working directory stays
    and [process.exit] is not called. *)
Theorem run_rollback :
  forall (npm : Bootstrap.child) (init : Bootstrap.initializer)
         (root appName : string) (verbose : bool) (od : string) (w : world),
    (forall (version : value) (ref : string) (name : value) (w2 : world)
            (l : list string),
        getInstallPackage version od w = (Returned ref, w) ->
        getPackageName ref
          (set_console
             (console w
                ++ ["Installing packages. This might take a couple of minutes."])
             w)
        = (Returned (Resolved name), w2) ->
        close_code w "npm"
          (["install"; "--save"; "--save-exact"; "--loglevel"; "error"; ref]
             ++ (if verbose then ["--verbose"] else []))%list
        <> Some 0%Z ->
        npm (root_dir w) = Some l ->
        let remaining := filter (fun f => negb (is_generated f)) l in
        let w' :=
          snd (Bootstrap.run npm init root appName version verbose od w) in
        fst (Bootstrap.run npm init root appName version verbose od w)
        = Returned (Resolved tt)
        /\ exit_code w' = Some 1%Z
        /\ (remaining = [] ->
            root_dir w' = None
            /\ Path.resolve (process_cwd w) [Some root; Some ".."]
               = Returned (process_cwd w'))
        /\ (remaining <> [] ->
            root_dir w' = Some remaining /\ process_cwd w' = process_cwd w))
    /\ Bootstrap.run npm init root appName (Some "file:") verbose od w
       = (Threw (TypeError "Path must be a string. Received undefined"), w)
    /\ Bootstrap.run npm init root appName
         (Some "git+https://github.com/mycompany/k8s-scripts") verbose od w
       = (Threw (TypeError "Cannot read property '1' of null"),
          set_console
            (console w
               ++ ["Installing packages. This might take a couple of minutes."])
            w).
Proof.
  intros npm init root appName verbose od w.
  split; [|split; reflexivity].
  intros version ref name w2 l Hinstall Hname Hclose Hnpm remaining w'.
  destruct (getPackageName_leaves _ _ _ _ Hname) as [lines Hw2].
  set (args :=
         (["install"; "--save"; "--save-exact"; "--loglevel"; "error"; ref]
            ++ (if verbose then ["--verbose"] else []))%list) in *.
  set (w3 := set_root_dir (npm (root_dir w2))
               (set_spawned (spawned w2 ++ [("npm", args)]) w2)).
  assert (Hroot : root_dir w3 = Some l).
  { unfold w3. rewrite Hw2. destruct w; exact Hnpm. }
  assert (Hcwd : process_cwd w3 = process_cwd w).
  { unfold w3. rewrite Hw2. now destruct w. }
  destruct (run_catch_handler root appName
              (CommandFailure ("npm " ++ join " " args)) w3 l Hroot)
    as (Hret & Hexit & Hempty & Hrest).
  assert (Hrun :
    Bootstrap.run npm init root appName version verbose od w
    = (Returned (Resolved tt),
       snd (run_catch root appName
              (CommandFailure ("npm " ++ join " " args)) w3))).
  { rewrite (run_spec npm init root appName version verbose od ref name
               w w2 Hinstall Hname).
    fold args. fold w3.
    destruct (run_catch root appName _ w3) as [[[]|e] w5];
      [|discriminate Hret].
    destruct (close_code w "npm" args) as [[| |]|];
      [now contradiction Hclose | reflexivity..]. }
  unfold w'. rewrite Hrun. cbn [fst snd]. rewrite <- Hcwd.
  split; [reflexivity | split; [exact Hexit | split; assumption]].
Qed.

(** A failed install right after the manifest write, in a root that holds
    a repository: the manifest and the installed dependencies go, the
    repository and the log of the package manager stay, and the process
    exits with code 1. *)
Lemma run_rollback_witness :
  let w' :=
    snd (Bootstrap.run
           (fun _ => Some [".git"; "package.json"; "node_modules";
                           "npm-debug.log"])
           Shape.idle "/home/user/my-k8s-app" "my-k8s-app" None false
           "/home/user" (Scenario.offline [".git"; "package.json"]
                           (Some 1%Z))) in
  exit_code w' = Some 1%Z
  /\ root_dir w' = Some [".git"; "npm-debug.log"]
  /\ process_cwd w' = "/home/user/my-k8s-app".
Proof.
  destruct (proj1 (run_rollback
                     (fun _ => Some [".git"; "package.json"; "node_modules";
                                     "npm-debug.log"])
                     Shape.idle "/home/user/my-k8s-app" "my-k8s-app" false
                     "/home/user"
                     (Scenario.offline [".git"; "package.json"] (Some 1%Z)))
              None "k8s-scripts" (Some "k8s-scripts")
              (set_console
                 ["Installing packages. This might take a couple of minutes."]
                 (Scenario.offline [".git"; "package.json"] (Some 1%Z)))
              [".git"; "package.json"; "node_modules"; "npm-debug.log"]
              eq_refl eq_refl ltac:(discriminate) eq_refl)
    as (_ & Hexit & _ & Hrest).
  split; [exact Hexit|]. apply Hrest. discriminate.
Defined.

(** X18.  When the project root holds a conflicting entry, [createApp]
    ends the process with exit code 1 before it writes anything: the
    listing of the root is what it was, the working directory has not
    moved, and no package manager was started. *)
Theorem createApp_exits_on_conflict :
  forall (npm : Bootstrap.child) (init : Bootstrap.initializer)
         (name : string) (verbose : bool) (version : value) (w : world)
         (entries : list string),
    root_dir w = Some entries ->
    conflicts_of entries <> [] ->
    let w' := snd (Bootstrap.createApp npm init name verbose version w) in
    fst (Bootstrap.createApp npm init name verbose version w)
    = Returned None
    /\ exit_code w' = Some 1%Z
    /\ root_dir w' = Some entries
    /\ process_cwd w' = process_cwd w
    /\ spawned w' = spawned w.
Proof.
  intros npm init name verbose version w entries Hw Hc w'.
  destruct (resolve_one_string (process_cwd w) name) as [root Hroot].
  unfold w'.
  rewrite (createApp_conflict_spec npm init name verbose version w entries
             root Hw Hc Hroot).
  rewrite (isSafeToCreateProjectIn_spec root name w entries Hw).
  destruct (conflicts_of entries) as [|c cs]; [now contradiction Hc|].
  cbn [fst snd]. destruct w. unfold_setters.
  cbn [root_dir] in Hw. now rewrite Hw.
Qed.

Lemma createApp_exits_on_conflict_witness :
  let w' := snd (Bootstrap.createApp (fun l => l) Shape.idle "my-k8s-app"
                   false None
                   (Scenario.offline [".git"; "package.json"] (Some 0%Z))) in
  fst (Bootstrap.createApp (fun l => l) Shape.idle "my-k8s-app" false None
         (Scenario.offline [".git"; "package.json"] (Some 0%Z)))
  = Returned None
  /\ exit_code w' = Some 1%Z
  /\ root_dir w' = Some [".git"; "package.json"]
  /\ process_cwd w'
     = process_cwd (Scenario.offline [".git"; "package.json"] (Some 0%Z))
  /\ spawned w'
     = spawned (Scenario.offline [".git"; "package.json"] (Some 0%Z)).
Proof.
  apply (createApp_exits_on_conflict (fun l => l) Shape.idle "my-k8s-app"
           false None
           (Scenario.offline [".git"; "package.json"] (Some 0%Z))
           [".git"; "package.json"]);
    [reflexivity | discriminate].
Defined.

(** X19.  When [run] throws, it has printed and done nothing else: no
    rollback has taken place, no process was started and [process.exit]
    was not called.  It throws when the resolution of the version or the
    extraction of the name throws, outside the promise chain. *)
Theorem run_throws_untouched :
  forall (npm : Bootstrap.child) (init : Bootstrap.initializer)
         (root appName : string) (version : value) (verbose : bool)
         (od : string) (w : world) (e : error),
    fst (Bootstrap.run npm init root appName version verbose od w)
    = Threw e ->
    exists lines,
      Bootstrap.run npm init root appName version verbose od w
      = (Threw e, set_console (console w ++ lines) w).
Proof.
  intros npm init root appName version verbose od w e.
  apply run_throw_frame.
Qed.

Lemma run_throws_untouched_witness :
  exists lines,
    Bootstrap.run (fun l => l) Shape.idle "/home/user/my-k8s-app"
      "my-k8s-app" (Some "git+https://github.com/mycompany/k8s-scripts")
      false "/home/user" (Scenario.offline ["package.json"] (Some 0%Z))
    = (Threw (TypeError "Cannot read property '1' of null"),
       set_console
         (console (Scenario.offline ["package.json"] (Some 0%Z)) ++ lines)
         (Scenario.offline ["package.json"] (Some 0%Z))).
Proof.
  apply (run_throws_untouched (fun l => l) Shape.idle
           "/home/user/my-k8s-app" "my-k8s-app"
           (Some "git+https://github.com/mycompany/k8s-scripts") false
           "/home/user" (Scenario.offline ["package.json"] (Some 0%Z))).
  vm_compute. reflexivity.
Defined.

(** X20.  When [createApp] throws after the guard has passed, the
    manifest it wrote stays behind: the root lists what the guard kept and
    [package.json], the process stands in the root, [process.exit] was
    not called and no package manager was started. *)
Theorem createApp_throw_leaves_manifest :
  forall (npm : Bootstrap.child) (init : Bootstrap.initializer)
         (name : string) (verbose : bool) (version : value) (w : world)
         (entries : list string) (e : error),
    root_dir w = Some entries \/ (root_dir w = None /\ entries = []) ->
    conflicts_of entries = [] ->
    fst (Bootstrap.createApp npm init name verbose version w) = Threw e ->
    let w' := snd (Bootstrap.createApp npm init name verbose version w) in
    root_dir w'
    = Some (filter (fun f => negb (is_error_log f)) entries
              ++ ["package.json"])%list
    /\ Path.resolve (process_cwd w) [Some name] = Returned (process_cwd w')
    /\ exit_code w' = exit_code w
    /\ spawned w' = spawned w.
Proof.
  intros npm init name verbose version w entries e Hw Hc Hthrow w'.
  destruct (resolve_one_string (process_cwd w) name) as [root Hroot].
  unfold w'. revert Hthrow.
  rewrite (createApp_proceeds npm init name verbose version w entries root
             Hw Hc Hroot).
  match goal with
  | |- context [Bootstrap.run npm init root ?a version verbose ?od ?w1] =>
      destruct (Bootstrap.run npm init root a version verbose od w1)
        as [[settled|e'] w2] eqn:Hrun
  end; cbn [fst snd]; [discriminate|]. intros _.
  match type of Hrun with
  | ?t = _ => assert (H : fst t = Threw e') by now rewrite Hrun
  end.
  apply run_throw_frame in H. destruct H as [lines H].
  rewrite H in Hrun. injection Hrun as <-.
  rewrite Hroot. destruct w. unfold_setters. repeat split; reflexivity.
Qed.

Lemma createApp_throw_leaves_manifest_witness :
  let w' := snd (Bootstrap.createApp (fun l => l) Shape.idle "my-k8s-app"
                   false (Some "file:")
                   (Scenario.offline [] (Some 0%Z))) in
  root_dir w' = Some ["package.json"]
  /\ Path.resolve (process_cwd (Scenario.offline [] (Some 0%Z)))
       [Some "my-k8s-app"] = Returned (process_cwd w')
  /\ exit_code w' = None
  /\ spawned w' = [].
Proof.
  apply (createApp_throw_leaves_manifest (fun l => l) Shape.idle
           "my-k8s-app" false (Some "file:")
           (Scenario.offline [] (Some 0%Z)) []
           (TypeError "Path must be a string. Received undefined"));
    [now left | reflexivity | vm_compute; reflexivity].
Defined.

(** X21.  When the package manager closes with a code other than 0, the
    initializer is not called, whatever it is, and the rollback runs on
    what the package manager left in the root: the failure line names the
    command, the generated files are deleted, the root with them if
    nothing else remains, and the exit code is 1. *)
Theorem run_install_failure :
  forall (npm : Bootstrap.child) (root appName : string) (version : value)
         (verbose : bool) (od ref : string) (name : value) (w w2 : world)
         (l : list string),
    getInstallPackage version od w = (Returned ref, w) ->
    getPackageName ref
      (set_console
         (console w
            ++ ["Installing packages. This might take a couple of minutes."])
         w)
    = (Returned (Resolved name), w2) ->
    let args :=
      (["install"; "--save"; "--save-exact"; "--loglevel"; "error"; ref]
         ++ (if verbose then ["--verbose"] else []))%list in
    close_code w "npm" args <> Some 0%Z ->
    npm (root_dir w) = Some l ->
    exists w',
      (forall init : Bootstrap.initializer,
          Bootstrap.run npm init root appName version verbose od w
          = (Returned (Resolved tt), w'))
      /\ exit_code w' = Some 1%Z
      /\ spawned w' = (spawned w ++ [("npm", args)])%list
      /\ root_dir w'
         = match filter (fun f => negb (is_generated f)) l with
           | [] => None
           | remaining => Some remaining
           end
      /\ In ("  npm " ++ join " " args ++ " has failed.") (console w').
Proof.
  intros npm root appName version verbose od ref name w w2 l.
  apply run_failure_outcome.
Qed.

Lemma run_install_failure_witness :
  exists w',
    (forall init : Bootstrap.initializer,
        Bootstrap.run
          (fun _ => Some ["package.json"; "node_modules"; "npm-debug.log"])
          init "/home/user/my-k8s-app" "my-k8s-app" (Some "1.2.3") true
          "/home/user" (Scenario.offline ["package.json"] (Some 1%Z))
        = (Returned (Resolved tt), w'))
    /\ exit_code w' = Some 1%Z
    /\ spawned w'
       = [("npm", ["install"; "--save"; "--save-exact"; "--loglevel";
                   "error"; "k8s-scripts@1.2.3"; "--verbose"])]
    /\ root_dir w' = Some ["npm-debug.log"]
    /\ In "  npm install --save --save-exact --loglevel error k8s-scripts@1.2.3 --verbose has failed."
          (console w').
Proof.
  apply (run_install_failure
           (fun _ => Some ["package.json"; "node_modules"; "npm-debug.log"])
           "/home/user/my-k8s-app" "my-k8s-app" (Some "1.2.3") true
           "/home/user" "k8s-scripts@1.2.3" (Some "k8s-scripts")
           (Scenario.offline ["package.json"] (Some 1%Z))
           (set_console
              ["Installing packages. This might take a couple of minutes."]
              (Scenario.offline ["package.json"] (Some 1%Z)))
           ["package.json"; "node_modules"; "npm-debug.log"]);
    [reflexivity | reflexivity | discriminate | reflexivity].
Defined.

(** X22.  When the package manager closes with code 0 and the package has
    a name, [run] calls the initializer once, with the path of
    [scripts/init.js] of that package under [node_modules] of the working
    directory, the root, the name of the app, the verbose flag and the
    original directory, in the world the package manager left.  When the
    initializer returns, the chain is fulfilled and [run] adds nothing to
    what the initializer did. *)
Theorem run_hands_over :
  forall (npm : Bootstrap.child) (init : Bootstrap.initializer)
         (root appName : string) (version : value) (verbose : bool)
         (od ref n : string) (w w2 w4 : world),
    getInstallPackage version od w = (Returned ref, w) ->
    getPackageName ref
      (set_console
         (console w
            ++ ["Installing packages. This might take a couple of minutes."])
         w)
    = (Returned (Resolved (Some n)), w2) ->
    let args :=
      (["install"; "--save"; "--save-exact"; "--loglevel"; "error"; ref]
         ++ (if verbose then ["--verbose"] else []))%list in
    let w3 :=
      set_root_dir (npm (root_dir w))
        (set_spawned (spawned w ++ [("npm", args)]) w2) in
    close_code w "npm" args = Some 0%Z ->
    exists scriptsPath,
      Path.resolve (process_cwd w)
        [Some (process_cwd w); Some "node_modules"; Some n; Some "scripts";
         Some "init.js"] = Returned scriptsPath
      /\ (init scriptsPath root appName verbose od w3 = (Returned tt, w4) ->
          Bootstrap.run npm init root appName version verbose od w
          = (Returned (Resolved tt), w4)).
Proof.
  intros npm init root appName version verbose od ref n w w2 w4
         Hinstall Hname args w3 Hclose.
  destruct (run_success_outcome npm init root appName version verbose od
              ref n w w2 Hinstall Hname Hclose) as (scriptsPath & Hp & Hrun).
  exists scriptsPath. split; [exact Hp|].
  intro Hinit. fold args w3 in Hrun. now rewrite Hrun, Hinit.
Qed.

Lemma run_hands_over_witness :
  exists scriptsPath,
    Path.resolve "/home/user/my-k8s-app"
      [Some "/home/user/my-k8s-app"; Some "node_modules";
       Some "k8s-scripts"; Some "scripts"; Some "init.js"]
    = Returned scriptsPath
    /\ (Shape.idle scriptsPath "/home/user/my-k8s-app" "my-k8s-app" false
          "/home/user"
          (set_root_dir (Some ["package.json"; "node_modules"])
             (set_spawned
                [("npm", ["install"; "--save"; "--save-exact"; "--loglevel";
                          "error"; "k8s-scripts"])]
                (set_console
                   ["Installing packages. This might take a couple of minutes."]
                   (Scenario.offline ["package.json"] (Some 0%Z)))))
        = (Returned tt,
           set_root_dir (Some ["package.json"; "node_modules"])
             (set_spawned
                [("npm", ["install"; "--save"; "--save-exact"; "--loglevel";
                          "error"; "k8s-scripts"])]
                (set_console
                   ["Installing packages. This might take a couple of minutes."]
                   (Scenario.offline ["package.json"] (Some 0%Z))))) ->
        Bootstrap.run (fun _ => Some ["package.json"; "node_modules"])
          Shape.idle "/home/user/my-k8s-app" "my-k8s-app" None false
          "/home/user" (Scenario.offline ["package.json"] (Some 0%Z))
        = (Returned (Resolved tt),
           set_root_dir (Some ["package.json"; "node_modules"])
             (set_spawned
                [("npm", ["install"; "--save"; "--save-exact"; "--loglevel";
                          "error"; "k8s-scripts"])]
                (set_console
                   ["Installing packages. This might take a couple of minutes."]
                   (Scenario.offline ["package.json"] (Some 0%Z)))))).
Proof.
  apply (run_hands_over (fun _ => Some ["package.json"; "node_modules"])
           Shape.idle "/home/user/my-k8s-app" "my-k8s-app" None false
           "/home/user" "k8s-scripts" "k8s-scripts"
           (Scenario.offline ["package.json"] (Some 0%Z))
           (set_console
              ["Installing packages. This might take a couple of minutes."]
              (Scenario.offline ["package.json"] (Some 0%Z))));
    reflexivity.
Defined.

(** X23.  When the initializer throws, the rollback runs with its error:
    the report says that the error is unexpected and prints it, the
    generated files are deleted although the package manager had
    succeeded, and the exit code is 1. *)
Theorem run_initializer_throws :
  forall (npm : Bootstrap.child) (init : Bootstrap.initializer)
         (root appName : string) (version : value) (verbose : bool)
         (od ref n : string) (w w2 w4 : world) (e : error)
         (l : list string),
    getInstallPackage version od w = (Returned ref, w) ->
    getPackageName ref
      (set_console
         (console w
            ++ ["Installing packages. This might take a couple of minutes."])
         w)
    = (Returned (Resolved (Some n)), w2) ->
    let args :=
      (["install"; "--save"; "--save-exact"; "--loglevel"; "error"; ref]
         ++ (if verbose then ["--verbose"] else []))%list in
    let w3 :=
      set_root_dir (npm (root_dir w))
        (set_spawned (spawned w ++ [("npm", args)]) w2) in
    close_code w "npm" args = Some 0%Z ->
    (forall scriptsPath,
        Path.resolve (process_cwd w)
          [Some (process_cwd w); Some "node_modules"; Some n;
           Some "scripts"; Some "init.js"] = Returned scriptsPath ->
        init scriptsPath root appName verbose od w3 = (Threw e, w4)) ->
    root_dir w4 = Some l ->
    exists w',
      Bootstrap.run npm init root appName version verbose od w
      = (Returned (Resolved tt), w')
      /\ exit_code w' = Some 1%Z
      /\ root_dir w'
         = match filter (fun f => negb (is_generated f)) l with
           | [] => None
           | remaining => Some remaining
           end
      /\ In "Unexpected error. Please report it as a bug:" (console w')
      /\ In (inspect (Thrown e)) (console w').
Proof.
  intros npm init root appName version verbose od ref n w w2 w4 e l
         Hinstall Hname args w3 Hclose Hinit Hroot.
  destruct (run_success_outcome npm init root appName version verbose od
              ref n w w2 Hinstall Hname Hclose) as (scriptsPath & Hp & Hrun).
  fold args w3 in Hrun. rewrite (Hinit scriptsPath Hp) in Hrun.
  destruct (rollback_outcome root appName (Thrown e) w4 l Hroot)
    as (more & w' & Hroll & Hcon & Hexit & _ & Hrd).
  exists w'. rewrite Hrun, Hroll.
  split; [reflexivity | split; [exact Hexit | split; [exact Hrd|]]].
  rewrite Hcon, report_failure_thrown. cbn [snd].
  rewrite console_set_console.
  split; apply in_or_app; left; apply in_or_app; right.
  - right. right. left. reflexivity.
  - right. right. right. left. reflexivity.
Qed.

Lemma run_initializer_throws_witness :
  exists w',
    Bootstrap.run (fun _ => Some ["package.json"; "node_modules"])
      Shape.broken "/home/user/my-k8s-app" "my-k8s-app" None false
      "/home/user" (Scenario.offline ["package.json"] (Some 0%Z))
    = (Returned (Resolved tt), w')
    /\ exit_code w' = Some 1%Z
    /\ root_dir w' = None
    /\ In "Unexpected error. Please report it as a bug:" (console w')
    /\ In (inspect (Thrown (Error "init failed"))) (console w').
Proof.
  apply (run_initializer_throws
           (fun _ => Some ["package.json"; "node_modules"])
           Shape.broken "/home/user/my-k8s-app" "my-k8s-app" None false
           "/home/user" "k8s-scripts" "k8s-scripts"
           (Scenario.offline ["package.json"] (Some 0%Z))
           (set_console
              ["Installing packages. This might take a couple of minutes."]
              (Scenario.offline ["package.json"] (Some 0%Z)))
           (set_root_dir (Some ["package.json"; "node_modules"])
              (set_spawned
                 [("npm", ["install"; "--save"; "--save-exact"; "--loglevel";
                           "error"; "k8s-scripts"])]
                 (set_console
                    ["Installing packages. This might take a couple of minutes."]
                    (Scenario.offline ["package.json"] (Some 0%Z)))))
           (Error "init failed") ["package.json"; "node_modules"]);
    reflexivity.
Defined.

(** X24.  When the manifest that names the package declares no name, the
    package is installed and then rolled back: the path of the initializer
    cannot be built from [undefined], the initializer is not called, the
    generated files are deleted and the exit code is 1. *)
Theorem run_nameless_manifest :
  forall (npm : Bootstrap.child) (root appName : string) (version : value)
         (verbose : bool) (od ref : string) (w w2 : world)
         (l : list string),
    getInstallPackage version od w = (Returned ref, w) ->
    getPackageName ref
      (set_console
         (console w
            ++ ["Installing packages. This might take a couple of minutes."])
         w)
    = (Returned (Resolved None), w2) ->
    let args :=
      (["install"; "--save"; "--save-exact"; "--loglevel"; "error"; ref]
         ++ (if verbose then ["--verbose"] else []))%list in
    close_code w "npm" args = Some 0%Z ->
    npm (root_dir w) = Some l ->
    exists w',
      (forall init : Bootstrap.initializer,
          Bootstrap.run npm init root appName version verbose od w
          = (Returned (Resolved tt), w'))
      /\ exit_code w' = Some 1%Z
      /\ spawned w' = (spawned w ++ [("npm", args)])%list
      /\ root_dir w'
         = match filter (fun f => negb (is_generated f)) l with
           | [] => None
           | remaining => Some remaining
           end
      /\ In "TypeError: Path must be a string. Received undefined"
            (console w').
Proof.
  intros npm root appName version verbose od ref w w2 l Hinstall Hname args
         Hclose Hnpm.
  destruct (getPackageName_leaves _ _ _ _ Hname) as [lines Hw2].
  set (w3 := set_root_dir (npm (root_dir w2))
               (set_spawned (spawned w2 ++ [("npm", args)]) w2)).
  assert (Hroot : root_dir w3 = Some l).
  { unfold w3. rewrite Hw2. destruct w; exact Hnpm. }
  destruct (rollback_outcome root appName (Thrown Path.not_a_string) w3 l
              Hroot)
    as (more & w' & Hroll & Hcon & Hexit & Hsp & Hrd).
  exists w'. split; [|split; [exact Hexit | split; [|split; [exact Hrd|]]]].
  - intro init.
    rewrite (run_spec npm init root appName version verbose od ref None
               w w2 Hinstall Hname).
    fold args. fold w3. rewrite Hclose. exact Hroll.
  - rewrite Hsp. unfold w3. rewrite Hw2. now destruct w.
  - rewrite Hcon, report_failure_thrown. cbn [snd].
    rewrite console_set_console.
    apply in_or_app. left. apply in_or_app. right.
    right. right. right. left. reflexivity.
Qed.

Lemma run_nameless_manifest_witness :
  exists w',
    (forall init : Bootstrap.initializer,
        Bootstrap.run (fun _ => Some ["package.json"; "node_modules"]) init
          "/home/user/my-k8s-app" "my-k8s-app"
          (Some "file:../my-k8s-scripts") false "/home/user/work"
          Shape.nameless
        = (Returned (Resolved tt), w'))
    /\ exit_code w' = Some 1%Z
    /\ spawned w'
       = [("npm", ["install"; "--save"; "--save-exact"; "--loglevel";
                   "error"; "file:/home/user/my-k8s-scripts"])]
    /\ root_dir w' = None
    /\ In "TypeError: Path must be a string. Received undefined"
          (console w').
Proof.
  apply (run_nameless_manifest
           (fun _ => Some ["package.json"; "node_modules"])
           "/home/user/my-k8s-app" "my-k8s-app"
           (Some "file:../my-k8s-scripts") false "/home/user/work"
           "file:/home/user/my-k8s-scripts" Shape.nameless
           (set_console
              ["Installing packages. This might take a couple of minutes."]
              Shape.nameless)
           ["package.json"; "node_modules"]);
    reflexivity.
Defined.

(** X25.  From start to end, with the default scripts package: when the
    guard passes and the package manager fails, [createApp] ends with exit
    code 1 and the rollback has removed [package.json] and [node_modules]
    from what the package manager left; the root itself is removed when
    nothing else is left, as in a directory that [createApp] created. *)
Theorem createApp_failed_install :
  forall (npm : Bootstrap.child) (init : Bootstrap.initializer)
         (name : string) (verbose : bool) (w : world)
         (entries l : list string),
    root_dir w = Some entries \/ (root_dir w = None /\ entries = []) ->
    conflicts_of entries = [] ->
    let args :=
      (["install"; "--save"; "--save-exact"; "--loglevel"; "error";
        "k8s-scripts"] ++ (if verbose then ["--verbose"] else []))%list in
    close_code w "npm" args <> Some 0%Z ->
    npm (Some (filter (fun f => negb (is_error_log f)) entries
                 ++ ["package.json"])%list) = Some l ->
    let w' := snd (Bootstrap.createApp npm init name verbose None w) in
    fst (Bootstrap.createApp npm init name verbose None w)
    = Returned (Some (Resolved tt))
    /\ exit_code w' = Some 1%Z
    /\ spawned w' = (spawned w ++ [("npm", args)])%list
    /\ root_dir w'
       = match filter (fun f => negb (is_generated f)) l with
         | [] => None
         | remaining => Some remaining
         end.
Proof.
  intros npm init name verbose w entries l Hw Hc args Hclose Hnpm w'.
  destruct (resolve_one_string (process_cwd w) name) as [root Hroot].
  unfold w'.
  rewrite (createApp_proceeds npm init name verbose None w entries root
             Hw Hc Hroot).
  set (w1 := set_process_cwd root _).
  destruct (run_failure_outcome npm root (Bootstrap.basename root) None
              verbose (process_cwd w) "k8s-scripts" (Some "k8s-scripts") w1
              (set_console
                 (console w1
                    ++ ["Installing packages. This might take a couple of minutes."])
                 w1) l)
    as (w2 & Hrun & Hexit & Hsp & Hrd & _).
  - reflexivity.
  - apply getPackageName_last_branch; reflexivity.
  - fold args. unfold w1. now destruct w.
  - unfold w1. now destruct w.
  - rewrite (Hrun init). cbn [fst snd].
    split; [reflexivity | split; [exact Hexit | split; [|exact Hrd]]].
    rewrite Hsp. unfold w1. now destruct w.
Qed.

Lemma createApp_failed_install_witness :
  let w' := snd (Bootstrap.createApp
                   (fun _ => Some ["package.json"; "node_modules"])
                   Shape.idle "my-k8s-app" false None
                   (Shape.fresh (Some 1%Z))) in
  fst (Bootstrap.createApp
         (fun _ => Some ["package.json"; "node_modules"])
         Shape.idle "my-k8s-app" false None (Shape.fresh (Some 1%Z)))
  = Returned (Some (Resolved tt))
  /\ exit_code w' = Some 1%Z
  /\ spawned w'
     = [("npm", ["install"; "--save"; "--save-exact"; "--loglevel"; "error";
                 "k8s-scripts"])]
  /\ root_dir w' = None.
Proof.
  apply (createApp_failed_install
           (fun _ => Some ["package.json"; "node_modules"])
           Shape.idle "my-k8s-app" false (Shape.fresh (Some 1%Z)) []
           ["package.json"; "node_modules"]);
    [right; split; reflexivity | reflexivity | discriminate | reflexivity].
Defined.

(** X26.  From start to end, with the default scripts package: when the
    guard passes and the package manager succeeds, [createApp] calls the
    initializer with the path of [scripts/init.js] of [k8s-scripts] under
    [node_modules] of the root, the resolved root, its last segment as the
    name of the app, the verbose flag, and the directory in which the
    process started; by then the process stands in the root.  When the
    initializer returns, [createApp] adds nothing to what it did. *)
Theorem createApp_hands_over :
  forall (npm : Bootstrap.child) (init : Bootstrap.initializer)
         (name root : string) (verbose : bool) (w w4 : world)
         (entries : list string),
    root_dir w = Some entries \/ (root_dir w = None /\ entries = []) ->
    conflicts_of entries = [] ->
    Path.resolve (process_cwd w) [Some name] = Returned root ->
    let args :=
      (["install"; "--save"; "--save-exact"; "--loglevel"; "error";
        "k8s-scripts"] ++ (if verbose then ["--verbose"] else []))%list in
    let w3 :=
      set_root_dir
        (npm (Some (filter (fun f => negb (is_error_log f)) entries
                      ++ ["package.json"])%list))
        (set_spawned (spawned w ++ [("npm", args)])
           (set_process_cwd root
              (set_console
                 (console w
                    ++ [""; "Creating a new Kubernetes app in "
                              ++ root ++ "."; "";
                        "Installing packages. This might take a couple of minutes."])
                 w))) in
    close_code w "npm" args = Some 0%Z ->
    exists scriptsPath,
      Path.resolve root
        [Some root; Some "node_modules"; Some "k8s-scripts"; Some "scripts";
         Some "init.js"] = Returned scriptsPath
      /\ process_cwd w3 = root
      /\ (init scriptsPath root (Bootstrap.basename root) verbose
               (process_cwd w) w3 = (Returned tt, w4) ->
          Bootstrap.createApp npm init name verbose None w
          = (Returned (Some (Resolved tt)), w4)).
Proof.
  intros npm init name root verbose w w4 entries Hw Hc Hroot args w3 Hclose.
  rewrite (createApp_proceeds npm init name verbose None w entries root
             Hw Hc Hroot).
  set (w1 := set_process_cwd root _).
  destruct (run_success_outcome npm init root (Bootstrap.basename root) None
              verbose (process_cwd w) "k8s-scripts" "k8s-scripts" w1
              (set_console
                 (console w1
                    ++ ["Installing packages. This might take a couple of minutes."])
                 w1))
    as (scriptsPath & Hp & Hrun).
  - reflexivity.
  - apply getPackageName_last_branch; reflexivity.
  - fold args. unfold w1. now destruct w.
  - exists scriptsPath.
    assert (Hcwd : process_cwd w1 = root) by (unfold w1; now destruct w).
    rewrite Hcwd in Hp.
    split; [exact Hp | split; [unfold w3; now destruct w|]].
    intro Hinit. rewrite Hrun. fold args.
    assert (Hw3 :
      set_root_dir (npm (root_dir w1))
        (set_spawned (spawned w1 ++ [("npm", args)])
           (set_console
              (console w1
                 ++ ["Installing packages. This might take a couple of minutes."])
              w1)) = w3).
    { unfold w3, w1. destruct w. unfold_setters.
      now rewrite <- List.app_assoc. }
    rewrite Hw3, Hinit. reflexivity.
Qed.

Lemma createApp_hands_over_witness :
  exists scriptsPath,
    Path.resolve "/home/user/my-k8s-app/my-k8s-app"
      [Some "/home/user/my-k8s-app/my-k8s-app"; Some "node_modules";
       Some "k8s-scripts"; Some "scripts"; Some "init.js"]
    = Returned scriptsPath
    /\ process_cwd
         (set_root_dir (Some ["package.json"; "node_modules"])
            (set_spawned
               [("npm", ["install"; "--save"; "--save-exact"; "--loglevel";
                         "error"; "k8s-scripts"])]
               (set_process_cwd "/home/user/my-k8s-app/my-k8s-app"
                  (set_console
                     [""; "Creating a new Kubernetes app in /home/user/my-k8s-app/my-k8s-app.";
                      "";
                      "Installing packages. This might take a couple of minutes."]
                     (Shape.fresh (Some 0%Z))))))
       = "/home/user/my-k8s-app/my-k8s-app"
    /\ (Shape.idle scriptsPath "/home/user/my-k8s-app/my-k8s-app"
          (Bootstrap.basename "/home/user/my-k8s-app/my-k8s-app") false
          "/home/user/my-k8s-app"
          (set_root_dir (Some ["package.json"; "node_modules"])
             (set_spawned
                [("npm", ["install"; "--save"; "--save-exact"; "--loglevel";
                          "error"; "k8s-scripts"])]
                (set_process_cwd "/home/user/my-k8s-app/my-k8s-app"
                   (set_console
                      [""; "Creating a new Kubernetes app in /home/user/my-k8s-app/my-k8s-app.";
                       "";
                       "Installing packages. This might take a couple of minutes."]
                      (Shape.fresh (Some 0%Z))))))
        = (Returned tt,
           set_root_dir (Some ["package.json"; "node_modules"])
             (set_spawned
                [("npm", ["install"; "--save"; "--save-exact"; "--loglevel";
                          "error"; "k8s-scripts"])]
                (set_process_cwd "/home/user/my-k8s-app/my-k8s-app"
                   (set_console
                      [""; "Creating a new Kubernetes app in /home/user/my-k8s-app/my-k8s-app.";
                       "";
                       "Installing packages. This might take a couple of minutes."]
                      (Shape.fresh (Some 0%Z)))))) ->
        Bootstrap.createApp (fun _ => Some ["package.json"; "node_modules"])
          Shape.idle "my-k8s-app" false None (Shape.fresh (Some 0%Z))
        = (Returned (Some (Resolved tt)),
           set_root_dir (Some ["package.json"; "node_modules"])
             (set_spawned
                [("npm", ["install"; "--save"; "--save-exact"; "--loglevel";
                          "error"; "k8s-scripts"])]
                (set_process_cwd "/home/user/my-k8s-app/my-k8s-app"
                   (set_console
                      [""; "Creating a new Kubernetes app in /home/user/my-k8s-app/my-k8s-app.";
                       "";
                       "Installing packages. This might take a couple of minutes."]
                      (Shape.fresh (Some 0%Z))))))).
Proof.
  apply (createApp_hands_over
           (fun _ => Some ["package.json"; "node_modules"]) Shape.idle
           "my-k8s-app" "/home/user/my-k8s-app/my-k8s-app" false
           (Shape.fresh (Some 0%Z))
           (set_root_dir (Some ["package.json"; "node_modules"])
              (set_spawned
                 [("npm", ["install"; "--save"; "--save-exact"; "--loglevel";
                           "error"; "k8s-scripts"])]
                 (set_process_cwd "/home/user/my-k8s-app/my-k8s-app"
                    (set_console
                       [""; "Creating a new Kubernetes app in /home/user/my-k8s-app/my-k8s-app.";
                        "";
                        "Installing packages. This might take a couple of minutes."]
                       (Shape.fresh (Some 0%Z))))))
           []);
    [right; split; reflexivity | reflexivity..].
Defined.

(** X28.  When the stream of a tarball-shaped reference emits [error],
    the chain of [run] is never settled: the package manager is not
    started, the initializer is not called, and the rollback does not
    run, so the manifest stays in the root and [process.exit] is not
    called. *)
Theorem run_stream_error :
  forall (npm : Bootstrap.child) (init : Bootstrap.initializer)
         (root appName : string) (version : value) (verbose : bool)
         (od ref d : string) (e : error) (w : world),
    getInstallPackage version od w = (Returned ref, w) ->
    Regex.test Patterns.tarball ref = true ->
    tmp_dir w = inr d ->
    unpack w (if String.prefix "http" ref
              then Hyperquest ref else ReadStream ref) d = StreamError e ->
    Bootstrap.run npm init root appName version verbose od w
    = (Returned (Uncaught e),
       set_console
         (console w
            ++ ["Installing packages. This might take a couple of minutes."])
         w).
Proof.
  intros npm init root appName version verbose od ref d e w
         Hinstall Htar Htmp Hunpack.
  unfold Bootstrap.run. unfold bind at 1. rewrite Hinstall.
  unfold bind at 1, console_log at 1.
  unfold catch_, then_.
  rewrite (getPackageName_uncaught ref d e); [reflexivity | exact Htar | |].
  - now destruct w.
  - destruct w; exact Hunpack.
Qed.

Lemma run_stream_error_witness :
  Bootstrap.run (fun l => l) Shape.idle "/home/user/my-k8s-app"
    "my-k8s-app" (Some "/home/user/my-k8s-scripts-0.8.2.tgz") false
    "/home/user" Shape.unreadable
  = (Returned (Uncaught (Error "ENOENT: no such file or directory, open")),
     set_console
       (console Shape.unreadable
          ++ ["Installing packages. This might take a couple of minutes."])
       Shape.unreadable).
Proof.
  apply (run_stream_error (fun l => l) Shape.idle "/home/user/my-k8s-app"
           "my-k8s-app" (Some "/home/user/my-k8s-scripts-0.8.2.tgz") false
           "/home/user" "/home/user/my-k8s-scripts-0.8.2.tgz"
           "/tmp/tmp-4242" (Error "ENOENT: no such file or directory, open")
           Shape.unreadable); reflexivity.
Defined.
